(** * E-commerce review analysis: scraping sessions, job tracking and the
      analysis stages

    A shallow embedding of the parts of the backend that drive scraping and
    analysis:

    - [app/routers/scraping.py]: the in-memory job registry [scrape_jobs],
      the background driver [run_scrape_job] and [cancel_scrape];
    - [app/services/scraper/amazon.py], [flipkart.py]: the pagination loops
      of [scrape_reviews];
    - [app/services/analysis/fake_detection.py]: [calculate_suspicious_score]
      and [detect_fake_reviews];
    - [app/services/analysis/sentiment.py]: [analyze_text],
      [analyze_texts_batch], [analyze_product_sentiment];
    - [app/services/analysis/insights.py]: the overall score of
      [generate_product_insights];
    - [app/routers/analysis.py]: [get_cached_analysis], [save_analysis_cache]
      and the four cached endpoints;
    - [app/services/scraper/flipkart.py]: [_parse_review_from_strings] and
      the parsing loop of [_extract_reviews_from_soup];
    - [app/services/analysis/fake_detection.py]: [get_suspicion_reasons]
      and [check_duplicate_reviews];
    - [app/services/analysis/aspects.py]: [extract_sentences] and
      [find_aspect_in_text];
    - [app/services/analysis/topics.py]: [preprocess_text];
    - [app/services/analysis/insights.py]: [extract_common_keywords].

    Conventions.  Python [int] is [Z]; Python [float] is modelled by exact
    rationals [Q]; [str] is [string], read as a sequence of 7-bit ASCII
    characters (case and white space of other code points are not modelled);
    [datetime] values are microseconds in [Z].  Network responses, the
    HTML parser, the progress callback of a scrape, the wall clock and
    the transformer pipeline are inputs of the model. *)

From Stdlib Require Import ZArith QArith List String Ascii Bool Lia Lqa.
From stdpp Require Import gmap strings list pretty.
Import ListNotations.

Local Open Scope string_scope.
Local Open Scope Z_scope.

(** ** Python string operations used by the services *)

Module Py.

(** [c.isspace()] on ASCII: TAB, LF, VT, FF, CR, FS, GS, RS, US and space. *)
Definition isspace (c : ascii) : bool :=
  let n := nat_of_ascii c in
  ((9 <=? n) && (n <=? 13) || (28 <=? n) && (n <=? 32))%nat.

Definition isupper (c : ascii) : bool :=
  let n := nat_of_ascii c in ((65 <=? n) && (n <=? 90))%nat.

Definition isdigit (c : ascii) : bool :=
  let n := nat_of_ascii c in ((48 <=? n) && (n <=? 57))%nat.

Definition islower (c : ascii) : bool :=
  let n := nat_of_ascii c in ((97 <=? n) && (n <=? 122))%nat.

(** [\w] of the [re] module on ASCII. *)
Definition isword (c : ascii) : bool :=
  isupper c || islower c || isdigit c || Ascii.eqb c "_"%char.

Definition lower_char (c : ascii) : ascii :=
  if isupper c then ascii_of_nat (nat_of_ascii c + 32) else c.

(** [s.lower()] *)
Fixpoint lower (s : string) : string :=
  match s with
  | EmptyString => EmptyString
  | String c s' => String (lower_char c) (lower s')
  end.

(** [len(s)] *)
Definition len (s : string) : Z := Z.of_nat (String.length s).

(** [not s] for a [str] *)
Definition is_empty (s : string) : bool :=
  match s with EmptyString => true | _ => false end.

(** [s.split()]: the maximal runs of non-space characters, in order.
    [cur] is the word being read. *)
Fixpoint split_from (cur s : string) : list string :=
  match s with
  | EmptyString => if is_empty cur then [] else [cur]
  | String c s' =>
      if isspace c
      then (if is_empty cur then split_from EmptyString s'
            else cur :: split_from EmptyString s')
      else split_from (cur ++ String c EmptyString) s'
  end.

Definition split (s : string) : list string := split_from EmptyString s.

(** [sub in s] *)
Fixpoint contains (sub s : string) : bool :=
  String.prefix sub s ||
  match s with
  | EmptyString => false
  | String _ s' => contains sub s'
  end.

(** [sum(1 for c in s if p(c))] *)
Fixpoint count_if (p : ascii -> bool) (s : string) : Z :=
  match s with
  | EmptyString => 0
  | String c s' => (if p c then 1 else 0) + count_if p s'
  end.

(** [s.count(c)] for a one-character [c] *)
Definition count (c : ascii) (s : string) : Z := count_if (Ascii.eqb c) s.

(** [s.lstrip()], [s.rstrip()], [s.strip()] *)
Fixpoint lstrip (s : string) : string :=
  match s with
  | EmptyString => EmptyString
  | String c s' => if isspace c then lstrip s' else s
  end.

Fixpoint rstrip (s : string) : string :=
  match s with
  | EmptyString => EmptyString
  | String c s' =>
      let r := rstrip s' in
      if isspace c && is_empty r then EmptyString else String c r
  end.

Definition strip (s : string) : string := rstrip (lstrip s).

(** [s[:n]] for a non-negative literal [n] *)
Fixpoint take (n : nat) (s : string) : string :=
  match n, s with
  | O, _ => EmptyString
  | _, EmptyString => EmptyString
  | S n', String c s' => String c (take n' s')
  end.

(** The fragment of [re] syntax the services use.  [RClass] is a character
    class ([\d], [\s], [[-.\s]]), [RPlus] is [+] applied to a class and
    [RBoundary] is [\b]. *)
Inductive regex : Type :=
| RChar (c : ascii)
| RClass (p : ascii -> bool)
| RPlus (p : ascii -> bool)
| RSeq (r1 r2 : regex)
| RAlt (r1 r2 : regex)
| ROpt (r : regex)
| REps
| RBoundary.

Definition is_word_opt (o : option ascii) : bool :=
  match o with Some c => isword c | None => false end.

Definition head_char (s : string) : option ascii :=
  match s with EmptyString => None | String c _ => Some c end.

(** [match_here r prev s k]: some prefix of [s] matches [r] and the
    continuation [k] accepts what follows; [prev] is the character before
    the current position (for [\b]). *)
Fixpoint match_here (r : regex) (prev : option ascii) (s : string)
  (k : option ascii -> string -> bool) {struct r} : bool :=
  match r with
  | RChar c =>
      match s with
      | String a s' => Ascii.eqb a c && k (Some a) s'
      | EmptyString => false
      end
  | RClass p =>
      match s with
      | String a s' => p a && k (Some a) s'
      | EmptyString => false
      end
  | RPlus p =>
      (fix plus (s : string) : bool :=
         match s with
         | String a s' => p a && (plus s' || k (Some a) s')
         | EmptyString => false
         end) s
  | RSeq r1 r2 =>
      match_here r1 prev s (fun prev' s' => match_here r2 prev' s' k)
  | RAlt r1 r2 => match_here r1 prev s k || match_here r2 prev s k
  | ROpt r1 => match_here r1 prev s k || k prev s
  | REps => k prev s
  | RBoundary =>
      xorb (is_word_opt prev) (is_word_opt (head_char s)) && k prev s
  end.

Fixpoint search_from (r : regex) (prev : option ascii) (s : string) : bool :=
  match_here r prev s (fun _ _ => true) ||
  match s with
  | EmptyString => false
  | String c s' => search_from r (Some c) s'
  end.

(** [re.search(r, s)] as a truth value *)
Definition re_search (r : regex) (s : string) : bool := search_from r None s.

(** [a < b], [max(a, b)] and [min(a, b)] on rationals *)
Definition Qltb (a b : Q) : bool := negb (Qle_bool b a).
Definition max_Q (a b : Q) : Q := if Qltb a b then b else a.
Definition min_Q (a b : Q) : Q := if Qltb b a then b else a.

(** The integer nearest to [x], ties going to the even one. *)
Definition round_half_even (x : Q) : Z :=
  let n := Qnum (Qred x) in
  let d := Zpos (Qden (Qred x)) in
  let f := n / d in
  let r := 2 * (n mod d) in
  if r <? d then f
  else if d <? r then f + 1
  else if Z.even f then f else f + 1.

(** [round(x, 1)] and [round(x, 2)] *)
Definition round1 (x : Q) : Q := inject_Z (round_half_even (x * 10)) / 10.
Definition round2 (x : Q) : Q := inject_Z (round_half_even (x * 100)) / 100.

(** A literal word, and [r{n}]. *)
Fixpoint RLit (s : string) : regex :=
  match s with
  | EmptyString => REps
  | String c s' => RSeq (RChar c) (RLit s')
  end.

Fixpoint RRep (n : nat) (r : regex) : regex :=
  match n with
  | O => REps
  | S n' => RSeq r (RRep n' r)
  end.

(** [s.replace(old, new)] for a non-empty [old]: the occurrences of [old]
    are found from left to right and do not overlap.  [skip] counts the
    characters of a found occurrence that are still to be dropped. *)
Fixpoint replace_from (old new : string) (skip : nat) (s : string) : string :=
  match s with
  | EmptyString => EmptyString
  | String c s' =>
      match skip with
      | S k => replace_from old new k s'
      | O =>
          if String.prefix old s
          then new ++ replace_from old new (String.length old - 1) s'
          else String c (replace_from old new O s')
      end
  end.

Definition replace (old new s : string) : string := replace_from old new O s.

(** [sep.join(l)] *)
Fixpoint join (sep : string) (l : list string) : string :=
  match l with
  | [] => EmptyString
  | [x] => x
  | x :: l' => x ++ sep ++ join sep l'
  end.

(** [all(p(c) for c in s)] *)
Fixpoint all_chars (p : ascii -> bool) (s : string) : bool :=
  match s with
  | EmptyString => true
  | String c s' => p c && all_chars p s'
  end.

(** [s.isdigit()]: at least one character, all of them digits *)
Definition isdigit_str (s : string) : bool :=
  negb (is_empty s) && all_chars isdigit s.

(** The value of a run of decimal digits in which single underscores may
    separate digits, read after the digits [acc]; [None] when the run is
    not of that form.  [after_digit] tells whether the previous character
    was a digit. *)
Fixpoint digits_value (acc : Z) (after_digit : bool) (s : string) : option Z :=
  match s with
  | EmptyString => if after_digit then Some acc else None
  | String c s' =>
      if isdigit c
      then digits_value (10 * acc + Z.of_nat (nat_of_ascii c - 48)) true s'
      else if Ascii.eqb c "_" && after_digit
           then match s' with
                | EmptyString => None
                | String c' _ =>
                    if isdigit c' then digits_value acc false s' else None
                end
           else None
  end.

(** [int(s)] on ASCII text: surrounding white space, an optional sign,
    decimal digits.  [None] is the [ValueError]. *)
Definition int (s : string) : option Z :=
  match strip s with
  | String "+" d => digits_value 0 false d
  | String "-" d => Z.opp <$> digits_value 0 false d
  | d => digits_value 0 false d
  end.

(** [l[i]] for a non-negative index *)
Definition item {A : Type} (l : list A) (i : nat) : option A := nth_error l i.

(** [s.strip(chars)] *)
Fixpoint lstrip_chars (p : ascii -> bool) (s : string) : string :=
  match s with
  | EmptyString => EmptyString
  | String c s' => if p c then lstrip_chars p s' else s
  end.

Fixpoint rstrip_chars (p : ascii -> bool) (s : string) : string :=
  match s with
  | EmptyString => EmptyString
  | String c s' =>
      let r := rstrip_chars p s' in
      if p c && is_empty r then EmptyString else String c r
  end.

Definition strip_chars (p : ascii -> bool) (s : string) : string :=
  rstrip_chars p (lstrip_chars p s).

(** [c in chars] for a string of characters *)
Definition char_in (chars : string) (c : ascii) : bool :=
  negb (all_chars (fun x => negb (Ascii.eqb x c)) chars).

(** [re.split(r'[...]+', s)] for a character class [p]: the pieces between
    the maximal runs of characters of the class, including the empty piece
    before a leading run and after a trailing one.  [cur] is the piece
    being read, [in_run] tells whether the previous character was of the
    class. *)
Fixpoint re_split_from (p : ascii -> bool) (cur : string) (in_run : bool)
  (s : string) : list string :=
  match s with
  | EmptyString => [cur]
  | String c s' =>
      if p c
      then (if in_run then re_split_from p cur true s'
            else cur :: re_split_from p EmptyString true s')
      else re_split_from p (cur ++ String c EmptyString) false s'
  end.

Definition re_split (p : ascii -> bool) (s : string) : list string :=
  re_split_from p EmptyString false s.

(** [re.sub(r'[^...]', ' ', s)] for a character class [p]: every character
    outside the class becomes a space *)
Fixpoint re_sub_outside (p : ascii -> bool) (s : string) : string :=
  match s with
  | EmptyString => EmptyString
  | String c s' =>
      String (if p c then c else " "%char) (re_sub_outside p s')
  end.

(** [sorted(l, key=key, reverse=True)]: by descending key, elements with
    equal keys staying in their order. *)
Fixpoint insert_by_desc {A : Type} (key : A -> Z) (x : A) (l : list A) : list A :=
  match l with
  | [] => [x]
  | y :: l' => if key y <=? key x then x :: l else y :: insert_by_desc key x l'
  end.

Definition sorted_desc {A : Type} (key : A -> Z) (l : list A) : list A :=
  fold_right (insert_by_desc key) [] l.

(** A [Counter] or a [dict] with string keys, as the list of its items
    in the order the keys were first inserted. *)
Fixpoint counter_add {V : Type} (f : option V -> V) (k : string)
  (d : list (string * V)) : list (string * V) :=
  match d with
  | [] => [(k, f None)]
  | (k', v) :: d' =>
      if String.eqb k' k then (k', f (Some v)) :: d'
      else (k', v) :: counter_add f k d'
  end.

(** [counter[k] += n] *)
Definition counter_incr (n : Z) (k : string) (d : list (string * Z))
  : list (string * Z) :=
  counter_add (fun o => match o with Some v => v + n | None => n end) k d.

(** [counter.most_common(n)] for a non-negative [n] *)
Definition most_common (n : nat) (d : list (string * Z)) : list (string * Z) :=
  firstn n (sorted_desc snd d).

End Py.

(** ** The persisted review rows ([app/models/review.py]) *)

Module Models.

Record Review : Type := mkReview {
  review_id : Z;
  product_id : Z;
  review_text : string;
  rating : Z;
  verified_purchase : bool;
  sentiment_label : option string;
  sentiment_score : option Q;
  is_suspicious : bool;
  suspicious_score : Z;
  analyzed_at : option Z
}.

End Models.

(** ** Fake review detection ([app/services/analysis/fake_detection.py]) *)

Module FakeDetection.
Import Py Models.

Definition GENERIC_PHRASES : list string :=
  [ "good product"; "nice product"; "best product"; "worst product";
    "highly recommend"; "do not buy"; "waste of money"; "value for money";
    "must buy"; "don't buy"; "excellent"; "terrible"; "amazing"; "horrible";
    "five stars"; "one star"; "5 stars"; "1 star" ].

Definition digit : regex := RClass isdigit.
Definition sep : regex :=
  ROpt (RClass (fun c => Ascii.eqb c "-" || Ascii.eqb c "." || isspace c)).

(** [r'http[s]?://'],
    [r'\b(seller|shop|store)\s+(is|was)\s+(great|best|good)\b'],
    [r'(\d{10}|\d{3}[-.\s]?\d{3}[-.\s]?\d{4})'] *)
Definition spam_patterns : list regex :=
  [ RSeq (RLit "http") (RSeq (ROpt (RChar "s")) (RLit "://"));
    RSeq RBoundary
      (RSeq (RAlt (RLit "seller") (RAlt (RLit "shop") (RLit "store")))
      (RSeq (RPlus isspace)
      (RSeq (RAlt (RLit "is") (RLit "was"))
      (RSeq (RPlus isspace)
      (RSeq (RAlt (RLit "great") (RAlt (RLit "best") (RLit "good")))
            RBoundary)))));
    RAlt (RRep 10 digit)
         (RSeq (RRep 3 digit) (RSeq sep (RSeq (RRep 3 digit)
               (RSeq sep (RRep 4 digit))))) ].

(** [review.rating in [1, 5]] *)
Definition extreme_rating (r : Z) : bool := (r =? 1) || (r =? 5).

(** [sum(1 for phrase in GENERIC_PHRASES if phrase in text)] *)
Definition generic_count (text : string) : Z :=
  Z.of_nat (length (filter (fun phrase => contains phrase text = true)
                           GENERIC_PHRASES)).

(** [sum(1 for c in review_text if c.isupper()) / max(len(review_text), 1)] *)
Definition caps_ratio (review_text : string) : Q :=
  inject_Z (count_if isupper review_text) / inject_Z (Z.max (len review_text) 1).

Definition calculate_suspicious_score (review : Review) : Z :=
  let score := 0 in
  let text := lower (review_text review) in
  let word_count := Z.of_nat (length (split text)) in
  (* 1. short reviews with extreme ratings *)
  let score :=
    if (word_count <? 10) && extreme_rating (rating review) then score + 30
    else if (word_count <? 20) && extreme_rating (rating review) then score + 15
    else score in
  (* 2. unverified purchase *)
  let score := if negb (verified_purchase review) then score + 25 else score in
  (* 3. generic phrases *)
  let score := score + Z.min 20 (generic_count text * 5) in
  (* 4. all caps or excessive punctuation *)
  let score :=
    if Qltb (1 # 2) (caps_ratio (review_text review)) then score + 10 else score in
  let exclamation_count := count "!" (review_text review) in
  let score := if 3 <? exclamation_count then score + 5 else score in
  (* 5. extremely short *)
  let score := if word_count <? 5 then score + 10 else score in
  (* 6. perfect rating with very short review *)
  let score :=
    if (rating review =? 5) && (word_count <? 15) then score + 10 else score in
  (* 7. spam indicators: the first pattern that matches adds 10, once *)
  let score :=
    if existsb (fun pattern => re_search pattern text) spam_patterns
    then score + 10 else score in
  Z.min 100 score.

(** One turn of the loop of [detect_fake_reviews] over a review row. *)
Definition score_review (review : Review) : Review :=
  let score := calculate_suspicious_score review in
  {| review_id := review_id review; product_id := product_id review;
     review_text := review_text review; rating := rating review;
     verified_purchase := verified_purchase review;
     sentiment_label := sentiment_label review;
     sentiment_score := sentiment_score review;
     is_suspicious := (50 <=? score);
     suspicious_score := score;
     analyzed_at := analyzed_at review |}.

Record FakeReport : Type := mkFakeReport {
  total_reviews : Z;
  suspicious_count : Z;
  suspicious_percent : Q;
  (** [(review_id, suspicious_score)] of the flagged reviews, highest first,
      at most ten *)
  suspicious_reviews : list (Z * Z)
}.

(** [list.sort(key=lambda x: x["suspicious_score"], reverse=True)]: by
    descending score, entries with equal scores staying in their order.
    [insert_desc] puts [x] before the first entry that does not beat it. *)
Fixpoint insert_desc (x : Z * Z) (l : list (Z * Z)) : list (Z * Z) :=
  match l with
  | [] => [x]
  | y :: l' => if snd y <=? snd x then x :: l else y :: insert_desc x l'
  end.

Definition sort_desc (l : list (Z * Z)) : list (Z * Z) :=
  fold_right insert_desc [] l.

(** [detect_fake_reviews(db, product_id)] on the table of review rows: the
    rows of the product are rescored in place, the others are untouched. *)
Definition detect_fake_reviews (db : list Review) (pid : Z)
  : list Review * FakeReport :=
  let reviews := filter (fun r => product_id r = pid) db in
  match reviews with
  | [] => (db, mkFakeReport 0 0 0 [])
  | _ =>
      let db' := map (fun r => if decide (product_id r = pid)
                               then score_review r else r) db in
      let flagged :=
        map (fun r => (review_id r, suspicious_score r))
            (filter (fun r => is_suspicious r = true) (map score_review reviews)) in
      let n := Z.of_nat (length reviews) in
      let k := Z.of_nat (length flagged) in
      (db', mkFakeReport n k
              (round1 (inject_Z k / inject_Z n * 100))
              (firstn 10 (sort_desc flagged)))
  end.

End FakeDetection.


(** ** Scrape jobs ([app/schemas/scraping.py], [app/routers/scraping.py]) *)

(** What the routers raise: [raise HTTPException(status_code=..., detail=...)] *)
Record HTTPException : Type := mkHTTPException {
  status_code : Z;
  detail : string
}.


Module Scraping.
Import Py.

Inductive JobStatus : Type := PENDING | RUNNING | COMPLETED | FAILED | CANCELLED.

#[global] Instance JobStatus_eq_dec : EqDecision JobStatus.
Proof. solve_decision. Defined.

(** One value of the dictionary [scrape_jobs]. *)
Record Job : Type := mkJob {
  job_id : string;
  status : JobStatus;
  product_id : option Z;
  progress : Z;
  reviews_scraped : Z;
  message : option string;
  started_at : option Z;
  completed_at : option Z;
  error : option string
}.

Definition set_status (s : JobStatus) (j : Job) : Job :=
  mkJob (job_id j) s (product_id j) (progress j) (reviews_scraped j)
        (message j) (started_at j) (completed_at j) (error j).
Definition set_product_id (p : Z) (j : Job) : Job :=
  mkJob (job_id j) (status j) (Some p) (progress j) (reviews_scraped j)
        (message j) (started_at j) (completed_at j) (error j).
Definition set_progress (p : Z) (j : Job) : Job :=
  mkJob (job_id j) (status j) (product_id j) p (reviews_scraped j)
        (message j) (started_at j) (completed_at j) (error j).
Definition set_reviews_scraped (c : Z) (j : Job) : Job :=
  mkJob (job_id j) (status j) (product_id j) (progress j) c
        (message j) (started_at j) (completed_at j) (error j).
Definition set_message (m : string) (j : Job) : Job :=
  mkJob (job_id j) (status j) (product_id j) (progress j) (reviews_scraped j)
        (Some m) (started_at j) (completed_at j) (error j).
Definition set_started_at (t : Z) (j : Job) : Job :=
  mkJob (job_id j) (status j) (product_id j) (progress j) (reviews_scraped j)
        (message j) (Some t) (completed_at j) (error j).
Definition set_completed_at (t : Z) (j : Job) : Job :=
  mkJob (job_id j) (status j) (product_id j) (progress j) (reviews_scraped j)
        (message j) (started_at j) (Some t) (error j).
Definition set_error (e : string) (j : Job) : Job :=
  mkJob (job_id j) (status j) (product_id j) (progress j) (reviews_scraped j)
        (message j) (started_at j) (completed_at j) (Some e).

(** The router's [detect_platform]; [None] is the [ValueError]. *)
Definition detect_platform (url : string) : option string :=
  let url_lower := lower url in
  if contains "amazon" url_lower then Some "amazon"
  else if contains "flipkart" url_lower then Some "flipkart"
  else None.

(** [POST ""]: [uuid] is the fresh [uuid4] string.  The background task
    that the handler queues is [run_scrape_job] below. *)
Definition start_scraping (uuid url : string) (scrape_jobs : gmap string Job)
  : HTTPException + (gmap string Job * Job) :=
  match detect_platform url with
  | None =>
      inl (mkHTTPException 400
             "Unsupported platform. Only Amazon and Flipkart are supported.")
  | Some platform =>
      let job := mkJob uuid PENDING None 0 0
                   (Some ("Scraping " ++ platform ++ " product..."))
                   None None None in
      inr (<[uuid := job]> scrape_jobs, job)
  end.

(** [GET "/{job_id}/status"] *)
Definition get_scrape_status (jid : string) (scrape_jobs : gmap string Job)
  : HTTPException + Job :=
  match scrape_jobs !! jid with
  | None => inl (mkHTTPException 404 "Job not found")
  | Some job => inr job
  end.

(** [DELETE "/{job_id}"] at clock reading [now]. *)
Definition cancel_scrape (jid : string) (now : Z) (scrape_jobs : gmap string Job)
  : HTTPException + gmap string Job :=
  match scrape_jobs !! jid with
  | None => inl (mkHTTPException 404 "Job not found")
  | Some job =>
      if bool_decide (status job = COMPLETED) || bool_decide (status job = FAILED)
      then inl (mkHTTPException 400 "Job already finished")
      else
        let job := set_status CANCELLED job in
        let job := set_completed_at now job in
        let job := set_message "Job cancelled by user" job in
        inr (<[jid := job]> scrape_jobs)
  end.

(** [update_job_progress], the progress callback. *)
Definition update_job_progress (jid : string) (p reviews_count : Z)
  (scrape_jobs : gmap string Job) : gmap string Job :=
  match scrape_jobs !! jid with
  | Some job => <[jid := set_reviews_scraped reviews_count (set_progress p job)]> scrape_jobs
  | None => scrape_jobs
  end.

(** [run_scrape_job] is a coroutine: it runs without interruption up to
    [await scrape_product(...)] and again from the return of that call.
    The three pieces below are these uninterrupted runs; other handlers
    (and the progress callback) run in between.  A missing key leaves the
    registry as it is (the [KeyError] ends the task). *)

(** Lines 31-32: before the [await]. *)
Definition run_scrape_job_begin (jid : string) (now : Z)
  (scrape_jobs : gmap string Job) : gmap string Job :=
  match scrape_jobs !! jid with
  | Some job => <[jid := set_started_at now (set_status RUNNING job)]> scrape_jobs
  | None => scrape_jobs
  end.

(** Lines 41-46: [scrape_product] returned [(product_id, reviews_count)]. *)
Definition run_scrape_job_returned (jid : string) (pid reviews_count now : Z)
  (scrape_jobs : gmap string Job) : gmap string Job :=
  match scrape_jobs !! jid with
  | Some job =>
      let job := set_status COMPLETED job in
      let job := set_product_id pid job in
      let job := set_reviews_scraped reviews_count job in
      let job := set_progress 100 job in
      let job := set_completed_at now job in
      let job := set_message
        ("Successfully scraped " ++ pretty reviews_count ++ " reviews") job in
      <[jid := job]> scrape_jobs
  | None => scrape_jobs
  end.

(** Lines 48-51: [scrape_product] raised [e]. *)
Definition run_scrape_job_raised (jid : string) (e : string) (now : Z)
  (scrape_jobs : gmap string Job) : gmap string Job :=
  match scrape_jobs !! jid with
  | Some job =>
      <[jid := set_completed_at now (set_error e (set_status FAILED job))]> scrape_jobs
  | None => scrape_jobs
  end.

(** What can happen to the registry, one uninterrupted piece at a time. *)
Inductive Event : Type :=
| Create (uuid url : string)
| DriverBegin (jid : string) (now : Z)
| Progress (jid : string) (p reviews_count : Z)
| DriverReturned (jid : string) (pid reviews_count now : Z)
| DriverRaised (jid : string) (e : string) (now : Z)
| Cancel (jid : string) (now : Z).

Definition step (scrape_jobs : gmap string Job) (ev : Event) : gmap string Job :=
  match ev with
  | Create uuid url =>
      match start_scraping uuid url scrape_jobs with
      | inr (jobs, _) => jobs
      | inl _ => scrape_jobs
      end
  | DriverBegin jid now => run_scrape_job_begin jid now scrape_jobs
  | Progress jid p c => update_job_progress jid p c scrape_jobs
  | DriverReturned jid pid c now => run_scrape_job_returned jid pid c now scrape_jobs
  | DriverRaised jid e now => run_scrape_job_raised jid e now scrape_jobs
  | Cancel jid now =>
      match cancel_scrape jid now scrape_jobs with
      | inr jobs => jobs
      | inl _ => scrape_jobs
      end
  end.

(** The value of [scrape_jobs[jid]["status"]] after each event of a run
    ([None] while the key is absent). *)
Fixpoint status_history (jid : string) (scrape_jobs : gmap string Job)
  (evs : list Event) : list (option JobStatus) :=
  match evs with
  | [] => []
  | ev :: evs' =>
      let jobs := step scrape_jobs ev in
      (status <$> jobs !! jid) :: status_history jid jobs evs'
  end.

End Scraping.

(** ** Scrape sessions ([app/services/scraper/amazon.py], [flipkart.py]) *)

(** The dictionaries built by [_parse_review] and
    [_parse_review_from_strings]. *)
Module Scraper.

Record RawReview : Type := mkRawReview {
  text : string;
  rating : Z;
  date : Z;
  reviewer_name : string;
  verified : bool;
  helpful_count : Z
}.

(** [any(r['text'] == review['text'] for r in reviews)] *)
Definition seen (reviews : list RawReview) (review : RawReview) : bool :=
  existsb (fun r => String.eqb (text r) (text review)) reviews.

(** The local variables of [scrape_reviews].  [stopped] records a [break];
    [requested] lists, oldest first, the page indices for which an
    iteration built a request. *)
Record Session : Type := mkSession {
  reviews : list RawReview;
  page : Z;
  consecutive_empty : Z;
  consecutive_errors : Z;
  stopped : bool;
  requested : list Z
}.

Definition start : Session := mkSession [] 1 0 0 false [].

(** [while len(reviews) < max_reviews and consecutive_empty < 3
          and consecutive_errors < 5] *)
Definition loop_condition (max_reviews : Z) (s : Session) : bool :=
  (Z.of_nat (length (reviews s)) <? max_reviews)
  && (consecutive_empty s <? 3) && (consecutive_errors s <? 5).

End Scraper.

Module AmazonScraper.
Import Scraper.

(** What one review page shows: the CAPTCHA input, the block phrases, and
    the review [div]s, each with the result of [_parse_review] on it. *)
Record Page : Type := mkPage {
  captcha : bool;
  blocked : bool;
  review_divs : list (option RawReview)
}.

(** The outcome of [session.get], with what [progress_callback] does
    when the [div]s of the body are the ones appended: the request, or
    the reading of its body, raises; or it returns a response and the
    callback, if there is one, returns from every call; or it returns a
    response of status 200 and the callback raises at its call number
    [call] (from 0) of the append loop, should the loop get that far. *)
Inductive Response : Type :=
| Raised
| Got (status_code : Z) (body : Page)
| CallbackRaised (body : Page) (call : nat).

(** [response.status_code] and the parsed body, when there is a
    response. *)
Definition received (r : Response) : option (Z * Page) :=
  match r with
  | Raised => None
  | Got code body => Some (code, body)
  | CallbackRaised body _ => Some (200, body)
  end.

(** The call at which [progress_callback] raises, if it does. *)
Definition raising_call (r : Response) : option nat :=
  match r with
  | CallbackRaised _ call => Some call
  | _ => None
  end.

(** What the network gives during one iteration: the answer to the page
    request and, should the fallback URL be tried, the answer to that
    ([None]: the fallback URL equals the page URL). *)
Record Fetch : Type := mkFetch {
  response : Response;
  fallback : option Response
}.

(** The [for div in review_divs] loop. *)
Fixpoint add_reviews (max_reviews : Z) (reviews : list RawReview)
  (divs : list (option RawReview)) : list RawReview :=
  match divs with
  | [] => reviews
  | div :: divs' =>
      if max_reviews <=? Z.of_nat (length reviews) then reviews
      else match div with
           | Some review =>
               if seen reviews review
               then add_reviews max_reviews reviews divs'
               else add_reviews max_reviews (reviews ++ [review]) divs'
           | None => add_reviews max_reviews reviews divs'
           end
  end.

(** The [for div in review_divs] loop when [progress_callback] raises at
    its call number [call]: the list at that moment, or [None] when the
    loop ends before that call is made.  The callback is called after
    every [div] that parses, appended or not. *)
Fixpoint add_reviews_until (max_reviews : Z) (reviews : list RawReview)
  (divs : list (option RawReview)) (call : nat) : option (list RawReview) :=
  match divs with
  | [] => None
  | div :: divs' =>
      if max_reviews <=? Z.of_nat (length reviews) then None
      else match div with
           | Some review =>
               let reviews :=
                 if seen reviews review then reviews
                 else (reviews ++ [review])%list in
               match call with
               | O => Some reviews
               | S call' => add_reviews_until max_reviews reviews divs' call'
               end
           | None => add_reviews_until max_reviews reviews divs' call
           end
  end.

Definition blocked_status (code : Z) : bool :=
  (code =? 503) || (code =? 403) || (code =? 429).

(** The body of the [while] loop, for one iteration. *)
Definition iteration (max_reviews : Z) (s : Session) (f : Fetch) : Session :=
  let s := mkSession (reviews s) (page s) (consecutive_empty s)
             (consecutive_errors s) (stopped s) (requested s ++ [page s]) in
  match received (response f) with
  | None =>
      (* except Exception *)
      mkSession (reviews s) (page s) (consecutive_empty s)
        (consecutive_errors s + 1) false (requested s)
  | Some (code, body) =>
      if negb (code =? 200) then
        if blocked_status code
        then mkSession (reviews s) (page s) (consecutive_empty s)
               (consecutive_errors s + 1) false (requested s)
        else mkSession (reviews s) (page s + 1) (consecutive_empty s)
               (consecutive_errors s + 1) false (requested s)
      else if captcha body then
        mkSession (reviews s) (page s) (consecutive_empty s)
          (consecutive_errors s) true (requested s)
      else if blocked body then
        mkSession (reviews s) (page s) (consecutive_empty s)
          (consecutive_errors s + 1) false (requested s)
      else
        (* the [div]s to append, and the answer they come from *)
        let '(review_divs, answer) :=
          match review_divs body with
          | [] =>
              if (page s =? 1) && (consecutive_errors s =? 0) then
                match fallback f with
                | Some r =>
                    match received r with
                    | Some (code', fb) =>
                        if code' =? 200 then (review_divs fb, r)
                        else ([], r)
                    | None => ([], r)
                    end
                | None => ([], response f)
                end
              else ([], response f)
          | divs => (divs, response f)
          end in
        match review_divs with
        | [] =>
            mkSession (reviews s) (page s + 1) (consecutive_empty s + 1)
              (consecutive_errors s) false (requested s)
        | _ =>
            match raising_call answer
                  ≫= add_reviews_until max_reviews (reviews s) review_divs with
            | Some reviews' =>
                (* except Exception, both counters having been reset *)
                mkSession reviews' (page s) 0 (0 + 1) false (requested s)
            | None =>
                mkSession (add_reviews max_reviews (reviews s) review_divs)
                  (page s + 1) 0 0 false (requested s)
            end
        end
  end.

Definition running (max_reviews : Z) (s : Session) : bool :=
  negb (stopped s) && loop_condition max_reviews s.

(** The loop, fed with the network's answers in order.  It stops when the
    loop condition fails, after a [break], or when the answers run out. *)
Fixpoint run (max_reviews : Z) (s : Session) (fetches : list Fetch) : Session :=
  match fetches with
  | [] => s
  | f :: fetches' =>
      if running max_reviews s
      then run max_reviews (iteration max_reviews s f) fetches'
      else s
  end.

(** [scrape_reviews]: the returned list, or [None] when the session would
    go on to request another page after the last of [fetches]. *)
Definition scrape_reviews (max_reviews : Z) (fetches : list Fetch)
  : option (list RawReview) :=
  let s := run max_reviews start fetches in
  if running max_reviews s then None else Some (reviews s).

End AmazonScraper.

Module FlipkartScraper.
Import Scraper.

Definition max_pages : Z := 25.

(** The outcome of [session.get], with what [progress_callback] does
    once the reviews of the page are appended: the request, or the
    reading of its body, raises; or it returns a status code with the
    list [_extract_reviews_from_soup] finds in the body, and the
    callback, if there is one and it is called, returns; or it returns
    status 200 with that list and the callback, if the iteration comes
    to call it, raises. *)
Inductive Response : Type :=
| Raised
| Got (status_code : Z) (page_reviews : list RawReview)
| CallbackRaised (page_reviews : list RawReview).

(** How a search URL is handled before the loop. *)
Inductive Search : Type :=
| NotSearchUrl
| Resolved
| Unresolved.

(** The [for review in page_reviews] loop. *)
Fixpoint add_reviews (max_reviews : Z) (reviews : list RawReview)
  (page_reviews : list RawReview) : list RawReview :=
  match page_reviews with
  | [] => reviews
  | review :: rest =>
      if max_reviews <=? Z.of_nat (length reviews) then reviews
      else if seen reviews review
           then add_reviews max_reviews reviews rest
           else add_reviews max_reviews (reviews ++ [review]) rest
  end.

(** The body of the [while] loop, for one iteration. *)
Definition iteration (max_reviews : Z) (s : Session) (r : Response) : Session :=
  if max_pages <? page s then
    (* Reached max page limit *)
    mkSession (reviews s) (page s) (consecutive_empty s)
      (consecutive_errors s) true (requested s)
  else
    let s := mkSession (reviews s) (page s) (consecutive_empty s)
               (consecutive_errors s) (stopped s) (requested s ++ [page s]) in
    match r with
    | Raised =>
        mkSession (reviews s) (page s) (consecutive_empty s)
          (consecutive_errors s + 1) false (requested s)
    | Got code page_reviews =>
        if negb (code =? 200) then
          mkSession (reviews s) (page s + 1) (consecutive_empty s)
            (consecutive_errors s + 1) false (requested s)
        else match page_reviews with
             | [] =>
                 mkSession (reviews s) (page s + 1) (consecutive_empty s + 1)
                   (consecutive_errors s) false (requested s)
             | _ =>
                 mkSession (add_reviews max_reviews (reviews s) page_reviews)
                   (page s + 1) 0 0 false (requested s)
             end
    | CallbackRaised page_reviews =>
        match page_reviews with
        | [] =>
            (* the callback is not reached *)
            mkSession (reviews s) (page s + 1) (consecutive_empty s + 1)
              (consecutive_errors s) false (requested s)
        | _ =>
            (* except Exception, both counters having been reset *)
            mkSession (add_reviews max_reviews (reviews s) page_reviews)
              (page s) 0 (0 + 1) false (requested s)
        end
    end.

Definition running (max_reviews : Z) (s : Session) : bool :=
  negb (stopped s) && loop_condition max_reviews s.

Fixpoint run (max_reviews : Z) (s : Session) (responses : list Response) : Session :=
  match responses with
  | [] => s
  | r :: responses' =>
      if running max_reviews s
      then run max_reviews (iteration max_reviews s r) responses'
      else s
  end.

(** The session after the search-URL check and the loop. *)
Definition session (search : Search) (max_reviews : Z) (responses : list Response)
  : Session :=
  match search with
  | Unresolved => mkSession [] 1 0 0 true []
  | _ => run max_reviews start responses
  end.

(** [scrape_reviews]: the returned list, or [None] when the session would
    go on to request another page after the last of [responses]. *)
Definition scrape_reviews (search : Search) (max_reviews : Z)
  (responses : list Response) : option (list RawReview) :=
  let s := session search max_reviews responses in
  if running max_reviews s then None else Some (reviews s).

End FlipkartScraper.

(** ** Sentiment stage ([app/services/analysis/sentiment.py]) *)

Module Sentiment.
Import Py Models.

(** One entry of the classifier's output: [result['label']],
    [result['score']]. *)
Definition Prediction : Type := (string * Q)%type.

(** The value of a function of this module together with the inputs it
    passed to the transformer pipeline, oldest first. *)
Definition Logged (A : Type) : Type := (A * list (list string))%type.

(** The label mapping shared by both functions:
    LABEL_0/LABEL_1 or POSITIVE/NEGATIVE. *)
Definition map_label (result : Prediction) : string * Q :=
  let label := lower (fst result) in
  let score := snd result in
  if contains "positive" label || String.eqb label "label_1"
  then ("positive", score)
  else if contains "negative" label || String.eqb label "label_0"
  then ("negative", score)
  else ("neutral", score).

(** [texts[i:i + batch_size] for i in range(0, len(texts), batch_size)];
    [fuel] bounds the number of slices. *)
Fixpoint slices (fuel : nat) (batch_size : positive) (texts : list string)
  : list (list string) :=
  match fuel, texts with
  | _, [] => []
  | O, _ => []
  | S fuel', _ =>
      firstn (Pos.to_nat batch_size) texts
      :: slices fuel' batch_size (skipn (Pos.to_nat batch_size) texts)
  end.

Section WithPipeline.

(** The transformer pipeline returned by [get_sentiment_pipeline]: one
    prediction per input text, or [None] when the call raises.  A call on
    a single string is a call on the one-element list. *)
Variable pipeline : list string -> option (list Prediction).

Definition analyze_text (text : string) : Logged (string * Q) :=
  if is_empty text || (len (strip text) <? 3) then (("neutral", 1 # 2), [])
  else
    let text := take 512 text in
    match pipeline [text] with
    | Some (result :: _) => (map_label result, [[text]])
    | _ => (("neutral", 1 # 2), [[text]])
    end.

(** One turn of the loop over the batches. *)
Definition analyze_batch (acc : Logged (list (string * Q))) (batch : list string)
  : Logged (list (string * Q)) :=
  let batch := map (fun t => if is_empty t then "" else take 512 t) batch in
  match pipeline batch with
  | Some batch_results =>
      ((fst acc ++ map map_label batch_results)%list, (snd acc ++ [batch])%list)
  | None =>
      ((fst acc ++ repeat ("neutral", 1 # 2) (length batch))%list,
       (snd acc ++ [batch])%list)
  end.

Definition analyze_texts_batch (texts : list string) (batch_size : positive)
  : Logged (list (string * Q)) :=
  fold_left analyze_batch (slices (length texts) batch_size texts) ([], []).

(** The row update of the loop [for review, (label, score) in zip(...)]. *)
Definition set_sentiment (label : string) (score : Q) (now : Z) (r : Review)
  : Review :=
  mkReview (review_id r) (product_id r) (review_text r) (rating r)
    (verified_purchase r) (Some label) (Some score)
    (is_suspicious r) (suspicious_score r) (Some now).

(** The rows of product [pid] receive the sentiments in order; [zip] stops
    at the shorter of the two lists. *)
Fixpoint store_sentiments (pid now : Z) (db : list Review)
  (sentiments : list (string * Q)) : list Review :=
  match db with
  | [] => []
  | r :: db' =>
      if bool_decide (product_id r = pid) then
        match sentiments with
        | [] => db
        | (label, score) :: rest =>
            set_sentiment label score now r :: store_sentiments pid now db' rest
        end
      else r :: store_sentiments pid now db' sentiments
  end.

(** The counters of that loop. *)
Record Tally : Type := mkTally {
  positive_count : Z;
  negative_count : Z;
  neutral_count : Z;
  mismatch_count : Z;
  total_score : Q
}.

Definition tally_step (t : Tally) (x : Review * (string * Q)) : Tally :=
  let '(review, (label, score)) := x in
  let t :=
    if String.eqb label "positive" then
      mkTally (positive_count t + 1) (negative_count t) (neutral_count t)
        (mismatch_count t) (total_score t + score)
    else if String.eqb label "negative" then
      mkTally (positive_count t) (negative_count t + 1) (neutral_count t)
        (mismatch_count t) (total_score t - score)
    else
      mkTally (positive_count t) (negative_count t) (neutral_count t + 1)
        (mismatch_count t) (total_score t) in
  if (String.eqb label "positive" && (rating review <=? 2))
     || (String.eqb label "negative" && (4 <=? rating review))
  then mkTally (positive_count t) (negative_count t) (neutral_count t)
         (mismatch_count t + 1) (total_score t)
  else t.

(** [zip(reviews, sentiments)] *)
Fixpoint zip {A B : Type} (l : list A) (l' : list B) : list (A * B) :=
  match l, l' with
  | a :: l, b :: l' => (a, b) :: zip l l'
  | _, _ => []
  end.

(** [max(0, min(100, x))] *)
Definition clamp_0_100 (x : Q) : Q := max_Q 0 (min_Q 100 x).

(** [((total_score / total) + 1) / 2 * 100], clamped *)
Definition overall_score_of (total_score : Q) (total : Z) : Q :=
  clamp_0_100 ((total_score / inject_Z total + 1) / 2 * 100).

Definition overall_label_of (overall_score : Q) : string :=
  if Qle_bool 60 overall_score then "positive"
  else if Qle_bool overall_score 40 then "negative"
  else "neutral".

Record SentimentResult : Type := mkSentimentResult {
  overall_score : Q;
  overall_label : string;
  distribution : Tally;
  total_reviews : Z
}.

(** [analyze_product_sentiment(db, product_id)] at clock reading [now]:
    the new review table, the result and the pipeline inputs. *)
Definition analyze_product_sentiment (db : list Review) (pid now : Z)
  : Logged (list Review * SentimentResult) :=
  let reviews := filter (fun r => product_id r = pid) db in
  match reviews with
  | [] => ((db, mkSentimentResult 50 "neutral" (mkTally 0 0 0 0 0) 0), [])
  | _ =>
      let texts := map review_text reviews in
      let '(sentiments, calls) := analyze_texts_batch texts 32 in
      let t := fold_left tally_step (zip reviews sentiments) (mkTally 0 0 0 0 0) in
      let total := Z.of_nat (length reviews) in
      let score := overall_score_of (total_score t) total in
      ((store_sentiments pid now db sentiments,
        mkSentimentResult (round2 score) (overall_label_of score) t total),
       calls)
  end.

End WithPipeline.

End Sentiment.

(** ** Insights stage ([app/services/analysis/insights.py]) *)

Module Insights.
Import Py Models.

(** [if r.sentiment_label]: a label that is neither [None] nor empty *)
Definition labelled (r : Review) : bool :=
  match sentiment_label r with
  | Some l => negb (is_empty l)
  | None => false
  end.

(** [sentiment_dist.get(label, 0)] for
    [sentiment_dist = Counter(r.sentiment_label for r in reviews
                              if r.sentiment_label)] *)
Definition sentiment_dist (reviews : list Review) (label : string) : Z :=
  Z.of_nat (length (filter
    (fun r => labelled r = true /\ sentiment_label r = Some label) reviews)).

(** [sum(sentiment_dist.values())] *)
Definition total_analyzed (reviews : list Review) : Z :=
  Z.of_nat (length (filter (fun r => labelled r = true) reviews)).

(** [sum(r.rating for r in reviews) / len(reviews)] *)
Definition avg_rating (reviews : list Review) : Q :=
  inject_Z (fold_right Z.add 0 (map rating reviews))
  / inject_Z (Z.of_nat (length reviews)).

Definition rating_score (reviews : list Review) : Q :=
  avg_rating reviews / 5 * 100.

Definition sentiment_score_of (reviews : list Review) : Q :=
  if 0 <? total_analyzed reviews then
    let positive_ratio :=
      (inject_Z (sentiment_dist reviews "positive")
       / inject_Z (total_analyzed reviews))%Q in
    let negative_ratio :=
      (inject_Z (sentiment_dist reviews "negative")
       / inject_Z (total_analyzed reviews))%Q in
    (positive_ratio - negative_ratio + 1) / 2 * 100
  else 50.

(** [overall_score = sentiment_score * 0.6 + rating_score * 0.4] for a
    non-empty list of reviews; [50.0] for an empty one. *)
Definition overall_score (reviews : list Review) : Q :=
  match reviews with
  | [] => 50
  | _ => sentiment_score_of reviews * (6 # 10) + rating_score reviews * (4 # 10)
  end.

Record InsightsResult : Type := mkInsightsResult {
  result_overall_score : Q;
  result_total_reviews : Z;
  result_avg_rating : Q;
  fake_review_count : Z
}.

(** [generate_product_insights(db, product_id)]: [None] is the
    [ValueError] for an unknown product.  [products] lists the known
    product ids. *)
Definition generate_product_insights (products : list Z) (db : list Review)
  (pid : Z) : option InsightsResult :=
  if bool_decide (pid ∈ products) then
    let reviews := filter (fun r => product_id r = pid) db in
    match reviews with
    | [] => Some (mkInsightsResult 50 0 0 0)
    | _ =>
        Some (mkInsightsResult
                (round2 (overall_score reviews))
                (Z.of_nat (length reviews))
                (round2 (avg_rating reviews))
                (Z.of_nat (length (filter (fun r => is_suspicious r = true) reviews))))
    end
  else None.

(** The score the specification describes: the weights of the code, with
    the sentiment component computed as in the sentiment stage,
    [((sum of signed confidences) / N + 1) / 2 * 100] where a review
    counts [+confidence] when positive, [-confidence] when negative and
    [0] when neutral, and [N] is the number of reviews. *)
Definition signed_score (r : Review) : Q :=
  match sentiment_label r, sentiment_score r with
  | Some l, Some c =>
      if String.eqb l "positive" then c
      else if String.eqb l "negative" then - c
      else 0
  | _, _ => 0
  end.

Definition specified_sentiment_component (reviews : list Review) : Q :=
  (fold_right Qplus 0%Q (map signed_score reviews)
   / inject_Z (Z.of_nat (length reviews)) + 1) / 2 * 100.

Definition specified_overall_score (reviews : list Review) : Q :=
  (6 # 10) * specified_sentiment_component reviews
  + (4 # 10) * rating_score reviews.

End Insights.

(** ** Cached analysis endpoints ([app/routers/analysis.py]) *)

Module Analysis.

(** The values of a [JSON] column. *)
#[warnings="-register-all"]
Inductive json : Type :=
| JNull
| JBool (b : bool)
| JInt (n : Z)
| JNum (q : Q)
| JStr (s : string)
| JList (l : list json)
| JDict (d : list (string * json)).

(** [if cached:], the truth value Python gives a JSON value *)
Definition truthy (j : json) : bool :=
  match j with
  | JNull => false
  | JBool b => b
  | JInt n => negb (n =? 0)
  | JNum q => negb (Qnum q =? 0)
  | JStr s => negb (Py.is_empty s)
  | JList l => match l with [] => false | _ => true end
  | JDict d => match d with [] => false | _ => true end
  end.

(** A row of [analysis_cache] ([app/models/analysis.py]). *)
Record AnalysisCache : Type := mkAnalysisCache {
  product_id : Z;
  analysis_type : string;
  results : json;
  created_at : Z
}.

(** [.order_by(AnalysisCache.created_at.desc()).first()]: a row with the
    greatest [created_at]; among equal ones the model takes the first in
    table order. *)
Fixpoint newest (rows : list AnalysisCache) : option AnalysisCache :=
  match rows with
  | [] => None
  | c :: rows' =>
      match newest rows' with
      | Some c' => if created_at c <? created_at c' then Some c' else Some c
      | None => Some c
      end
  end.

(** The rows selected by the [filter] of [get_cached_analysis]. *)
Definition rows_for (pid : Z) (type : string) (rows : list AnalysisCache)
  : list AnalysisCache :=
  filter (fun c => product_id c = pid /\ analysis_type c = type) rows.

(** 24 hours, in microseconds *)
Definition day : Z := 86400 * 1000000.

Definition get_cached_analysis (rows : list AnalysisCache) (pid : Z)
  (type : string) (now : Z) : option json :=
  match newest (rows_for pid type rows) with
  | Some cache =>
      if now - created_at cache <? day then Some (results cache) else None
  | None => None
  end.

(** [created_at] takes its default, the clock reading [now] at insertion. *)
Definition save_analysis_cache (rows : list AnalysisCache) (pid : Z)
  (type : string) (res : json) (now : Z) : list AnalysisCache :=
  (rows ++ [mkAnalysisCache pid type res now])%list.

Section WithStages.

(** Everything the stages read and write besides the cache: the review,
    aspect and topic tables, the classifier, the clock. *)
Variable World : Type.

(** The stage behind each endpoint ([analyze_product_sentiment],
    [analyze_product_aspects], [analyze_product_topics],
    [generate_product_insights]), by cache key.  Each returns a dictionary
    whose first key is ["product_id"]; the function gives the entries
    that follow it, or [None] when the stage raises. *)
Variable stage : string -> Z -> World -> World * option (list (string * json)).

(** [run_complete_analysis], the background task of [reanalyze_product]. *)
Variable run_complete_analysis : Z -> World -> World.

(** The database session: the ids in [products], the cache table, the
    rest, and a log of the stage calls made by the endpoints. *)
Record DB : Type := mkDB {
  products : list Z;
  analysis_cache : list AnalysisCache;
  world : World;
  stage_runs : list (string * Z)
}.

Definition stage_results (type : string) (pid : Z) (w : World)
  : World * option json :=
  let '(w', rest) := stage type pid w in
  (w', (fun rest => JDict (("product_id", JInt pid) :: rest)) <$> rest).

(** Run the stage and cache what it returns; an exception of the stage
    leaves the handler before [save_analysis_cache] and becomes the
    response 500. *)
Definition run_and_cache (type : string) (pid saved_at : Z) (db : DB)
  : (HTTPException + json) * DB :=
  match stage_results type pid (world db) with
  | (w', Some res) =>
      (inr res,
       mkDB (products db)
         (save_analysis_cache (analysis_cache db) pid type res saved_at)
         w' (stage_runs db ++ [(type, pid)]))
  | (w', None) =>
      (inl (mkHTTPException 500 "Internal Server Error"),
       mkDB (products db) (analysis_cache db) w' (stage_runs db ++ [(type, pid)]))
  end.

(** The common body of the four [GET] handlers.  [now] is the clock when
    the cache is read, [saved_at] when the new row is inserted.  The
    response model is built from the payload; the payload stands for it. *)
Definition get_analysis (type : string) (pid : Z) (force_refresh : bool)
  (now saved_at : Z) (db : DB) : (HTTPException + json) * DB :=
  if bool_decide (pid ∈ products db) then
    let cached :=
      if force_refresh then None
      else get_cached_analysis (analysis_cache db) pid type now in
    match cached with
    | Some c =>
        if truthy c then (inr c, db)
        else run_and_cache type pid saved_at db
    | None => run_and_cache type pid saved_at db
    end
  else (inl (mkHTTPException 404 "Product not found"), db).

Definition get_sentiment_analysis := get_analysis "sentiment".
Definition get_aspect_analysis := get_analysis "aspects".
Definition get_topic_analysis := get_analysis "topics".
Definition get_insights := get_analysis "insights".

(** [POST "/{product_id}/reanalyze"] together with its background task. *)
Definition reanalyze_product (pid : Z) (db : DB) : option HTTPException * DB :=
  if bool_decide (pid ∈ products db) then
    (None,
     mkDB (products db)
       (filter (fun c => product_id c <> pid) (analysis_cache db))
       (run_complete_analysis pid (world db)) (stage_runs db))
  else (Some (mkHTTPException 404 "Product not found"), db).

(** [DELETE "/{product_id}"] of [app/routers/products.py]: the cache rows
    of the product go with it (cascade). *)
Definition delete_product (pid : Z) (db : DB) : DB :=
  mkDB (filter (fun p => p <> pid) (products db))
    (filter (fun c => product_id c <> pid) (analysis_cache db))
    (world db) (stage_runs db).

(** The databases the endpoints can be called on: start with an empty
    cache table; products are added and deleted, the rest of the database
    changes, and the handlers above run. *)
Inductive reachable : DB -> Prop :=
| reach_empty w : reachable (mkDB [] [] w [])
| reach_product db pid :
    reachable db ->
    reachable (mkDB (pid :: products db) (analysis_cache db) (world db)
                 (stage_runs db))
| reach_world db w :
    reachable db ->
    reachable (mkDB (products db) (analysis_cache db) w (stage_runs db))
| reach_get db type pid force_refresh now saved_at :
    reachable db ->
    reachable (snd (get_analysis type pid force_refresh now saved_at db))
| reach_reanalyze db pid :
    reachable db ->
    reachable (snd (reanalyze_product pid db))
| reach_delete db pid :
    reachable db ->
    reachable (delete_product pid db).

End WithStages.

Arguments mkDB {World} _ _ _ _.
Arguments products {World} _.
Arguments analysis_cache {World} _.
Arguments world {World} _.
Arguments stage_runs {World} _.
Arguments stage_results {World} _ _ _ _.
Arguments run_and_cache {World} _ _ _ _ _.
Arguments get_analysis {World} _ _ _ _ _ _ _.
Arguments get_sentiment_analysis {World} _ _ _ _ _ _.
Arguments get_aspect_analysis {World} _ _ _ _ _ _.
Arguments get_topic_analysis {World} _ _ _ _ _ _.
Arguments get_insights {World} _ _ _ _ _ _.
Arguments reanalyze_product {World} _ _ _.
Arguments delete_product {World} _ _.
Arguments reachable {World} _ _ _.
Arguments reach_empty {World} _ _ _.
Arguments reach_product {World} _ _ _ _ _.

End Analysis.

(** ** Review containers of a Flipkart page
       ([app/services/scraper/flipkart.py]) *)

Module FlipkartParser.
Import Py Scraper.

Definition MONTHS : list string :=
  [ "Jan"; "Feb"; "Mar"; "Apr"; "May"; "Jun";
    "Jul"; "Aug"; "Sep"; "Oct"; "Nov"; "Dec" ].

Definition set_verified (v : bool) (r : RawReview) : RawReview :=
  mkRawReview (text r) (rating r) (date r) (reviewer_name r) v (helpful_count r).

Definition set_reviewer_name (name : string) (r : RawReview) : RawReview :=
  mkRawReview (text r) (rating r) (date r) name (verified r) (helpful_count r).

Definition set_date (d : Z) (r : RawReview) : RawReview :=
  mkRawReview (text r) (rating r) d (reviewer_name r) (verified r)
    (helpful_count r).

Definition set_helpful_count (n : Z) (r : RawReview) : RawReview :=
  mkRawReview (text r) (rating r) (date r) (reviewer_name r) (verified r) n.

(** [rating = 3], replaced by [int(strings[0])] when that is a number
    from 1 to 5. *)
Definition rating_of (strings : list string) : Z :=
  match item strings 0 with
  | Some s0 =>
      match int s0 with
      | Some val => if (1 <=? val) && (val <=? 5) then val else 3
      | None => 3
      end
  | None => 3
  end.

(** [full_text] as it stands before the length test. *)
Definition full_text_of (strings : list string) : string :=
  let title := match item strings 1 with Some t => t | None => "" end in
  let review_text := match item strings 2 with Some t => t | None => "" end in
  let '(title, review_text) :=
    if String.eqb review_text "READ MORE" then ("", title)
    else (title, review_text) in
  let full_text :=
    if negb (is_empty title) && negb (is_empty review_text)
       && negb (String.eqb title review_text)
    then title ++ ". " ++ review_text
    else if is_empty review_text then title else review_text in
  strip (replace "READ MORE" "" full_text).

(** ["," in s and len(s) < 20 and any(m in s for m in [...])] *)
Definition looks_like_date (s : string) : bool :=
  contains "," s && (len s <? 20) && existsb (fun m => contains m s) MONTHS.

Section WithClock.

(** [datetime.now().date()] as a day number, the same for every reading
    during one call, and [date_parser.parse(s, fuzzy=True).date()], which
    returns a date or raises the [ValueError] or [OverflowError] the loop
    passes over ([None]). *)
Variable today : Z.
Variable parse_date : string -> option Z.

(** [if s == "Certified Buyer": ...] in the loop below.  [None] is the
    [IndexError] of [strings[i - 1]], which leaves the loop. *)
Definition certified_buyer_step (strings : list string) (i : nat) (s : string)
  (r : RawReview) : option RawReview :=
  if String.eqb s "Certified Buyer" then
    let r := set_verified true r in
    if (0 <? i)%nat then
      name ← item strings (i - 1);
      Some (if negb (String.eqb name "READ MORE")
               && negb (isdigit_str name) && (len name <? 40)
            then set_reviewer_name name r else r)
    else Some r
  else Some r.

(** The date test of the loop *)
Definition date_step (s : string) (r : RawReview) : RawReview :=
  if looks_like_date s then
    match parse_date s with
    | Some d => if d <=? today then set_date d r else r
    | None => r
    end
  else r.

(** [if s == "Permalink" and i >= 2: ...], the [ValueError] and the
    [IndexError] being passed over *)
Definition permalink_step (strings : list string) (i : nat) (s : string)
  (r : RawReview) : RawReview :=
  if String.eqb s "Permalink" && (2 <=? i)%nat then
    match item strings (i - 2) with
    | Some h =>
        match int (replace "," "" h) with
        | Some n => set_helpful_count n r
        | None => r
        end
    | None => r
    end
  else r.

(** One turn of [for i, s in enumerate(strings)], on the values collected
    so far. *)
Definition metadata_step (strings : list string) (i : nat) (s : string)
  (r : RawReview) : option RawReview :=
  r ← certified_buyer_step strings i s r;
  Some (permalink_step strings i s (date_step s r)).

Fixpoint metadata_loop (strings : list string) (i : nat) (rest : list string)
  (r : RawReview) : option RawReview :=
  match rest with
  | [] => Some r
  | s :: rest' =>
      r' ← metadata_step strings i s r;
      metadata_loop strings (S i) rest' r'
  end.

(** [_parse_review_from_strings(strings)]; [None] is the [None] it
    returns, also from its [except Exception]. *)
Definition _parse_review_from_strings (strings : list string)
  : option RawReview :=
  if (length strings <? 4)%nat then None
  else
    let rating := rating_of strings in
    let full_text := full_text_of strings in
    if is_empty full_text || (len full_text <? 3) then None
    else
      metadata_loop strings 0 strings
        (mkRawReview full_text rating today "Flipkart Customer" false 0).



End WithClock.

End FlipkartParser.

(** ** Reasons and duplicate groups
       ([app/services/analysis/fake_detection.py]) *)

Module Reasons.
Import Py Models FakeDetection.

(** [r'http[s]?://'] *)
Definition url_pattern : regex :=
  RSeq (RLit "http") (RSeq (ROpt (RChar "s")) (RLit "://")).

Definition get_suspicion_reasons (review : Review) (score : Z) : list string :=
  let reasons := [] in
  let text := lower (review_text review) in
  let word_count := Z.of_nat (length (split text)) in
  let reasons :=
    if negb (verified_purchase review)
    then (reasons ++ ["Not a verified purchase"])%list else reasons in
  let reasons :=
    if (word_count <? 10) && extreme_rating (rating review)
    then (reasons ++ ["Very short review with extreme rating"])%list else reasons in
  let reasons :=
    if 2 <=? generic_count text
    then (reasons ++ ["Contains generic/common phrases"])%list else reasons in
  let reasons :=
    if word_count <? 5
    then (reasons ++ ["Extremely short review"])%list else reasons in
  let reasons :=
    if re_search url_pattern text
    then (reasons ++ ["Contains URLs"])%list else reasons in
  match reasons with
  | [] => ["Multiple minor suspicious indicators"]
  | _ => reasons
  end.

(** One entry of the list [check_duplicate_reviews] returns; an entry of
    [reviews] is [(review_id, text)]. *)
Record Group : Type := mkGroup {
  pattern : string;
  count : Z;
  reviews : list (Z * string)
}.

(** [" ".join(words[:3]) + " ... " + " ".join(words[-3:])] *)
Definition pattern_of (words : list string) : string :=
  join " " (firstn 3 words) ++ " ... "
  ++ join " " (skipn (length words - 3) words).

(** One turn of the loop that fills [text_groups], a [dict] kept as the
    list of its items in insertion order. *)
Definition group_step (text_groups : list (string * list (Z * string)))
  (review : Review) : list (string * list (Z * string)) :=
  let words := split (lower (review_text review)) in
  if (5 <=? length words)%nat then
    counter_add
      (fun o => (match o with Some g => g | None => [] end
                 ++ [(review_id review, take 100 (review_text review))])%list)
      (pattern_of words) text_groups
  else text_groups.

Definition check_duplicate_reviews (db : list Review) (pid : Z) : list Group :=
  let reviews := filter (fun r => product_id r = pid) db in
  if (length reviews <? 10)%nat then []
  else
    let text_groups := fold_left group_step reviews [] in
    let duplicates :=
      omap (fun kg : string * list (Z * string) =>
              if (2 <=? length (snd kg))%nat
              then Some (mkGroup (fst kg) (Z.of_nat (length (snd kg)))
                           (firstn 5 (snd kg)))
              else None) text_groups in
    firstn 5 (sorted_desc count duplicates).

End Reasons.

(** ** Sentences that mention an aspect
       ([app/services/analysis/aspects.py]) *)

Module Aspects.
Import Py.

(** The class [[.!?]] *)
Definition sentence_end (c : ascii) : bool := char_in ".!?" c.

Definition extract_sentences (text : string) : list string :=
  let sentences := re_split sentence_end text in
  map strip
    (filter (fun s => negb (is_empty (strip s)) && (10 <? len (strip s)) = true)
            sentences).

(** The loop over [sentences] keeps a sentence at the first keyword found
    in it. *)
Definition find_aspect_in_text (text aspect : string) (keywords : list string)
  : list string :=
  let sentences := extract_sentences text in
  filter (fun sentence =>
            existsb (fun keyword => contains keyword (lower sentence)) keywords
            = true)
         sentences.

End Aspects.

(** ** Tokens for topic modelling ([app/services/analysis/topics.py]) *)

Module Topics.
Import Py.

Definition STOPWORDS : list string :=
  [ "i"; "me"; "my"; "myself"; "we"; "our"; "ours"; "ourselves"; "you"; "your";
    "yours"; "yourself"; "yourselves"; "he"; "him"; "his"; "himself"; "she";
    "her"; "hers"; "herself"; "it"; "its"; "itself"; "they"; "them"; "their";
    "theirs"; "themselves"; "what"; "which"; "who"; "whom"; "this"; "that";
    "these"; "those"; "am"; "is"; "are"; "was"; "were"; "be"; "been"; "being";
    "have"; "has"; "had"; "having"; "do"; "does"; "did"; "doing"; "a"; "an";
    "the"; "and"; "but"; "if"; "or"; "because"; "as"; "until"; "while"; "of";
    "at"; "by"; "for"; "with"; "about"; "against"; "between"; "into"; "through";
    "during"; "before"; "after"; "above"; "below"; "to"; "from"; "up"; "down";
    "in"; "out"; "on"; "off"; "over"; "under"; "again"; "further"; "then";
    "once"; "here"; "there"; "when"; "where"; "why"; "how"; "all"; "each";
    "few"; "more"; "most"; "other"; "some"; "such"; "no"; "nor"; "not"; "only";
    "own"; "same"; "so"; "than"; "too"; "very"; "s"; "t"; "can"; "will"; "just";
    "don"; "should"; "now"; "product"; "amazon"; "flipkart"; "buy"; "bought";
    "one"; "get"; "got"; "use"; "used"; "using"; "also"; "really"; "would";
    "could"; "like"; "much"; "even"; "still"; "well"; "back"; "time" ].

(** [w in words] for a set of strings *)
Definition member (w : string) (words : list string) : bool :=
  existsb (String.eqb w) words.

(** The class [[a-z\s]] *)
Definition letter_or_space (c : ascii) : bool := islower c || isspace c.

Definition preprocess_text (text : string) : list string :=
  let text := lower text in
  let text := re_sub_outside letter_or_space text in
  let words := split text in
  filter (fun w => negb (member w STOPWORDS) && (2 <? len w) = true) words.

End Topics.

(** ** Common keywords ([app/services/analysis/insights.py]) *)

Module Keywords.
Import Py Models.

Definition stopwords : list string :=
  [ "the"; "a"; "an"; "is"; "are"; "was"; "were"; "be"; "been"; "being";
    "have"; "has"; "had"; "do"; "does"; "did"; "will"; "would"; "could";
    "should"; "may"; "might"; "must"; "shall"; "can"; "need"; "dare";
    "ought"; "used"; "to"; "of"; "in"; "for"; "on"; "with"; "at"; "by";
    "from"; "as"; "into"; "through"; "during"; "before"; "after"; "above";
    "below"; "between"; "under"; "again"; "further"; "then"; "once"; "here";
    "there"; "when"; "where"; "why"; "how"; "all"; "each"; "every"; "both";
    "few"; "more"; "most"; "other"; "some"; "such"; "no"; "nor"; "not";
    "only"; "own"; "same"; "so"; "than"; "too"; "very"; "just"; "also";
    "and"; "but"; "or"; "if"; "because"; "while"; "although"; "this";
    "that"; "these"; "those"; "i"; "me"; "my"; "we"; "our"; "you"; "your";
    "he"; "she"; "it"; "they"; "them"; "its"; "product"; "amazon"; "flipkart";
    "buy"; "bought"; "one"; "get"; "got"; "use"; "using"; "like"; "really";
    "much"; "even"; "still"; "well"; "back"; "time"; "thing"; "things" ].

Definition positive_terms : list string :=
  [ "excellent"; "amazing"; "awesome"; "fantastic"; "wonderful"; "perfect";
    "great"; "love"; "best"; "superb"; "brilliant"; "outstanding"; "incredible";
    "smooth"; "fast"; "beautiful"; "comfortable"; "reliable"; "durable" ].

Definition negative_terms : list string :=
  [ "terrible"; "horrible"; "awful"; "poor"; "bad"; "worst"; "disappointing";
    "broken"; "defective"; "cheap"; "slow"; "waste"; "useless"; "damaged";
    "fake"; "faulty"; "unreliable"; "uncomfortable"; "fragile" ].

(** The characters given to [w.strip]: the double quote (code 34) and
    those of [.,!?;:()[]{}] *)
Definition punctuation (c : ascii) : bool :=
  char_in ".,!?;:()[]{}" c || (nat_of_ascii c =? 34)%nat.

(** The words of one review that are counted. *)
Definition counted_words (review : Review) : list string :=
  let words := split (lower (review_text review)) in
  let words := map (strip_chars punctuation) words in
  filter (fun w => (2 <? len w) && negb (Topics.member w stopwords) = true) words.

(** [word_counts[word] += 3] for a target term, [+= 1] otherwise *)
Definition count_word (target_terms : list string)
  (word_counts : list (string * Z)) (word : string) : list (string * Z) :=
  if Topics.member word target_terms
  then counter_incr 3 word word_counts
  else counter_incr 1 word word_counts.

Definition extract_common_keywords (reviews : list Review) (positive : bool)
  (top_n : nat) : list string :=
  let target_terms := if positive then positive_terms else negative_terms in
  let word_counts :=
    fold_left (fun word_counts review =>
                 fold_left (count_word target_terms) (counted_words review)
                           word_counts)
              reviews [] in
  map fst (most_common top_n word_counts).

End Keywords.

(** * Properties *)

(** ** The string operations on small inputs *)

Module PyFacts.
Import Py FakeDetection.

Example split_words : split "  Good   product ok " = ["Good"; "product"; "ok"].
Proof. reflexivity. Qed.

Example split_blank : split "   " = [].
Proof. reflexivity. Qed.

Example strip_both_ends : strip "  a b  " = "a b".
Proof. reflexivity. Qed.

Example lower_mixed : lower "Do NOT Buy 5 Stars" = "do not buy 5 stars".
Proof. reflexivity. Qed.

Example contains_phrase : contains "waste of money" "a waste of money!" = true.
Proof. reflexivity. Qed.

Example search_url :
  map (fun r => re_search r "see https://shop.example") spam_patterns
  = [true; false; false].
Proof. vm_compute. reflexivity. Qed.

Example search_seller_praise :
  map (fun r => re_search r "the seller  was great!") spam_patterns
  = [false; true; false].
Proof. vm_compute. reflexivity. Qed.

(** [\b] after the last word: "greatest" is not "great". *)
Example search_seller_praise_boundary :
  map (fun r => re_search r "the seller was greatest") spam_patterns
  = [false; false; false].
Proof. vm_compute. reflexivity. Qed.

Example search_phone_number :
  map (fun r => re_search r "call 987-654 3210 now") spam_patterns
  = [false; false; true].
Proof. vm_compute. reflexivity. Qed.

Example search_nine_digits :
  map (fun r => re_search r "order 123456789 arrived") spam_patterns
  = [false; false; false].
Proof. vm_compute. reflexivity. Qed.

Example round_ties_to_even :
  map round_half_even [5 # 2; 7 # 2; 26 # 10; - (5 # 2)]%Q = [2; 4; 3; -2].
Proof. vm_compute. reflexivity. Qed.

Example sort_desc_stable :
  sort_desc [(1, 50); (2, 70); (3, 50); (4, 90)]
  = [(4, 90); (2, 70); (1, 50); (3, 50)].
Proof. reflexivity. Qed.

End PyFacts.

(** ** Fake review detection *)

Module FakeDetectionFacts.
Import Py Models FakeDetection.

Lemma generic_count_nonneg (text : string) : 0 <= generic_count text.
Proof. unfold generic_count. lia. Qed.

(** The score is a sum of non-negative terms, capped at 100. *)
Lemma calculate_suspicious_score_range (review : Review) :
  0 <= calculate_suspicious_score review <= 100.
Proof.
  unfold calculate_suspicious_score.
  pose proof (generic_count_nonneg (lower (review_text review))) as Hg.
  repeat match goal with
         | |- context [if ?b then _ else _] => destruct b
         end; lia.
Qed.

(** The loop body stores the score it computed and compares it with 50. *)
Lemma score_review_fields (review : Review) :
  suspicious_score (score_review review) = calculate_suspicious_score review
  /\ is_suspicious (score_review review)
     = (50 <=? calculate_suspicious_score review)
  /\ product_id (score_review review) = product_id review.
Proof. unfold score_review; simpl; auto. Qed.

(** The score only reads the text, the rating and the verified flag, so
    rescoring a scored row gives the same score. *)
Lemma calculate_suspicious_score_score_review (review : Review) :
  calculate_suspicious_score (score_review review)
  = calculate_suspicious_score review.
Proof. reflexivity. Qed.

(** The rows of the product, after the stage, are scored rows. *)
Lemma detect_fake_reviews_rows (db : list Review) (pid : Z) (r : Review) :
  r ∈ fst (detect_fake_reviews db pid) ->
  product_id r = pid ->
  exists r0, r0 ∈ db /\ product_id r0 = pid /\ r = score_review r0.
Proof.
  unfold detect_fake_reviews. intros Hin Hpid.
  destruct (filter (fun r => product_id r = pid) db) as [|r1 rs] eqn:Hf.
  - simpl in Hin. exfalso.
    eapply (filter_nil_not_elem_of (fun r => product_id r = pid)); eauto.
  - simpl in Hin. apply list_elem_of_In, in_map_iff in Hin.
    destruct Hin as (r0 & Heq & Hin0).
    exists r0. apply list_elem_of_In in Hin0.
    destruct (decide (product_id r0 = pid)) as [Hp|Hp].
    + auto.
    + subst r. contradiction.
Qed.

(** C3. For every review row of the product that the fake-detection stage
    has processed, the stored [suspicious_score] is the computed score,
    lies between 0 and 100, and [is_suspicious] is true exactly when the
    score is at least 50. *)
Theorem detect_fake_reviews_score_and_flag
  (db : list Review) (pid : Z) (r : Review) :
  r ∈ fst (detect_fake_reviews db pid) ->
  product_id r = pid ->
  suspicious_score r = calculate_suspicious_score r
  /\ 0 <= suspicious_score r <= 100
  /\ (is_suspicious r = true <-> 50 <= suspicious_score r).
Proof.
  intros Hin Hpid.
  destruct (detect_fake_reviews_rows db pid r Hin Hpid) as (r0 & _ & _ & ->).
  destruct (score_review_fields r0) as (Hs & Hf & _).
  rewrite Hs, Hf, calculate_suspicious_score_score_review.
  split; [reflexivity|].
  split; [apply calculate_suspicious_score_range|].
  apply Z.leb_le.
Qed.

Lemma detect_fake_reviews_score_and_flag_witness :
  let r := mkReview 7 1 "GREAT!!!! BUY NOW" 5 false None None true 90 None in
  let db := [mkReview 7 1 "GREAT!!!! BUY NOW" 5 false None None false 0 None] in
  suspicious_score r = calculate_suspicious_score r
  /\ 0 <= suspicious_score r <= 100
  /\ (is_suspicious r = true <-> 50 <= suspicious_score r).
Proof.
  intros r db.
  apply (detect_fake_reviews_score_and_flag db 1 r).
  - vm_compute. apply list_elem_of_singleton. reflexivity.
  - reflexivity.
Defined.

(** C8. A review whose text is exactly "bad", unverified, with rating 1,
    scores 25 + 30 + 10 = 65, which is at least 65, and the stage stores
    [is_suspicious = true] for it. *)
Theorem bad_review_scores_65 (r : Review) :
  review_text r = "bad" ->
  verified_purchase r = false ->
  rating r = 1 ->
  calculate_suspicious_score r = 65
  /\ 65 <= calculate_suspicious_score r
  /\ exists r', fst (detect_fake_reviews [r] (product_id r)) = [r']
       /\ suspicious_score r' = 65 /\ is_suspicious r' = true.
Proof.
  destruct r as [rid pid txt rat ver sl ss sus sc at_]; simpl.
  intros -> -> ->.
  assert (Hs : calculate_suspicious_score
                 (mkReview rid pid "bad" 1 false sl ss sus sc at_) = 65)
    by reflexivity.
  split; [exact Hs|]. split; [rewrite Hs; lia|].
  unfold detect_fake_reviews.
  rewrite filter_cons_True by reflexivity. simpl.
  destruct (decide (pid = pid)) as [_|Hne]; [|contradiction].
  eexists; split; [reflexivity|]. split; reflexivity.
Qed.

Lemma bad_review_scores_65_witness :
  let r := mkReview 1 1 "bad" 1 false None None false 0 None in
  calculate_suspicious_score r = 65
  /\ 65 <= calculate_suspicious_score r
  /\ exists r', fst (detect_fake_reviews [r] (product_id r)) = [r']
       /\ suspicious_score r' = 65 /\ is_suspicious r' = true.
Proof.
  intros r. apply (bad_review_scores_65 r); reflexivity.
Defined.

End FakeDetectionFacts.

(** ** Scrape jobs *)

Module ScrapingFacts.
Import Scraping.

Section Registry.

Variable scrape_jobs : gmap string Job.
Variable jid : string.
Variable job : Job.
Hypothesis Hjob : scrape_jobs !! jid = Some job.

(** The guard of [cancel_scrape] rejects completed and failed jobs and
    returns no new registry. *)
Lemma cancel_scrape_finished (now : Z) :
  status job = COMPLETED \/ status job = FAILED ->
  cancel_scrape jid now scrape_jobs
  = inl (mkHTTPException 400 "Job already finished").
Proof.
  unfold cancel_scrape. rewrite Hjob.
  intros [-> | ->]; reflexivity.
Qed.

(** Every other job is marked cancelled, whatever its status was. *)
Lemma cancel_scrape_otherwise (now : Z) :
  status job <> COMPLETED -> status job <> FAILED ->
  exists jobs',
    cancel_scrape jid now scrape_jobs = inr jobs'
    /\ (status <$> jobs' !! jid) = Some CANCELLED
    /\ (completed_at <$> jobs' !! jid) = Some (Some now).
Proof.
  intros Hc Hf. unfold cancel_scrape. rewrite Hjob.
  rewrite !bool_decide_eq_false_2 by assumption. simpl.
  eexists. split; [reflexivity|].
  rewrite lookup_insert_eq. simpl. auto.
Qed.

(** The driver writes its status without reading the current one. *)
Lemma run_scrape_job_begin_status (now : Z) :
  status <$> run_scrape_job_begin jid now scrape_jobs !! jid = Some RUNNING.
Proof.
  unfold run_scrape_job_begin. rewrite Hjob, lookup_insert_eq. reflexivity.
Qed.

Lemma run_scrape_job_returned_status (pid reviews_count now : Z) :
  status <$> run_scrape_job_returned jid pid reviews_count now scrape_jobs !! jid
  = Some COMPLETED.
Proof.
  unfold run_scrape_job_returned. rewrite Hjob, lookup_insert_eq. reflexivity.
Qed.

Lemma run_scrape_job_raised_status (e : string) (now : Z) :
  status <$> run_scrape_job_raised jid e now scrape_jobs !! jid = Some FAILED.
Proof.
  unfold run_scrape_job_raised. rewrite Hjob, lookup_insert_eq. reflexivity.
Qed.

(** The progress callback leaves the status alone. *)
Lemma update_job_progress_status (p c : Z) :
  status <$> update_job_progress jid p c scrape_jobs !! jid = Some (status job).
Proof.
  unfold update_job_progress. rewrite Hjob, lookup_insert_eq. reflexivity.
Qed.

End Registry.

(** C1. A job is created, the driver starts it, the user cancels it while
    [scrape_product] is awaited, and the scrape then returns: the status
    goes pending, running, cancelled, completed.  The cancelled status
    does not last. *)
Theorem cancelled_job_ends_completed :
  status_history "job-1" ∅
    [ Create "job-1" "https://www.amazon.in/dp/B0ABCDEFGH";
      DriverBegin "job-1" 10;
      Cancel "job-1" 20;
      DriverReturned "job-1" 7 42 30 ]
  = [ Some PENDING; Some RUNNING; Some CANCELLED; Some COMPLETED ].
Proof. vm_compute. reflexivity. Qed.

(** A job cancelled before the driver starts is set running, and a failing
    scrape overwrites the cancellation with [FAILED]. *)
Lemma cancelled_job_ends_failed :
  status_history "job-1" ∅
    [ Create "job-1" "https://www.flipkart.com/phone/p/itm123";
      Cancel "job-1" 5;
      DriverBegin "job-1" 10;
      DriverRaised "job-1" "connection reset" 30 ]
  = [ Some PENDING; Some CANCELLED; Some RUNNING; Some FAILED ].
Proof. vm_compute. reflexivity. Qed.

(** The registry after a job has been created and cancelled at time 20. *)
Definition cancelled_registry : gmap string Job :=
  step (step ∅ (Create "job-1" "https://www.amazon.in/dp/B0ABCDEFGH"))
       (Cancel "job-1" 20).

(** C2. Cancelling a job that is already cancelled is accepted: the
    handler returns a registry, not an error, and the record changes
    ([completed_at] moves from 20 to 30). *)
Theorem cancel_scrape_accepts_cancelled_job :
  (status <$> cancelled_registry !! "job-1") = Some CANCELLED
  /\ (completed_at <$> cancelled_registry !! "job-1") = Some (Some 20)
  /\ exists jobs',
       cancel_scrape "job-1" 30 cancelled_registry = inr jobs'
       /\ (status <$> jobs' !! "job-1") = Some CANCELLED
       /\ (completed_at <$> jobs' !! "job-1") = Some (Some 30).
Proof.
  split; [vm_compute; reflexivity|].
  split; [vm_compute; reflexivity|].
  eexists. split; [vm_compute; reflexivity|].
  split; vm_compute; reflexivity.
Qed.

End ScrapingFacts.

(** ** Scrape sessions *)

Module ScraperFacts.
Import Scraper.

Lemma seen_false (reviews : list RawReview) (review : RawReview) :
  seen reviews review = false -> ~ In (text review) (map text reviews).
Proof.
  unfold seen. induction reviews as [|r rs IH]; simpl; [tauto|].
  intros H [Heq | Hin].
  - rewrite Heq, String.eqb_refl in H. discriminate.
  - destruct (String.eqb (text r) (text review)); [discriminate|].
    exact (IH H Hin).
Qed.

(** Appending a review that has not been seen keeps the texts distinct. *)
Lemma NoDup_text_snoc (reviews : list RawReview) (review : RawReview) :
  NoDup (map text reviews) ->
  seen reviews review = false ->
  NoDup (map text (reviews ++ [review])).
Proof.
  intros Hnd Hseen. rewrite map_app. simpl.
  apply NoDup_app. split; [assumption|]. split.
  - intros x Hx Hx'. apply list_elem_of_singleton in Hx'. subst x.
    apply list_elem_of_In in Hx. exact (seen_false _ _ Hseen Hx).
  - apply NoDup_singleton.
Qed.

(** The bound the append loops maintain on the number of reviews. *)
Definition within (max_reviews : Z) (reviews : list RawReview) : Prop :=
  Z.of_nat (length reviews) <= Z.max 0 max_reviews.

Lemma within_snoc (max_reviews : Z) (reviews : list RawReview) (review : RawReview) :
  (max_reviews <=? Z.of_nat (length reviews)) = false ->
  within max_reviews (reviews ++ [review]).
Proof.
  unfold within. intros H%Z.leb_gt. rewrite length_app. simpl. lia.
Qed.

(** What both sessions keep true of the accumulated list. *)
Definition good (max_reviews : Z) (reviews : list RawReview) : Prop :=
  NoDup (map text reviews) /\ within max_reviews reviews.

Lemma good_nil (max_reviews : Z) : good max_reviews [].
Proof. split; [constructor | unfold within; simpl; lia]. Qed.

End ScraperFacts.

Module AmazonFacts.
Import Scraper AmazonScraper ScraperFacts.

Lemma amazon_add_reviews_good (max_reviews : Z) (divs : list (option RawReview)) :
  forall reviews,
    good max_reviews reviews -> good max_reviews (add_reviews max_reviews reviews divs).
Proof.
  induction divs as [|div divs IH]; intros reviews Hg; simpl; [assumption|].
  destruct (max_reviews <=? Z.of_nat (length reviews)) eqn:Hfull; [assumption|].
  destruct div as [review|]; [|auto].
  destruct (seen reviews review) eqn:Hseen; [auto|].
  apply IH. destruct Hg as [Hnd _]. split.
  - apply NoDup_text_snoc; assumption.
  - apply within_snoc; assumption.
Qed.

(** When [progress_callback] raises, the list is what the append loop
    makes of the [div]s up to the one of that call. *)
Lemma add_reviews_until_prefix (max_reviews : Z) (divs : list (option RawReview)) :
  forall reviews call reviews',
    add_reviews_until max_reviews reviews divs call = Some reviews' ->
    exists n, reviews' = add_reviews max_reviews reviews (firstn n divs).
Proof.
  induction divs as [|div divs IH]; intros reviews call reviews'; simpl;
    [discriminate|].
  destruct (max_reviews <=? Z.of_nat (length reviews)) eqn:Hfull; [discriminate|].
  destruct div as [review|].
  - destruct call as [|call].
    + intros [= <-]. exists 1%nat. simpl. rewrite Hfull.
      destruct (seen reviews review); reflexivity.
    + intros H. apply IH in H as [n ->]. exists (S n). simpl. rewrite Hfull.
      destruct (seen reviews review); reflexivity.
  - intros H. apply IH in H as [n ->]. exists (S n). simpl. rewrite Hfull.
    reflexivity.
Qed.

(** The [div]s an iteration appends are those of an answer of status 200:
    of the page, when it shows neither the CAPTCHA input nor a block
    phrase; or of the fallback, when that page shows no review [div], the
    session is on page 1 and no error is counted. *)
Definition appended_from (s : Session) (f : Fetch)
  (divs : list (option RawReview)) : Prop :=
  exists body,
    received (response f) = Some (200, body)
    /\ captcha body = false /\ blocked body = false
    /\ (divs = review_divs body
        \/ (review_divs body = []
            /\ page s = 1 /\ consecutive_errors s = 0
            /\ exists answer fb,
                 fallback f = Some answer /\ received answer = Some (200, fb)
                 /\ divs = review_divs fb)).

(** An iteration either keeps the list or runs the append loop on such
    [div]s, all of them or, when [progress_callback] raises, the first
    ones. *)
Lemma iteration_appends (max_reviews : Z) (s : Session) (f : Fetch) :
  reviews (iteration max_reviews s f) = reviews s
  \/ exists divs n,
       appended_from s f divs
       /\ reviews (iteration max_reviews s f)
          = add_reviews max_reviews (reviews s) (firstn n divs).
Proof.
  unfold iteration. cbn -[add_reviews add_reviews_until].
  destruct (received (response f)) as [[code body]|] eqn:Hrec;
    cbn -[add_reviews add_reviews_until]; [|auto].
  destruct (Z.eqb_spec code 200) as [->|_]; cbn -[add_reviews add_reviews_until];
    [|destruct (blocked_status code); auto].
  destruct (captcha body) eqn:Hcap; [auto|].
  destruct (blocked body) eqn:Hblk; [auto|].
  assert (Hloop : forall divs answer,
            appended_from s f divs ->
            exists divs' n,
              appended_from s f divs'
              /\ match raising_call answer
                       ≫= add_reviews_until max_reviews (reviews s) divs with
                 | Some reviews' => reviews'
                 | None => add_reviews max_reviews (reviews s) divs
                 end
                 = add_reviews max_reviews (reviews s) (firstn n divs')).
  { intros divs answer Hfrom. exists divs.
    destruct (raising_call answer) as [call|]; cbn -[add_reviews add_reviews_until].
    - destruct (add_reviews_until max_reviews (reviews s) divs call)
        as [reviews'|] eqn:Hu.
      + apply add_reviews_until_prefix in Hu as [n ->]. eauto.
      + exists (length divs). rewrite firstn_all. auto.
    - exists (length divs). rewrite firstn_all. auto. }
  destruct (review_divs body) as [|div divs] eqn:Hd.
  - destruct ((page s =? 1) && (consecutive_errors s =? 0)) eqn:Hfirst;
      [|cbn -[add_reviews add_reviews_until]; auto].
    apply andb_prop in Hfirst as [Hp%Z.eqb_eq Hx%Z.eqb_eq].
    destruct (fallback f) as [r|] eqn:Hfb;
      [|cbn -[add_reviews add_reviews_until]; auto].
    destruct (received r) as [[code' fb]|] eqn:Hrec';
      [|cbn -[add_reviews add_reviews_until]; auto].
    destruct (Z.eqb_spec code' 200) as [->|_];
      [|cbn -[add_reviews add_reviews_until]; auto].
    destruct (review_divs fb) as [|d ds] eqn:Hdfb;
      cbn -[add_reviews add_reviews_until]; [auto|].
    right.
    destruct (Hloop (d :: ds) r) as (divs' & n & Hfrom & Heq).
    { exists body. repeat (split; [assumption|]). right.
      repeat (split; [assumption|]).
      exists r, fb. repeat (split; [assumption|]). symmetry. exact Hdfb. }
    exists divs', n. split; [exact Hfrom|]. rewrite <- Heq.
    destruct (raising_call r ≫= _); reflexivity.
  - cbn -[add_reviews add_reviews_until]. right.
    destruct (Hloop (div :: divs) (response f)) as (divs' & n & Hfrom & Heq).
    { exists body. repeat (split; [assumption|]). left. symmetry. exact Hd. }
    exists divs', n. split; [exact Hfrom|]. rewrite <- Heq.
    destruct (raising_call (response f) ≫= _); reflexivity.
Qed.

(** An iteration either keeps the list or runs the append loop on it. *)
Lemma amazon_iteration_reviews (max_reviews : Z) (s : Session) (f : Fetch) :
  reviews (iteration max_reviews s f) = reviews s
  \/ exists divs,
       reviews (iteration max_reviews s f) = add_reviews max_reviews (reviews s) divs.
Proof.
  destruct (iteration_appends max_reviews s f) as [H | (divs & n & _ & H)];
    [left | right; exists (firstn n divs)]; exact H.
Qed.

Lemma amazon_run_good (max_reviews : Z) (fetches : list Fetch) :
  forall s, good max_reviews (reviews s) ->
            good max_reviews (reviews (run max_reviews s fetches)).
Proof.
  induction fetches as [|f fetches IH]; intros s Hg; simpl; [assumption|].
  destruct (running max_reviews s); [|assumption].
  apply IH.
  destruct (amazon_iteration_reviews max_reviews s f) as [-> | [divs ->]];
    [assumption | apply amazon_add_reviews_good; assumption].
Qed.

Lemma amazon_scrape_reviews_good (max_reviews : Z) (fetches : list Fetch)
  (rs : list RawReview) :
  scrape_reviews max_reviews fetches = Some rs -> good max_reviews rs.
Proof.
  unfold scrape_reviews.
  destruct (running max_reviews (run max_reviews start fetches)); [discriminate|].
  intros [= <-]. apply amazon_run_good, good_nil.
Qed.

(** Once the loop has stopped, further answers are not consumed. *)
Lemma amazon_run_not_running (max_reviews : Z) (s : Session) (fetches : list Fetch) :
  running max_reviews s = false -> run max_reviews s fetches = s.
Proof. destruct fetches; simpl; [reflexivity|]. intros ->; reflexivity. Qed.

(** The three conditions of the [while] header end the session at the top
    of an iteration. *)
Lemma run_stops_at_top (max_reviews : Z) (s : Session) (fetches : list Fetch) :
  max_reviews <= Z.of_nat (length (reviews s))
  \/ 3 <= consecutive_empty s \/ 5 <= consecutive_errors s ->
  run max_reviews s fetches = s.
Proof.
  intros H. apply amazon_run_not_running. unfold running, loop_condition.
  destruct H as [H | [H | H]].
  - apply Z.ltb_ge in H. rewrite H. destruct (negb (stopped s)); reflexivity.
  - apply Z.ltb_ge in H. rewrite H.
    destruct (negb (stopped s)), (_ <? max_reviews); reflexivity.
  - apply Z.ltb_ge in H. rewrite H.
    destruct (negb (stopped s)), (_ <? max_reviews), (_ <? 3); reflexivity.
Qed.

(** A page that shows one and the same review. *)
Definition same_review : RawReview :=
  mkRawReview "Good phone, works as expected" 4 0 "Amazon Customer" true 0.

Definition same_page : Fetch :=
  mkFetch (Got 200 (mkPage false false [Some same_review])) None.

Lemma running_one_review (max_reviews : Z) (s : Session) :
  1 < max_reviews ->
  reviews s = [same_review] -> consecutive_empty s = 0 ->
  consecutive_errors s = 0 -> stopped s = false ->
  running max_reviews s = true.
Proof.
  intros Hmax Hr He Hx Hs. unfold running, loop_condition.
  rewrite Hr, He, Hx, Hs. cbn.
  rewrite !andb_true_r. apply Z.ltb_lt. lia.
Qed.

(** With such pages the session never stops: after [n] of them it is at
    page [n + 1], holds one review, and is still running. *)
Lemma run_same_page (max_reviews : Z) (n : nat) :
  1 < max_reviews ->
  forall s,
    reviews s = [same_review] -> consecutive_empty s = 0 ->
    consecutive_errors s = 0 -> stopped s = false ->
    let s' := run max_reviews s (repeat same_page n) in
    running max_reviews s' = true
    /\ page s' = page s + Z.of_nat n
    /\ requested s'
       = (requested s ++ map (fun i => page s + Z.of_nat i) (seq 0 n))%list.
Proof.
  intros Hmax. induction n as [|n IH]; intros s Hr He Hx Hs.
  - cbn. rewrite app_nil_r. repeat split; [|lia].
    apply running_one_review; assumption.
  - cbn [repeat run].
    rewrite (running_one_review max_reviews s Hmax Hr He Hx Hs).
    set (s1 := iteration max_reviews s same_page).
    assert (H1 : reviews s1 = [same_review] /\ consecutive_empty s1 = 0
                 /\ consecutive_errors s1 = 0 /\ stopped s1 = false
                 /\ page s1 = page s + 1
                 /\ requested s1 = (requested s ++ [page s])%list).
    { unfold s1, iteration. cbn. rewrite Hr. cbn.
      destruct (Z.leb_spec max_reviews (Z.of_nat 1)); [lia|]. repeat split. }
    destruct H1 as (H1r & H1e & H1x & H1s & H1p & H1q).
    specialize (IH s1 H1r H1e H1x H1s). cbv zeta in IH.
    destruct IH as (IHa & IHb & IHc).
    split; [exact IHa|]. split; [rewrite IHb, H1p; lia|].
    rewrite IHc, H1q, H1p, <- app_assoc. f_equal. cbn [seq map app]. f_equal.
    + f_equal. lia.
    + rewrite <- seq_shift, map_map. apply map_ext. intros i. lia.
Qed.

(** Pages that each show one new review. *)
Definition numbered_page (i : nat) : Fetch :=
  mkFetch
    (Got 200 (mkPage false false
       [Some (mkRawReview ("Review number " ++ pretty i) 4 0
                          "Amazon Customer" true 0)]))
    None.

(** With [max_reviews = 500] and 26 such pages the session holds 26
    reviews, has requested pages 1 to 26 and goes on to page 27. *)
Lemma run_numbered_pages :
  let s := run 500 start (map numbered_page (seq 1 26)) in
  length (reviews s) = 26%nat
  /\ requested s = map Z.of_nat (seq 1 26)
  /\ page s = 27
  /\ running 500 s = true.
Proof. vm_compute. repeat split. Qed.

End AmazonFacts.

Module FlipkartFacts.
Import Scraper FlipkartScraper ScraperFacts.

Lemma flipkart_add_reviews_good (max_reviews : Z) (page_reviews : list RawReview) :
  forall reviews,
    good max_reviews reviews ->
    good max_reviews (add_reviews max_reviews reviews page_reviews).
Proof.
  induction page_reviews as [|review rest IH]; intros reviews Hg; simpl;
    [assumption|].
  destruct (max_reviews <=? Z.of_nat (length reviews)) eqn:Hfull; [assumption|].
  destruct (seen reviews review) eqn:Hseen; [auto|].
  apply IH. destruct Hg as [Hnd _]. split.
  - apply NoDup_text_snoc; assumption.
  - apply within_snoc; assumption.
Qed.

Lemma flipkart_iteration_reviews (max_reviews : Z) (s : Session) (r : Response) :
  reviews (iteration max_reviews s r) = reviews s
  \/ exists page_reviews,
       reviews (iteration max_reviews s r)
       = add_reviews max_reviews (reviews s) page_reviews.
Proof.
  unfold iteration.
  destruct (max_pages <? page s); cbn -[add_reviews]; [auto|].
  destruct r as [|code page_reviews|page_reviews]; cbn -[add_reviews]; [auto| |].
  - destruct (negb (code =? 200)); cbn -[add_reviews]; [auto|].
    destruct page_reviews; cbn -[add_reviews]; eauto.
  - destruct page_reviews; cbn -[add_reviews]; eauto.
Qed.

Lemma flipkart_run_good (max_reviews : Z) (responses : list Response) :
  forall s, good max_reviews (reviews s) ->
            good max_reviews (reviews (run max_reviews s responses)).
Proof.
  induction responses as [|r responses IH]; intros s Hg; simpl; [assumption|].
  destruct (running max_reviews s); [|assumption].
  apply IH.
  destruct (flipkart_iteration_reviews max_reviews s r) as [-> | [prs ->]];
    [assumption | apply flipkart_add_reviews_good; assumption].
Qed.

Lemma session_good (search : Search) (max_reviews : Z) (responses : list Response) :
  good max_reviews (reviews (session search max_reviews responses)).
Proof.
  destruct search; simpl; try (apply flipkart_run_good, good_nil). apply good_nil.
Qed.

Lemma flipkart_scrape_reviews_good (search : Search) (max_reviews : Z)
  (responses : list Response) (rs : list RawReview) :
  scrape_reviews search max_reviews responses = Some rs -> good max_reviews rs.
Proof.
  unfold scrape_reviews.
  destruct (running max_reviews (session search max_reviews responses));
    [discriminate|].
  intros [= <-]. apply session_good.
Qed.

Lemma flipkart_run_not_running (max_reviews : Z) (s : Session) (responses : list Response) :
  running max_reviews s = false -> run max_reviews s responses = s.
Proof. destruct responses; simpl; [reflexivity|]. intros ->; reflexivity. Qed.

(** Only page indices up to the ceiling are requested. *)
Lemma iteration_requested (max_reviews : Z) (s : Session) (r : Response) :
  Forall (fun p => p <= max_pages) (requested s) ->
  Forall (fun p => p <= max_pages) (requested (iteration max_reviews s r)).
Proof.
  intros H. unfold iteration.
  destruct (Z.ltb_spec max_pages (page s)); cbn -[add_reviews]; [assumption|].
  assert (H' : Forall (fun p => p <= max_pages) (requested s ++ [page s])).
  { apply Forall_app; split; [assumption|]. constructor; [assumption|constructor]. }
  destruct r as [|code page_reviews|page_reviews]; cbn -[add_reviews];
    [assumption| |].
  - destruct (negb (code =? 200)); cbn -[add_reviews]; [assumption|].
    destruct page_reviews; cbn -[add_reviews]; assumption.
  - destruct page_reviews; cbn -[add_reviews]; assumption.
Qed.

Lemma run_requested (max_reviews : Z) (responses : list Response) :
  forall s, Forall (fun p => p <= max_pages) (requested s) ->
            Forall (fun p => p <= max_pages)
                   (requested (run max_reviews s responses)).
Proof.
  induction responses as [|r responses IH]; intros s H; simpl; [assumption|].
  destruct (running max_reviews s); [|assumption].
  apply IH, iteration_requested, H.
Qed.

(** The Flipkart session never requests a page beyond 25. *)
Lemma session_requested (search : Search) (max_reviews : Z)
  (responses : list Response) :
  Forall (fun p => p <= 25) (requested (session search max_reviews responses)).
Proof.
  destruct search; simpl; try (apply run_requested; constructor). constructor.
Qed.

(** A measure that an iteration below the page ceiling decreases, unless
    [progress_callback] raises in it: then the page is tried again with
    one error counted, and the measure goes up by three at most. *)
Definition budget (s : Session) : Z :=
  5 * (26 - page s) + (5 - consecutive_errors s).

Definition callback_raised (r : Response) : bool :=
  match r with
  | CallbackRaised _ => true
  | _ => false
  end.

(** The number of iterations in which [progress_callback] raises. *)
Definition raised_callbacks (responses : list Response) : nat :=
  length (List.filter callback_raised responses).

Lemma iteration_budget (max_reviews : Z) (s : Session) (r : Response) :
  running max_reviews s = true ->
  page s <= max_pages ->
  budget (iteration max_reviews s r)
  < budget s + (if callback_raised r then 4 else 0)
  /\ page (iteration max_reviews s r) <= 26.
Proof.
  unfold running, loop_condition, budget, iteration, max_pages.
  intros Hrun Hpage.
  apply andb_prop in Hrun as [_ Hrun].
  apply andb_prop in Hrun as [_ Herr%Z.ltb_lt].
  destruct (Z.ltb_spec 25 (page s)); [lia|].
  destruct r as [|code page_reviews|page_reviews]; cbn -[add_reviews]; [lia| |].
  - destruct (negb (code =? 200)); cbn -[add_reviews]; [lia|].
    destruct page_reviews; cbn -[add_reviews]; lia.
  - destruct page_reviews; cbn -[add_reviews]; lia.
Qed.

Lemma iteration_past_ceiling (max_reviews : Z) (s : Session) (r : Response) :
  max_pages < page s ->
  running max_reviews (iteration max_reviews s r) = false
  /\ page (iteration max_reviews s r) = page s.
Proof.
  intros H%Z.ltb_lt. unfold iteration. rewrite H. split; reflexivity.
Qed.

Lemma raised_callbacks_cons (r : Response) (responses : list Response) :
  raised_callbacks (r :: responses)
  = ((if callback_raised r then 1 else 0) + raised_callbacks responses)%nat.
Proof.
  unfold raised_callbacks. simpl. destruct (callback_raised r); reflexivity.
Qed.

Lemma run_terminates (max_reviews : Z) (responses : list Response) :
  forall s,
    (running max_reviews s = true ->
     budget s + 4 * Z.of_nat (raised_callbacks responses)
     < Z.of_nat (length responses)) ->
    page s <= 26 ->
    running max_reviews (run max_reviews s responses) = false.
Proof.
  induction responses as [|r responses IH]; intros s Hb Hp; simpl.
  - destruct (running max_reviews s) eqn:Hrun; [|reflexivity].
    specialize (Hb eq_refl). simpl in Hb.
    unfold running, loop_condition in Hrun.
    apply andb_prop in Hrun as [_ Hrun].
    apply andb_prop in Hrun as [_ Herr%Z.ltb_lt].
    unfold budget in Hb. lia.
  - destruct (running max_reviews s) eqn:Hrun; [|assumption].
    specialize (Hb eq_refl).
    destruct (Z.ltb_spec max_pages (page s)) as [Hlt|Hle].
    + destruct (iteration_past_ceiling max_reviews s r Hlt) as [Hstop Hpage].
      apply IH; [rewrite Hstop; discriminate | lia].
    + destruct (iteration_budget max_reviews s r Hrun Hle) as [Hdec Hpage].
      apply IH; [|assumption].
      intros _. rewrite length_cons, raised_callbacks_cons in Hb.
      destruct (callback_raised r); lia.
Qed.

(** The Flipkart session returns once the answers outnumber 130 by more
    than four for each iteration in which [progress_callback] raises. *)
Lemma scrape_reviews_returns_despite (search : Search) (max_reviews : Z)
  (responses : list Response) :
  (130 + 4 * raised_callbacks responses < length responses)%nat ->
  exists rs, scrape_reviews search max_reviews responses = Some rs.
Proof.
  intros Hlen. unfold scrape_reviews.
  assert (H : running max_reviews (session search max_reviews responses) = false).
  { destruct search; simpl; try reflexivity;
      apply run_terminates; cbn; try lia; intros _; unfold budget; cbn; lia. }
  rewrite H. eauto.
Qed.

Lemma no_raised_callbacks (responses : list Response) :
  Forall (fun r => callback_raised r = false) responses ->
  raised_callbacks responses = 0%nat.
Proof.
  induction 1 as [|r responses Hr _ IH]; [reflexivity|].
  rewrite raised_callbacks_cons, Hr, IH. reflexivity.
Qed.

(** With 131 answers or more the Flipkart session returns, when
    [progress_callback] does not raise. *)
Lemma scrape_reviews_returns (search : Search) (max_reviews : Z)
  (responses : list Response) :
  Forall (fun r => callback_raised r = false) responses ->
  (130 < length responses)%nat ->
  exists rs, scrape_reviews search max_reviews responses = Some rs.
Proof.
  intros Hret Hlen. apply scrape_reviews_returns_despite.
  rewrite (no_raised_callbacks responses Hret). lia.
Qed.

(** A page with one review, after which [progress_callback] raises. *)
Definition raising_review : RawReview :=
  mkRawReview "Nice product" 4 0 "Flipkart Customer" false 0.

Definition raising_page : Response := CallbackRaised [raising_review].

(** The session while such pages come in: on page 1, with the one review
    at most, one error counted at most. *)
Definition retrying (s : Session) : Prop :=
  page s = 1 /\ consecutive_empty s = 0 /\ 0 <= consecutive_errors s <= 1
  /\ stopped s = false
  /\ (reviews s = [] \/ reviews s = [raising_review]).

Lemma retrying_running (max_reviews : Z) (s : Session) :
  1 < max_reviews -> retrying s -> running max_reviews s = true.
Proof.
  intros Hmax (_ & He & Hx & Hs & Hr). unfold running, loop_condition.
  rewrite Hs, He. cbn.
  assert (Hlen : (Z.of_nat (length (reviews s)) <? max_reviews) = true)
    by (apply Z.ltb_lt; destruct Hr as [-> | ->]; simpl; lia).
  assert (Herr : (consecutive_errors s <? 5) = true) by (apply Z.ltb_lt; lia).
  rewrite Hlen, Herr. reflexivity.
Qed.

Lemma retrying_iteration (max_reviews : Z) (s : Session) :
  1 < max_reviews -> retrying s ->
  retrying (iteration max_reviews s raising_page).
Proof.
  intros Hmax (Hp & He & Hx & Hs & Hr). unfold iteration, raising_page.
  rewrite Hp. cbn -[add_reviews]. unfold retrying. cbn -[add_reviews].
  repeat (split; [reflexivity || lia|]). right.
  destruct Hr as [-> | ->]; cbn.
  - destruct (Z.leb_spec max_reviews (Z.of_nat 0)); [lia|]. reflexivity.
  - destruct (max_reviews <=? Z.of_nat 1); reflexivity.
Qed.

Lemma run_raising_pages (max_reviews : Z) (n : nat) :
  1 < max_reviews ->
  forall s, retrying s -> retrying (run max_reviews s (repeat raising_page n)).
Proof.
  intros Hmax. induction n as [|n IH]; intros s Hs; [exact Hs|].
  cbn [repeat run]. rewrite (retrying_running max_reviews s Hmax Hs).
  apply IH, retrying_iteration; assumption.
Qed.

(** When [progress_callback] raises every time, the session does not
    return: after any number of such pages it is still on page 1 and goes
    on to request it again. *)
Lemma raising_callback_never_returns (max_reviews : Z) (n : nat) :
  1 < max_reviews ->
  scrape_reviews NotSearchUrl max_reviews (repeat raising_page n) = None
  /\ page (session NotSearchUrl max_reviews (repeat raising_page n)) = 1.
Proof.
  intros Hmax. unfold scrape_reviews. cbn [session].
  assert (H : retrying (run max_reviews start (repeat raising_page n))).
  { apply run_raising_pages; [exact Hmax|].
    unfold retrying, start. cbn. repeat split; try lia. left. reflexivity. }
  rewrite (retrying_running _ _ Hmax H). split; [reflexivity | apply H].
Qed.

End FlipkartFacts.

Module SessionFacts.
Import Scraper ScraperFacts.

(** C4. Whatever the pages and however the session ends, the list that
    [scrape_reviews] returns, on Amazon or on Flipkart, holds no two
    reviews with the same text. *)
Theorem scrape_reviews_texts_distinct
  (max_reviews : Z) (fetches : list AmazonScraper.Fetch)
  (search : FlipkartScraper.Search) (responses : list FlipkartScraper.Response)
  (rs : list RawReview) :
  AmazonScraper.scrape_reviews max_reviews fetches = Some rs
  \/ FlipkartScraper.scrape_reviews search max_reviews responses = Some rs ->
  NoDup (map text rs).
Proof.
  intros [H | H].
  - apply (AmazonFacts.amazon_scrape_reviews_good _ _ _ H).
  - apply (FlipkartFacts.flipkart_scrape_reviews_good _ _ _ _ H).
Qed.

Definition review_a : RawReview := mkRawReview "Great battery" 5 0 "A" true 0.
Definition review_b : RawReview := mkRawReview "Too slow" 2 0 "B" false 1.

Lemma scrape_reviews_texts_distinct_witness :
  NoDup (map text [review_a; review_b]).
Proof.
  apply (scrape_reviews_texts_distinct 2
           [AmazonScraper.mkFetch
              (AmazonScraper.Got 200
                 (AmazonScraper.mkPage false false
                    [Some review_a; None; Some review_a; Some review_b]))
              None]
           FlipkartScraper.NotSearchUrl [] [review_a; review_b]).
  left. vm_compute. reflexivity.
Defined.

(** The accumulated list has distinct texts at every point of a session,
    not only when it is returned. *)
Lemma sessions_texts_distinct (max_reviews : Z) :
  (forall fetches,
      NoDup (map text (reviews (AmazonScraper.run max_reviews start fetches))))
  /\ (forall search responses,
      NoDup (map text
               (reviews (FlipkartScraper.session search max_reviews responses)))).
Proof.
  split.
  - intros fetches. apply AmazonFacts.amazon_run_good, good_nil.
  - intros search responses. apply FlipkartFacts.session_good.
Qed.

(** The append loops leave alone a list that has [max_reviews] entries
    or more. *)
Lemma add_reviews_stops_at_max (max_reviews : Z) (reviews : list RawReview) :
  max_reviews <= Z.of_nat (length reviews) ->
  (forall divs, AmazonScraper.add_reviews max_reviews reviews divs = reviews)
  /\ (forall page_reviews,
        FlipkartScraper.add_reviews max_reviews reviews page_reviews = reviews).
Proof.
  intros H%Z.leb_le.
  split; intros [|x l]; simpl; rewrite ?H; reflexivity.
Qed.

(** Whatever [max_reviews] is, the returned list has at most
    [max(max_reviews, 0)] entries: with [max_reviews] below 1 the loop is
    not entered and the list is empty. *)
Lemma scrape_reviews_length_bound
  (max_reviews : Z) (fetches : list AmazonScraper.Fetch)
  (search : FlipkartScraper.Search) (responses : list FlipkartScraper.Response)
  (rs : list RawReview) :
  AmazonScraper.scrape_reviews max_reviews fetches = Some rs
  \/ FlipkartScraper.scrape_reviews search max_reviews responses = Some rs ->
  Z.of_nat (length rs) <= Z.max max_reviews 0.
Proof.
  intros [H | H].
  - apply AmazonFacts.amazon_scrape_reviews_good in H as [_ H].
    unfold within in H. lia.
  - apply FlipkartFacts.flipkart_scrape_reviews_good in H as [_ H].
    unfold within in H. lia.
Qed.

(** C10. For every [max_reviews] from 0 on, and so for every value the
    callers pass (the request schema admits 10 to 500, the other calls
    pass 10 or 50), whatever the pages and however the session ends, the
    list that [scrape_reviews] returns, on Amazon or on Flipkart, has at
    most [max_reviews] entries. *)
Theorem scrape_reviews_length_at_most_max
  (max_reviews : Z) (fetches : list AmazonScraper.Fetch)
  (search : FlipkartScraper.Search) (responses : list FlipkartScraper.Response)
  (rs : list RawReview) :
  0 <= max_reviews ->
  AmazonScraper.scrape_reviews max_reviews fetches = Some rs
  \/ FlipkartScraper.scrape_reviews search max_reviews responses = Some rs ->
  Z.of_nat (length rs) <= max_reviews.
Proof.
  intros Hmax [H | H].
  - destruct (AmazonFacts.amazon_scrape_reviews_good _ _ _ H) as [_ Hw].
    unfold within in Hw. rewrite Z.max_r in Hw; assumption.
  - destruct (FlipkartFacts.flipkart_scrape_reviews_good _ _ _ _ H) as [_ Hw].
    unfold within in Hw. rewrite Z.max_r in Hw; assumption.
Qed.

Definition review_c : RawReview := mkRawReview "Value for money" 4 0 "C" true 2.
Definition review_d : RawReview := mkRawReview "Stopped working" 1 0 "D" true 0.

Lemma scrape_reviews_length_at_most_max_witness :
  Z.of_nat (length [review_c]) <= 1.
Proof.
  apply (scrape_reviews_length_at_most_max 1 []
           FlipkartScraper.Resolved
           [FlipkartScraper.Got 200 [review_c; review_d]] [review_c]).
  - lia.
  - right. vm_compute. reflexivity.
Defined.

(** C5. On Amazon, with [max_reviews = 10] and pages that keep showing
    the same review, the session is at page 26 after 25 pages, none of the
    three counters stops it, and it requests page 26 (and, after it,
    page 27). *)
Theorem amazon_requests_page_26 :
  let s25 := AmazonScraper.run 10 start (repeat AmazonFacts.same_page 25) in
  let s27 := AmazonScraper.run 10 start (repeat AmazonFacts.same_page 27) in
  page s25 = 26
  /\ Z.of_nat (length (reviews s25)) < 10
  /\ consecutive_empty s25 < 3
  /\ consecutive_errors s25 < 5
  /\ AmazonScraper.running 10 s25 = true
  /\ In 26 (requested s27) /\ In 27 (requested s27).
Proof. vm_compute. repeat split; auto 30. Qed.

End SessionFacts.

(** ** Sentiment stage *)

Module SentimentFacts.
Import Py Models Sentiment.

(** [analyze_text] answers neutral 0.5 for an empty or near-empty text and
    passes nothing to the pipeline. *)
Lemma analyze_text_short
  (pipeline : list string -> option (list Prediction)) (text : string) :
  text = "" \/ len (strip text) < 3 ->
  analyze_text pipeline text = (("neutral", 1 # 2), []).
Proof.
  intros H. unfold analyze_text.
  assert (Hc : is_empty text || (len (strip text) <? 3) = true).
  { destruct H as [-> | H]; [reflexivity|].
    apply Z.ltb_lt in H. rewrite H. apply orb_true_r. }
  rewrite Hc. reflexivity.
Qed.

(** The batched path has no such test: every text of a batch is passed to
    the pipeline. *)
Lemma analyze_batch_calls
  (pipeline : list string -> option (list Prediction))
  (acc : Logged (list (string * Q))) (batch : list string) :
  snd (analyze_batch pipeline acc batch)
  = (snd acc ++ [map (fun t => if is_empty t then "" else take 512 t) batch])%list.
Proof. unfold analyze_batch. destruct (pipeline _); reflexivity. Qed.

(** A classifier that finds every text positive with confidence 0.99. *)
Definition always_positive (batch : list string) : option (list Prediction) :=
  Some (map (fun _ => ("POSITIVE", 99 # 100)) batch).

Definition short_review : Review :=
  mkReview 1 1 "ok" 3 true None None false 0 None.

(** C6. On the batched path, which is the one [analyze_product_sentiment]
    uses, the empty text and the two-character text "ok" are passed to the
    pipeline and receive its label and score, here positive 0.99, where
    [analyze_text] answers neutral 0.5 without calling the pipeline. *)
Theorem analyze_texts_batch_classifies_short_texts :
  analyze_texts_batch always_positive [""; "ok"] 32
  = ([("positive", 99 # 100); ("positive", 99 # 100)], [[""; "ok"]])
  /\ analyze_text always_positive "" = (("neutral", 1 # 2), [])
  /\ analyze_text always_positive "ok" = (("neutral", 1 # 2), [])
  /\ (let '((db', _), calls) :=
        analyze_product_sentiment always_positive [short_review] 1 1000 in
      map sentiment_label db' = [Some "positive"]
      /\ map sentiment_score db' = [Some (99 # 100)]
      /\ calls = [["ok"]]).
Proof. vm_compute. repeat split. Qed.

End SentimentFacts.

(** ** Insights stage *)

Module InsightsFacts.
Import Py Models Insights.

(** The signed score of a review when every confidence is taken to be 1:
    [+1] for a positive label, [-1] for a negative one, [0] otherwise. *)
Definition unit_signed_score (r : Review) : Q :=
  match sentiment_label r with
  | Some l =>
      if String.eqb l "positive" then 1
      else if String.eqb l "negative" then - (1)
      else 0
  | None => 0
  end.

Definition sum_Q (l : list Q) : Q := fold_right Qplus 0%Q l.

Lemma sentiment_dist_cons (r : Review) (reviews : list Review) (label : string) :
  label <> "" ->
  sentiment_dist (r :: reviews) label
  = (if bool_decide (sentiment_label r = Some label) then 1 else 0)
    + sentiment_dist reviews label.
Proof.
  intros Hne. unfold sentiment_dist. rewrite filter_cons.
  destruct (decide (labelled r = true /\ sentiment_label r = Some label))
    as [[_ H] | H].
  - rewrite bool_decide_eq_true_2 by assumption. rewrite length_cons. lia.
  - rewrite bool_decide_eq_false_2; [lia|].
    intros Hl. apply H. split; [|assumption].
    unfold labelled. rewrite Hl. destruct label; [contradiction|reflexivity].
Qed.

Lemma inject_Z_sum (a b c : Z) :
  a + b = c -> (inject_Z a + inject_Z b == inject_Z c)%Q.
Proof. intros <-. rewrite inject_Z_plus. reflexivity. Qed.

(** Counting positive labels minus negative labels is summing the unit
    signed scores. *)
Lemma sum_unit_signed_scores (reviews : list Review) :
  (sum_Q (map unit_signed_score reviews)
   == inject_Z (sentiment_dist reviews "positive"
                - sentiment_dist reviews "negative"))%Q.
Proof.
  induction reviews as [|r reviews IH]; [reflexivity|].
  rewrite !sentiment_dist_cons by discriminate.
  cbn [map sum_Q fold_right]. fold (sum_Q (map unit_signed_score reviews)).
  rewrite IH. unfold unit_signed_score.
  destruct (sentiment_label r) as [l|].
  - destruct (String.eqb_spec l "positive") as [-> | Hp].
    + rewrite bool_decide_eq_true_2 by reflexivity.
      rewrite bool_decide_eq_false_2 by discriminate.
      change 1%Q with (inject_Z 1). apply inject_Z_sum. lia.
    + rewrite (bool_decide_eq_false_2 (Some l = Some "positive")) by congruence.
      destruct (String.eqb_spec l "negative") as [-> | Hn].
      * rewrite bool_decide_eq_true_2 by reflexivity.
        change (- (1))%Q with (inject_Z (-1)). apply inject_Z_sum. lia.
      * rewrite (bool_decide_eq_false_2 (Some l = Some "negative")) by congruence.
        change 0%Q with (inject_Z 0). apply inject_Z_sum. lia.
  - rewrite !bool_decide_eq_false_2 by discriminate.
    change 0%Q with (inject_Z 0). apply inject_Z_sum. lia.
Qed.

(** One review, labelled positive with confidence 0.8, rated 5. *)
Definition confident_review : Review :=
  mkReview 1 1 "Works well" 5 true (Some "positive") (Some (8 # 10)) false 0
           (Some 0).

(** C7, as stated, fails: for that review the code computes
    [100 * 0.6 + 100 * 0.4 = 100], the confidence-weighted formula gives
    [0.6 * 90 + 0.4 * 100 = 94]. *)
Lemma overall_score_ignores_confidence :
  ~ (forall reviews : list Review,
        0 < total_analyzed reviews ->
        (overall_score reviews == specified_overall_score reviews)%Q).
Proof.
  intros H. specialize (H [confident_review] eq_refl).
  vm_compute in H. discriminate H.
Qed.

(** C7. For a product with at least one sentiment-labelled review, the
    overall score is [0.6 * sentiment_component + 0.4 * rating_component]
    with [rating_component = avg_rating / 5 * 100] and
    [sentiment_component = ((sum of signed scores) / N + 1) / 2 * 100],
    where the signed score of a review is [+1] when labelled positive,
    [-1] when labelled negative and [0] otherwise (the confidence is not
    used), and [N] is the number of labelled reviews. *)
Theorem overall_score_formula (reviews : list Review) :
  0 < total_analyzed reviews ->
  (overall_score reviews
   == (6 # 10)
      * ((sum_Q (map unit_signed_score reviews)
          / inject_Z (total_analyzed reviews) + 1) / 2 * 100)
      + (4 # 10) * (avg_rating reviews / 5 * 100))%Q.
Proof.
  intros Hpos. rewrite sum_unit_signed_scores.
  unfold overall_score, sentiment_score_of, rating_score.
  destruct reviews as [|r reviews]; [discriminate Hpos|].
  apply Z.ltb_lt in Hpos as Hb. rewrite Hb.
  set (t := total_analyzed (r :: reviews)) in *.
  set (p := sentiment_dist (r :: reviews) "positive").
  set (n := sentiment_dist (r :: reviews) "negative").
  set (a := avg_rating (r :: reviews)).
  unfold Z.sub. rewrite inject_Z_plus, inject_Z_opp.
  assert (Ht : ~ (inject_Z t == 0)%Q).
  { intros Heq. unfold Qeq in Heq. simpl in Heq. lia. }
  field. exact Ht.
Qed.

Lemma overall_score_formula_witness :
  (overall_score [confident_review]
   == (6 # 10)
      * ((sum_Q (map unit_signed_score [confident_review])
          / inject_Z (total_analyzed [confident_review]) + 1) / 2 * 100)
      + (4 # 10) * (avg_rating [confident_review] / 5 * 100))%Q.
Proof.
  apply (overall_score_formula [confident_review]). reflexivity.
Defined.

(** What the stage returns is that score rounded to two decimals. *)
Lemma generate_product_insights_overall_score
  (products : list Z) (db : list Review) (pid : Z) (res : InsightsResult) :
  generate_product_insights products db pid = Some res ->
  filter (fun r => product_id r = pid) db <> [] ->
  result_overall_score res
  = round2 (overall_score (filter (fun r => product_id r = pid) db)).
Proof.
  unfold generate_product_insights.
  destruct (bool_decide (pid ∈ products)); [|discriminate].
  destruct (filter (fun r => product_id r = pid) db) eqn:Hf; [congruence|].
  intros [= <-] _. reflexivity.
Qed.

End InsightsFacts.

(** ** Cached analysis endpoints *)

Module AnalysisFacts.
Import Analysis.

(** [newest] returns a row of the list, and none of the list is newer. *)
Lemma newest_most_recent (rows : list AnalysisCache) (e : AnalysisCache) :
  newest rows = Some e ->
  e ∈ rows /\ Forall (fun c => created_at c <= created_at e) rows.
Proof.
  revert e. induction rows as [|c rows IH]; intros e; simpl; [discriminate|].
  destruct (newest rows) as [c'|] eqn:Hn.
  - destruct (IH c' eq_refl) as [Hin Hall].
    destruct (Z.ltb_spec (created_at c) (created_at c')); intros [= <-].
    + split; [right; assumption|]. constructor; [lia | assumption].
    + split; [left|]. constructor; [lia|].
      eapply Forall_impl; [exact Hall|]. simpl. intros; lia.
  - intros [= <-]. split; [left|].
    destruct rows; [repeat constructor; lia | simpl in Hn].
    destruct (newest rows); [destruct (_ <? _)|]; discriminate.
Qed.

(** A row newer than all the others is the one [newest] returns. *)
Lemma newest_snoc (rows : list AnalysisCache) (x : AnalysisCache) :
  Forall (fun c => created_at c < created_at x) rows ->
  newest (rows ++ [x]) = Some x.
Proof.
  induction 1 as [|c rows Hc _ IH]; simpl; [reflexivity|].
  rewrite IH. apply Z.ltb_lt in Hc. rewrite Hc. reflexivity.
Qed.

Lemma rows_for_snoc (pid : Z) (type : string) (rows : list AnalysisCache)
  (res : json) (t : Z) :
  rows_for pid type (rows ++ [mkAnalysisCache pid type res t])
  = (rows_for pid type rows ++ [mkAnalysisCache pid type res t])%list.
Proof.
  unfold rows_for. rewrite filter_app. f_equal.
  rewrite filter_cons_True by (split; reflexivity). reflexivity.
Qed.

Section WithStages.

Variable World : Type.
Variable stage : string -> Z -> World -> World * option (list (string * json)).
Variable run_complete_analysis : Z -> World -> World.

(** Every payload in the cache table is a non-empty dictionary. *)
Definition cache_truthy (db : DB World) : Prop :=
  Forall (fun c => truthy (results c) = true) (analysis_cache db).

Lemma stage_results_truthy (type : string) (pid : Z) (w w' : World) (res : json) :
  stage_results stage type pid w = (w', Some res) -> truthy res = true.
Proof.
  unfold stage_results. destruct (stage type pid w) as [w1 [rest|]];
    simpl; [|discriminate].
  intros [= _ <-]. reflexivity.
Qed.

Lemma run_and_cache_truthy (type : string) (pid saved_at : Z) (db : DB World) :
  cache_truthy db -> cache_truthy (snd (run_and_cache stage type pid saved_at db)).
Proof.
  intros H. unfold run_and_cache.
  destruct (stage_results stage type pid (world db)) as [w' [res|]] eqn:Hs;
    [|exact H].
  unfold cache_truthy, save_analysis_cache. simpl.
  apply Forall_app. split; [exact H|]. repeat constructor.
  simpl. exact (stage_results_truthy _ _ _ _ _ Hs).
Qed.

Lemma get_analysis_cache_truthy (type : string) (pid : Z) (force_refresh : bool)
  (now saved_at : Z) (db : DB World) :
  cache_truthy db ->
  cache_truthy (snd (get_analysis stage type pid force_refresh now saved_at db)).
Proof.
  intros H. unfold get_analysis.
  destruct (bool_decide (pid ∈ products db)); [|exact H].
  destruct (if force_refresh then None else _) as [c|].
  - destruct (truthy c); [exact H | apply run_and_cache_truthy, H].
  - apply run_and_cache_truthy, H.
Qed.

Lemma reachable_cache_truthy (db : DB World) :
  reachable stage run_complete_analysis db -> cache_truthy db.
Proof.
  induction 1 as [w | db pid _ IH | db w _ IH
                 | db type pid force now saved_at _ IH | db pid _ IH
                 | db pid _ IH].
  - constructor.
  - exact IH.
  - exact IH.
  - apply get_analysis_cache_truthy, IH.
  - unfold reanalyze_product.
    destruct (bool_decide (pid ∈ products db)); [|exact IH].
    unfold cache_truthy. simpl.
    apply Forall_forall. intros c Hc%list_elem_of_filter.
    unfold cache_truthy in IH. rewrite Forall_forall in IH.
    apply IH, Hc.
  - unfold cache_truthy, delete_product. simpl.
    apply Forall_forall. intros c Hc%list_elem_of_filter.
    unfold cache_truthy in IH. rewrite Forall_forall in IH.
    apply IH, Hc.
Qed.

(** A fresh newest row is served as it is: no stage runs, nothing is
    written. *)
Lemma get_analysis_hit (db : DB World) (type : string) (pid now saved_at : Z)
  (e : AnalysisCache) :
  cache_truthy db ->
  pid ∈ products db ->
  newest (rows_for pid type (analysis_cache db)) = Some e ->
  now - created_at e < day ->
  get_analysis stage type pid false now saved_at db = (inr (results e), db).
Proof.
  intros Hinv Hpid Hnew Hfresh. unfold get_analysis, get_cached_analysis.
  rewrite bool_decide_eq_true_2 by assumption.
  rewrite Hnew. apply Z.ltb_lt in Hfresh. rewrite Hfresh.
  destruct (newest_most_recent _ _ Hnew) as [Hin _].
  apply list_elem_of_filter in Hin as [_ Hin].
  unfold cache_truthy in Hinv. rewrite Forall_forall in Hinv.
  rewrite (Hinv e Hin). reflexivity.
Qed.






End WithStages.

(** A world with nothing in it and a sentiment stage that reports a fixed
    score, to run the endpoints on. *)
Definition fixed_stage (type : string) (pid : Z) (w : unit)
  : unit * option (list (string * json)) :=
  (w, Some [("overall_score", JNum 50); ("overall_label", JStr "neutral")]).

Definition no_analysis (pid : Z) (w : unit) : unit := w.

Definition one_product : DB unit := mkDB [1] [] tt [].

Definition fixed_payload : json :=
  JDict [("product_id", JInt 1); ("overall_score", JNum 50);
         ("overall_label", JStr "neutral")].

Definition after_first_call : DB unit :=
  mkDB [1] [mkAnalysisCache 1 "sentiment" fixed_payload 2000000]
       tt [("sentiment", 1)].

Lemma one_product_reachable : reachable fixed_stage no_analysis one_product.
Proof.
  apply (reach_product fixed_stage no_analysis (mkDB [] [] tt []) 1).
  apply reach_empty.
Qed.


(** The two calls of the example, evaluated: the first runs the stage and
    caches its result, the second, one second later, returns the cached
    payload and leaves the log of stage runs alone. *)
Example two_calls_evaluated :
  get_analysis fixed_stage "sentiment" 1 false 1000000 2000000 one_product
  = (inr fixed_payload, after_first_call)
  /\ get_analysis fixed_stage "sentiment" 1 false 3000000 3000001 after_first_call
     = (inr fixed_payload, after_first_call).
Proof. split; vm_compute; reflexivity. Qed.









End AnalysisFacts.

(** * Further properties of the modelled code *)

(** ** The job registry *)

Module RegistryFacts.
Import Py Scraping.

(** The key an event reads and writes. *)
Definition target (ev : Event) : string :=
  match ev with
  | Create uuid _ => uuid
  | DriverBegin jid _ => jid
  | Progress jid _ _ => jid
  | DriverReturned jid _ _ _ => jid
  | DriverRaised jid _ _ => jid
  | Cancel jid _ => jid
  end.

Definition run_events (scrape_jobs : gmap string Job) (evs : list Event)
  : gmap string Job :=
  fold_left step evs scrape_jobs.

(** X1. Every handler and every piece of the driver touches the record of
    its own job only: the record of any other job is left as it was. *)
Theorem step_other_job (scrape_jobs : gmap string Job) (ev : Event) (k : string) :
  k <> target ev -> step scrape_jobs ev !! k = scrape_jobs !! k.
Proof.
  intros Hne.
  destruct ev as [uuid url | jid now | jid p c | jid pid c now | jid e now
                 | jid now]; simpl in *.
  - unfold start_scraping. destruct (detect_platform url); [|reflexivity].
    apply lookup_insert_ne. congruence.
  - unfold run_scrape_job_begin. destruct (scrape_jobs !! jid); [|reflexivity].
    apply lookup_insert_ne. congruence.
  - unfold update_job_progress. destruct (scrape_jobs !! jid); [|reflexivity].
    apply lookup_insert_ne. congruence.
  - unfold run_scrape_job_returned. destruct (scrape_jobs !! jid); [|reflexivity].
    apply lookup_insert_ne. congruence.
  - unfold run_scrape_job_raised. destruct (scrape_jobs !! jid); [|reflexivity].
    apply lookup_insert_ne. congruence.
  - unfold cancel_scrape. destruct (scrape_jobs !! jid) as [job|]; [|reflexivity].
    destruct (_ || _); [reflexivity|].
    apply lookup_insert_ne. congruence.
Qed.

Definition one_running_job : gmap string Job :=
  <["job-2" := mkJob "job-2" RUNNING None 40 12 None (Some 3) None None]> ∅.

Lemma step_other_job_witness :
  step one_running_job (Cancel "job-1" 9) !! "job-2" = one_running_job !! "job-2".
Proof.
  apply (step_other_job one_running_job (Cancel "job-1" 9) "job-2"). discriminate.
Defined.

(** Every record is filed under its own [job_id]. *)
Definition keyed (scrape_jobs : gmap string Job) : Prop :=
  forall k j, scrape_jobs !! k = Some j -> job_id j = k.

Lemma step_keyed (scrape_jobs : gmap string Job) (ev : Event) :
  keyed scrape_jobs -> keyed (step scrape_jobs ev).
Proof.
  intros Hk k j.
  destruct (decide (k = target ev)) as [-> | Hne];
    [|rewrite step_other_job by assumption; apply Hk].
  destruct ev as [uuid url | jid now | jid p c | jid pid c now | jid e now
                 | jid now]; simpl.
  - unfold start_scraping. destruct (detect_platform url); [|apply Hk].
    rewrite lookup_insert_eq. intros [= <-]. reflexivity.
  - unfold run_scrape_job_begin.
    destruct (scrape_jobs !! jid) as [job|] eqn:Hj; [|rewrite Hj; discriminate].
    rewrite lookup_insert_eq. intros [= <-]. simpl. apply (Hk _ _ Hj).
  - unfold update_job_progress.
    destruct (scrape_jobs !! jid) as [job|] eqn:Hj; [|rewrite Hj; discriminate].
    rewrite lookup_insert_eq. intros [= <-]. simpl. apply (Hk _ _ Hj).
  - unfold run_scrape_job_returned.
    destruct (scrape_jobs !! jid) as [job|] eqn:Hj; [|rewrite Hj; discriminate].
    rewrite lookup_insert_eq. intros [= <-]. simpl. apply (Hk _ _ Hj).
  - unfold run_scrape_job_raised.
    destruct (scrape_jobs !! jid) as [job|] eqn:Hj; [|rewrite Hj; discriminate].
    rewrite lookup_insert_eq. intros [= <-]. simpl. apply (Hk _ _ Hj).
  - unfold cancel_scrape.
    destruct (scrape_jobs !! jid) as [job|] eqn:Hj; [|rewrite Hj; discriminate].
    destruct (_ || _); [rewrite Hj; intros [= <-]; apply (Hk _ _ Hj)|].
    rewrite lookup_insert_eq. intros [= <-]. simpl. apply (Hk _ _ Hj).
Qed.

Lemma step_keeps (scrape_jobs : gmap string Job) (ev : Event) (k : string) :
  is_Some (scrape_jobs !! k) -> is_Some (step scrape_jobs ev !! k).
Proof.
  intros Hs.
  destruct (decide (k = target ev)) as [-> | Hne];
    [|rewrite step_other_job by assumption; exact Hs].
  destruct ev as [uuid url | jid now | jid p c | jid pid c now | jid e now
                 | jid now]; simpl in *.
  - unfold start_scraping. destruct (detect_platform url); [|exact Hs].
    rewrite lookup_insert_eq. eauto.
  - unfold run_scrape_job_begin.
    destruct (scrape_jobs !! jid) eqn:Hj; [|rewrite Hj; exact Hs].
    rewrite lookup_insert_eq. eauto.
  - unfold update_job_progress.
    destruct (scrape_jobs !! jid) eqn:Hj; [|rewrite Hj; exact Hs].
    rewrite lookup_insert_eq. eauto.
  - unfold run_scrape_job_returned.
    destruct (scrape_jobs !! jid) eqn:Hj; [|rewrite Hj; exact Hs].
    rewrite lookup_insert_eq. eauto.
  - unfold run_scrape_job_raised.
    destruct (scrape_jobs !! jid) eqn:Hj; [|rewrite Hj; exact Hs].
    rewrite lookup_insert_eq. eauto.
  - unfold cancel_scrape.
    destruct (scrape_jobs !! jid) eqn:Hj; [|rewrite Hj; exact Hs].
    destruct (_ || _); [rewrite Hj; eauto|].
    rewrite lookup_insert_eq. eauto.
Qed.

Lemma run_events_keyed (evs : list Event) : keyed (run_events ∅ evs).
Proof.
  unfold run_events. rewrite <- (rev_involutive evs).
  induction (rev evs) as [|ev l IH]; simpl.
  - intros k' j. rewrite lookup_empty. discriminate.
  - rewrite fold_left_app. simpl. apply step_keyed, IH.
Qed.

(** X2. Along any sequence of requests and driver steps that starts from
    the empty registry, a job that has been registered is never dropped:
    whatever happens next, its key still holds a record, and that record
    carries the key as its [job_id]. *)
Theorem registry_keeps_jobs (evs evs' : list Event) (k : string) :
  is_Some (run_events ∅ evs !! k) ->
  exists j, run_events ∅ (evs ++ evs') !! k = Some j /\ job_id j = k.
Proof.
  intros Hs.
  assert (H : is_Some (run_events ∅ (evs ++ evs') !! k)).
  { unfold run_events in *. rewrite fold_left_app.
    revert Hs. generalize (fold_left step evs ∅).
    induction evs' as [|ev l IH]; simpl; [auto|].
    intros jobs Hs. apply IH, step_keeps, Hs. }
  destruct H as [j Hj]. exists j. split; [exact Hj|].
  exact (run_events_keyed (evs ++ evs') k j Hj).
Qed.

Lemma registry_keeps_jobs_witness :
  exists j,
    run_events ∅ ([Create "job-1" "https://www.flipkart.com/x/p/itm1"]
                  ++ [Cancel "job-1" 4; DriverRaised "job-1" "timeout" 9])
      !! "job-1" = Some j
    /\ job_id j = "job-1".
Proof.
  apply (registry_keeps_jobs
           [Create "job-1" "https://www.flipkart.com/x/p/itm1"]
           [Cancel "job-1" 4; DriverRaised "job-1" "timeout" 9] "job-1").
  vm_compute. eauto.
Defined.

(** [start_scraping] either rejects the URL with status 400, when
    neither platform name occurs in it, or registers a job that
    [get_scrape_status] then returns: pending, progress 0, no reviews, no
    product, no timestamps, no error. *)
Theorem start_scraping_then_status
  (uuid url : string) (scrape_jobs : gmap string Job) :
  match start_scraping uuid url scrape_jobs with
  | inl e => status_code e = 400 /\ detect_platform url = None
  | inr (jobs', job) =>
      get_scrape_status uuid jobs' = inr job
      /\ job_id job = uuid /\ status job = PENDING
      /\ progress job = 0 /\ reviews_scraped job = 0
      /\ product_id job = None /\ started_at job = None
      /\ completed_at job = None /\ error job = None
  end.
Proof.
  unfold start_scraping. destruct (detect_platform url) as [platform|].
  - unfold get_scrape_status. rewrite lookup_insert_eq. repeat split.
  - split; reflexivity.
Qed.

(** X3. Cancelling a job that is completed or failed is answered with
    status 400 and the registry stays as it is; cancelling an unknown job
    is answered with 404. *)
Theorem cancel_scrape_rejections
  (scrape_jobs : gmap string Job) (jid : string) (now : Z) :
  scrape_jobs !! jid = None
  \/ (exists job, scrape_jobs !! jid = Some job
                  /\ (status job = COMPLETED \/ status job = FAILED)) ->
  exists e,
    cancel_scrape jid now scrape_jobs = inl e
    /\ status_code e = match scrape_jobs !! jid with
                       | Some _ => 400
                       | None => 404
                       end
    /\ step scrape_jobs (Cancel jid now) = scrape_jobs.
Proof.
  simpl. unfold cancel_scrape.
  intros [-> | (job & -> & [-> | ->])]; simpl; eexists; repeat split.
Qed.

Definition finished_registry : gmap string Job :=
  run_events ∅ [Create "job-1" "https://www.amazon.in/dp/B0ABCDEFGH";
                DriverBegin "job-1" 1; DriverReturned "job-1" 3 20 8].

Lemma cancel_scrape_rejections_witness :
  exists e,
    cancel_scrape "job-1" 9 finished_registry = inl e
    /\ status_code e = match finished_registry !! "job-1" with
                       | Some _ => 400
                       | None => 404
                       end
    /\ step finished_registry (Cancel "job-1" 9) = finished_registry.
Proof.
  apply (cancel_scrape_rejections finished_registry "job-1" 9).
  right. eexists. split; [vm_compute; reflexivity|]. left. reflexivity.
Defined.

(** Cancelling a pending or running job succeeds: the record becomes
    cancelled with [completed_at] set to the time of the call and the
    message "Job cancelled by user", while its progress, review count,
    product, start time and error stay as they were. *)
Theorem cancel_scrape_active
  (scrape_jobs : gmap string Job) (jid : string) (now : Z) (job : Job) :
  scrape_jobs !! jid = Some job ->
  status job = PENDING \/ status job = RUNNING ->
  exists jobs' job',
    cancel_scrape jid now scrape_jobs = inr jobs'
    /\ jobs' !! jid = Some job'
    /\ status job' = CANCELLED
    /\ completed_at job' = Some now
    /\ message job' = Some "Job cancelled by user"
    /\ progress job' = progress job
    /\ reviews_scraped job' = reviews_scraped job
    /\ product_id job' = product_id job
    /\ started_at job' = started_at job
    /\ error job' = error job.
Proof.
  intros Hj Hs. unfold cancel_scrape. rewrite Hj.
  assert (Hg : bool_decide (status job = COMPLETED)
               || bool_decide (status job = FAILED) = false).
  { destruct Hs as [-> | ->]; reflexivity. }
  rewrite Hg. eexists _, _. split; [reflexivity|].
  rewrite lookup_insert_eq. repeat split.
Qed.

Lemma cancel_scrape_active_witness :
  exists jobs' job',
    cancel_scrape "job-2" 50 one_running_job = inr jobs'
    /\ jobs' !! "job-2" = Some job'
    /\ status job' = CANCELLED
    /\ completed_at job' = Some 50
    /\ message job' = Some "Job cancelled by user"
    /\ progress job' = 40
    /\ reviews_scraped job' = 12
    /\ product_id job' = None
    /\ started_at job' = Some 3
    /\ error job' = None.
Proof.
  apply (cancel_scrape_active one_running_job "job-2" 50
           (mkJob "job-2" RUNNING None 40 12 None (Some 3) None None)).
  - vm_compute. reflexivity.
  - right. reflexivity.
Defined.

(** The progress reports of a scrape, as events on job [jid]. *)
Definition progress_events (jid : string) (reports : list (Z * Z)) : list Event :=
  map (fun r => Progress jid (fst r) (snd r)) reports.

Lemma status_history_app (jid : string) (evs evs' : list Event) :
  forall jobs,
    status_history jid jobs (evs ++ evs')
    = (status_history jid jobs evs
       ++ status_history jid (run_events jobs evs) evs')%list.
Proof.
  induction evs as [|ev evs IH]; intros jobs; simpl; [reflexivity|].
  f_equal. apply IH.
Qed.

Lemma progress_events_running (jid : string) (reports : list (Z * Z)) :
  forall jobs job,
    jobs !! jid = Some job ->
    exists p c,
      run_events jobs (progress_events jid reports) !! jid
      = Some (set_reviews_scraped c (set_progress p job))
      /\ status_history jid jobs (progress_events jid reports)
         = repeat (Some (status job)) (length reports).
Proof.
  induction reports as [|[p c] reports IH]; intros jobs job Hj.
  - exists (progress job), (reviews_scraped job). simpl. rewrite Hj.
    destruct job; auto.
  - assert (Hu : update_job_progress jid p c jobs
                 = <[jid := set_reviews_scraped c (set_progress p job)]> jobs).
    { unfold update_job_progress. rewrite Hj. reflexivity. }
    destruct (IH (<[jid := set_reviews_scraped c (set_progress p job)]> jobs)
                 (set_reviews_scraped c (set_progress p job)))
      as (p' & c' & H1 & H2); [apply lookup_insert_eq|].
    exists p', c'. unfold run_events in *. simpl. rewrite Hu. split.
    + rewrite H1. reflexivity.
    + rewrite lookup_insert_eq. simpl. f_equal. exact H2.
Qed.

(** X4. A job that is created, started, reports progress any number of
    times and whose scrape returns, without a cancellation in between,
    goes through pending, running (while progress is reported) and
    completed, and ends with progress 100, the product id and review
    count the scrape returned, both timestamps and no error. *)
Theorem uncancelled_job_completes
  (scrape_jobs : gmap string Job) (uuid url platform : string)
  (reports : list (Z * Z)) (t0 t1 pid reviews_count : Z) :
  detect_platform url = Some platform ->
  let evs := ([Create uuid url; DriverBegin uuid t0]
              ++ progress_events uuid reports
              ++ [DriverReturned uuid pid reviews_count t1])%list in
  status_history uuid scrape_jobs evs
  = ([Some PENDING; Some RUNNING] ++ repeat (Some RUNNING) (length reports)
     ++ [Some COMPLETED])%list
  /\ exists job,
       run_events scrape_jobs evs !! uuid = Some job
       /\ status job = COMPLETED /\ progress job = 100
       /\ product_id job = Some pid /\ reviews_scraped job = reviews_count
       /\ started_at job = Some t0 /\ completed_at job = Some t1
       /\ error job = None.
Proof.
  intros Hp evs. subst evs.
  set (job0 := mkJob uuid PENDING None 0 0
                 (Some ("Scraping " ++ platform ++ " product..."))
                 None None None).
  set (job1 := set_started_at t0 (set_status RUNNING job0)).
  set (jobs1 := <[uuid := job1]> (<[uuid := job0]> scrape_jobs)).
  assert (H1 : run_events scrape_jobs [Create uuid url; DriverBegin uuid t0]
               = jobs1).
  { unfold run_events. simpl. unfold start_scraping. rewrite Hp.
    unfold run_scrape_job_begin. rewrite lookup_insert_eq. reflexivity. }
  assert (H0 : status_history uuid scrape_jobs
                 [Create uuid url; DriverBegin uuid t0]
               = [Some PENDING; Some RUNNING]).
  { simpl. unfold start_scraping. rewrite Hp. rewrite lookup_insert_eq.
    unfold run_scrape_job_begin. rewrite lookup_insert_eq.
    rewrite lookup_insert_eq. reflexivity. }
  destruct (progress_events_running uuid reports jobs1 job1)
    as (p & c & Hj' & Hh); [apply lookup_insert_eq|].
  split.
  - rewrite (status_history_app uuid [Create uuid url; DriverBegin uuid t0]).
    rewrite H0, H1. rewrite status_history_app. rewrite Hh.
    simpl. do 2 f_equal. f_equal.
    unfold run_scrape_job_returned. rewrite Hj'. rewrite lookup_insert_eq.
    reflexivity.
  - unfold run_events. rewrite (fold_left_app step [_; _]).
    fold (run_events scrape_jobs [Create uuid url; DriverBegin uuid t0]).
    rewrite H1. rewrite fold_left_app.
    fold (run_events jobs1 (progress_events uuid reports)). simpl.
    unfold run_scrape_job_returned. rewrite Hj'.
    eexists. rewrite lookup_insert_eq. split; [reflexivity|]. simpl.
    repeat split.
Qed.

Lemma uncancelled_job_completes_witness :
  let evs := ([Create "job-9" "https://www.amazon.in/dp/B0ABCDEFGH";
               DriverBegin "job-9" 5]
              ++ progress_events "job-9" [(10, 5); (60, 30)]
              ++ [DriverReturned "job-9" 3 50 99])%list in
  status_history "job-9" ∅ evs
  = ([Some PENDING; Some RUNNING] ++ repeat (Some RUNNING) 2
     ++ [Some COMPLETED])%list
  /\ exists job,
       run_events ∅ evs !! "job-9" = Some job
       /\ status job = COMPLETED /\ progress job = 100
       /\ product_id job = Some 3 /\ reviews_scraped job = 50
       /\ started_at job = Some 5 /\ completed_at job = Some 99
       /\ error job = None.
Proof.
  apply (uncancelled_job_completes ∅ "job-9"
           "https://www.amazon.in/dp/B0ABCDEFGH" "amazon"
           [(10, 5); (60, 30)] 5 99 3 50).
  vm_compute. reflexivity.
Defined.

(** [lower] changes nothing in a string it has produced. *)
Lemma lower_char_idempotent (c : ascii) : lower_char (lower_char c) = lower_char c.
Proof. destruct c as [[] [] [] [] [] [] [] []]; reflexivity. Qed.

Lemma lower_idempotent (s : string) : lower (lower s) = lower s.
Proof.
  induction s as [|c s IH]; simpl; [reflexivity|].
  rewrite lower_char_idempotent, IH. reflexivity.
Qed.

(** The router detects the platform whatever the letter case of the
    URL: two URLs that differ only in case are given the same platform,
    or are both rejected. *)
Theorem detect_platform_case_insensitive (url url' : string) :
  lower url = lower url' -> detect_platform url = detect_platform url'.
Proof. unfold detect_platform. intros ->. reflexivity. Qed.

Lemma detect_platform_case_insensitive_witness :
  detect_platform "HTTPS://WWW.FLIPKART.COM/phone/p/itm1"
  = detect_platform "https://www.flipkart.com/phone/p/itm1".
Proof.
  apply (detect_platform_case_insensitive
           "HTTPS://WWW.FLIPKART.COM/phone/p/itm1"
           "https://www.flipkart.com/phone/p/itm1").
  reflexivity.
Defined.

End RegistryFacts.

(** ** Scrape sessions: what the loops do with the pages *)

Module AmazonSessionFacts.
Import Scraper AmazonScraper ScraperFacts AmazonFacts.

Lemma run_app (max_reviews : Z) (fetches fetches' : list Fetch) :
  forall s,
    run max_reviews s (fetches ++ fetches')
    = run max_reviews (run max_reviews s fetches) fetches'.
Proof.
  induction fetches as [|f fetches IH]; intros s; simpl; [reflexivity|].
  destruct (running max_reviews s) eqn:Hr; [apply IH|].
  symmetry. apply amazon_run_not_running, Hr.
Qed.

Lemma add_reviews_extends (max_reviews : Z) (divs : list (option RawReview)) :
  forall reviews,
    exists more,
      add_reviews max_reviews reviews divs = (reviews ++ more)%list
      /\ forall r, r ∈ more -> Some r ∈ divs.
Proof.
  induction divs as [|div divs IH]; intros reviews; simpl.
  - exists []. rewrite app_nil_r. split; [reflexivity|]. intros r Hr.
    inversion Hr.
  - destruct (max_reviews <=? Z.of_nat (length reviews)).
    { exists []. rewrite app_nil_r. split; [reflexivity|]. intros r Hr.
      inversion Hr. }
    destruct div as [review|].
    + destruct (seen reviews review).
      * destruct (IH reviews) as (more & -> & Hm). exists more.
        split; [reflexivity|]. intros r Hr. right. auto.
      * destruct (IH (reviews ++ [review])%list) as (more & -> & Hm).
        exists (review :: more). rewrite <- app_assoc. split; [reflexivity|].
        intros r [-> | Hr]%elem_of_cons; [left | right; auto].
    + destruct (IH reviews) as (more & -> & Hm). exists more.
      split; [reflexivity|]. intros r Hr. right. auto.
Qed.

Lemma nothing_added (reviews : list RawReview) (P : RawReview -> Prop) :
  exists more : list RawReview,
    reviews = (reviews ++ more)%list /\ forall r, r ∈ more -> P r.
Proof.
  exists []. rewrite app_nil_r. split; [reflexivity|]. intros r Hr. inversion Hr.
Qed.

(** A review parsed from a [div] of the page [f] answers with, of status
    200 and free of the CAPTCHA input and of the block phrases. *)
Definition from_page (f : Fetch) (r : RawReview) : Prop :=
  exists body,
    received (response f) = Some (200, body)
    /\ captcha body = false /\ blocked body = false
    /\ Some r ∈ review_divs body.

(** A review parsed from a [div] of the fallback of [f], of status 200,
    the page itself being such a page without a review [div]. *)
Definition from_fallback (f : Fetch) (r : RawReview) : Prop :=
  exists body,
    received (response f) = Some (200, body)
    /\ captcha body = false /\ blocked body = false
    /\ review_divs body = []
    /\ exists answer fb,
         fallback f = Some answer /\ received answer = Some (200, fb)
         /\ Some r ∈ review_divs fb.

Lemma iteration_extends (max_reviews : Z) (s : Session) (f : Fetch) :
  exists more,
    reviews (iteration max_reviews s f) = (reviews s ++ more)%list
    /\ forall r, r ∈ more ->
         from_page f r
         \/ (from_fallback f r /\ page s = 1 /\ consecutive_errors s = 0).
Proof.
  destruct (iteration_appends max_reviews s f)
    as [-> | (divs & n & (body & Hrec & Hcap & Hblk & Hdivs) & ->)];
    [apply nothing_added|].
  destruct (add_reviews_extends max_reviews (firstn n divs) (reviews s))
    as (more & -> & Hm).
  exists more. split; [reflexivity|]. intros r Hr.
  apply Hm, (subseteq_take n divs) in Hr.
  destruct Hdivs as [-> | (Hd & Hp & Hx & answer & fb & Hfb & Hrec' & ->)].
  - left. exists body. auto.
  - right. split; [|auto]. exists body. repeat (split; [assumption|]).
    exists answer, fb. auto.
Qed.

Lemma run_extends (max_reviews : Z) (fetches : list Fetch) :
  forall s,
    exists more,
      reviews (run max_reviews s fetches) = (reviews s ++ more)%list.
Proof.
  induction fetches as [|f fetches IH]; intros s; simpl.
  - exists []. rewrite app_nil_r. reflexivity.
  - destruct (running max_reviews s).
    + destruct (IH (iteration max_reviews s f)) as (more' & ->).
      destruct (iteration_extends max_reviews s f) as (more & -> & _).
      exists (more ++ more')%list. rewrite app_assoc. reflexivity.
    + exists []. rewrite app_nil_r. reflexivity.
Qed.




(** X5. An Amazon session only ever appends: the reviews collected after
    some pages are still there, in the same order and at the front, after
    any further pages. *)
Theorem amazon_reviews_only_grow
  (max_reviews : Z) (fetches fetches' : list Fetch) :
  exists more,
    reviews (run max_reviews start (fetches ++ fetches'))
    = (reviews (run max_reviews start fetches) ++ more)%list.
Proof.
  rewrite run_app.
  destruct (run_extends max_reviews fetches' (run max_reviews start fetches))
    as (more & H).
  exists more. exact H.
Qed.


Definition review_e : RawReview := mkRawReview "Sturdy case" 5 0 "E" true 3.

Definition page_e : Fetch :=
  mkFetch (Got 200 (mkPage false false [None; Some review_e])) None.



(** X7. A CAPTCHA page ends an Amazon session at once: the reviews are
    those collected before it, the page index does not move, and no
    later answer is consumed.  On the first page the result is empty. *)
Theorem amazon_captcha_ends_session
  (max_reviews : Z) (s : Session) (f : Fetch) (rest : list Fetch) (body : Page) :
  running max_reviews s = true ->
  response f = Got 200 body ->
  captcha body = true ->
  let s' := run max_reviews s (f :: rest) in
  reviews s' = reviews s /\ page s' = page s
  /\ running max_reviews s' = false
  /\ requested s' = (requested s ++ [page s])%list
  /\ (s = start -> scrape_reviews max_reviews (f :: rest) = Some []).
Proof.
  intros Hrun Hresp Hcap.
  assert (Hit : iteration max_reviews s f
                = mkSession (reviews s) (page s) (consecutive_empty s)
                    (consecutive_errors s) true (requested s ++ [page s])).
  { unfold iteration. rewrite Hresp. cbn. rewrite Hcap. reflexivity. }
  assert (Hrun' : run max_reviews s (f :: rest) = iteration max_reviews s f).
  { cbn [run]. rewrite Hrun. apply amazon_run_not_running.
    rewrite Hit. reflexivity. }
  cbv zeta. rewrite Hrun', Hit. cbn.
  repeat split. intros ->. unfold scrape_reviews. rewrite Hrun', Hit.
  reflexivity.
Qed.

Lemma amazon_captcha_ends_session_witness :
  let f := mkFetch (Got 200 (mkPage true false [Some review_e])) None in
  let s' := run 10 start [f; page_e] in
  reviews s' = reviews start /\ page s' = page start
  /\ running 10 s' = false
  /\ requested s' = (requested start ++ [page start])%list
  /\ (start = start -> scrape_reviews 10 [f; page_e] = Some []).
Proof.
  intros f.
  apply (amazon_captcha_ends_session 10 start f [page_e]
           (mkPage true false [Some review_e])); reflexivity.
Defined.

(** A hard block: status 503, 403 or 429. *)
Definition hard_block (f : Fetch) : Prop :=
  exists code body, response f = Got code body /\ blocked_status code = true.

Lemma blocked_status_not_200 (code : Z) :
  blocked_status code = true -> negb (code =? 200) = true.
Proof.
  unfold blocked_status. intros H.
  destruct (Z.eqb_spec code 200) as [-> | _]; [discriminate H | reflexivity].
Qed.

Lemma run_hard_blocks (max_reviews : Z) (fetches : list Fetch) :
  Forall hard_block fetches ->
  forall s,
    stopped s = false ->
    (Z.of_nat (length (reviews s)) <? max_reviews) = true ->
    (consecutive_empty s <? 3) = true ->
    0 <= consecutive_errors s <= 5 ->
    let n := Nat.min (length fetches) (Z.to_nat (5 - consecutive_errors s)) in
    run max_reviews s fetches
    = mkSession (reviews s) (page s) (consecutive_empty s)
        (consecutive_errors s + Z.of_nat n) false
        (requested s ++ repeat (page s) n).
Proof.
  induction 1 as [|f fetches Hf _ IH]; intros s Hst Hlen Hemp Herr.
  - cbn. rewrite Z.add_0_r, app_nil_r. destruct s; simpl in *. subst.
    reflexivity.
  - cbn [run]. unfold running, loop_condition. rewrite Hst, Hlen, Hemp. cbn.
    destruct (Z.ltb_spec (consecutive_errors s) 5) as [Hlt|Hge].
    + destruct Hf as (code & body & Hresp & Hb).
      assert (Hit : iteration max_reviews s f
                    = mkSession (reviews s) (page s) (consecutive_empty s)
                        (consecutive_errors s + 1) false
                        (requested s ++ [page s])).
      { unfold iteration. rewrite Hresp. cbn.
        rewrite (blocked_status_not_200 code Hb), Hb. reflexivity. }
      rewrite Hit. rewrite IH; cbn; try assumption; try lia.
      replace (Z.to_nat (5 - consecutive_errors s))
        with (S (Z.to_nat (5 - (consecutive_errors s + 1)))) by lia.
      cbn [length Nat.min repeat]. rewrite <- app_assoc. cbn.
      f_equal. lia.
    + replace (Z.to_nat (5 - consecutive_errors s)) with O by lia.
      cbn. rewrite Z.add_0_r, app_nil_r.
      destruct s; simpl in *. subst. reflexivity.
Qed.

(** X8. When Amazon answers with a hard block (503, 403 or 429) five
    times in a row from the start, the session gives up with an empty
    result, having asked for page 1 five times and for no other page:
    a blocked page is retried, not skipped. *)
Theorem amazon_hard_blocks_exhaust_budget
  (max_reviews : Z) (fetches : list Fetch) :
  0 < max_reviews ->
  Forall hard_block fetches ->
  (5 <= length fetches)%nat ->
  scrape_reviews max_reviews fetches = Some []
  /\ requested (run max_reviews start fetches) = [1; 1; 1; 1; 1].
Proof.
  intros Hmax Hall Hlen. unfold scrape_reviews.
  assert (Hlt : (Z.of_nat (length (reviews start)) <? max_reviews) = true)
    by (apply Z.ltb_lt; exact Hmax).
  rewrite (run_hard_blocks max_reviews fetches Hall start eq_refl Hlt eq_refl)
    by (cbn; lia).
  replace (Nat.min (length fetches) (Z.to_nat (5 - consecutive_errors start)))
    with 5%nat by (cbn; lia).
  unfold running, loop_condition. cbn. rewrite andb_false_r.
  split; reflexivity.
Qed.

Lemma amazon_hard_blocks_exhaust_budget_witness :
  let f := mkFetch (Got 503 (mkPage false false [])) None in
  scrape_reviews 50 (repeat f 6) = Some []
  /\ requested (run 50 start (repeat f 6)) = [1; 1; 1; 1; 1].
Proof.
  intros f. apply (amazon_hard_blocks_exhaust_budget 50 (repeat f 6)).
  - lia.
  - repeat constructor; exists 503, (mkPage false false []); split; reflexivity.
  - simpl. lia.
Defined.

End AmazonSessionFacts.

Module PagingFacts.
Import Scraper ScraperFacts.

(** One iteration either requests nothing, or requests the current page
    and then stays on it or moves to the next one. *)
Definition advances (s s' : Session) : Prop :=
  (requested s' = requested s /\ page s' = page s)
  \/ (requested s' = (requested s ++ [page s])%list
      /\ (page s' = page s \/ page s' = page s + 1)).

(** The request log walks through the pages without a gap: it starts at
    page 1, each request is for the page of the one before or for the
    next page, and the current page is the last one requested or the one
    after it. *)
Definition gapless (s : Session) : Prop :=
  (forall a, head (requested s) = Some a -> a = 1)
  /\ (forall i a b,
        requested s !! i = Some a -> requested s !! S i = Some b ->
        b = a \/ b = a + 1)
  /\ match last (requested s) with
     | Some a => page s = a \/ page s = a + 1
     | None => page s = 1
     end.

Lemma gapless_start : gapless start.
Proof.
  unfold gapless, start. simpl. repeat split; try discriminate.
Qed.

Lemma gapless_advances (s s' : Session) :
  gapless s -> advances s s' -> gapless s'.
Proof.
  intros (Hh & Hs & Hl) [[Hr Hp] | [Hr Hp]].
  - unfold gapless. rewrite Hr, Hp. auto.
  - unfold gapless. rewrite Hr. split; [|split].
    + intros a Ha. destruct (requested s) as [|x l] eqn:Hreq.
      * simpl in Ha, Hl. congruence.
      * simpl in Ha. apply Hh. exact Ha.
    + intros i a b Ha Hb.
      assert (Hi : (S i < length (requested s ++ [page s]))%nat)
        by (eapply lookup_lt_Some; exact Hb).
      rewrite length_app in Hi. simpl in Hi.
      rewrite lookup_app_l in Ha by lia.
      destruct (decide (S i < length (requested s))%nat) as [Hlt|Hge].
      * rewrite lookup_app_l in Hb by lia. eauto.
      * assert (Hlast : last (requested s) = Some a).
        { rewrite last_lookup. replace (pred (length (requested s))) with i by lia.
          exact Ha. }
        rewrite Hlast in Hl.
        rewrite lookup_app_r in Hb by lia.
        replace (S i - length (requested s))%nat with O in Hb by lia.
        simpl in Hb. injection Hb as <-. exact Hl.
    + rewrite last_snoc. exact Hp.
Qed.

Lemma amazon_iteration_advances (max_reviews : Z) (s : Session)
  (f : AmazonScraper.Fetch) :
  advances s (AmazonScraper.iteration max_reviews s f).
Proof.
  unfold advances, AmazonScraper.iteration. right.
  cbn -[AmazonScraper.add_reviews AmazonScraper.add_reviews_until].
  repeat case_match;
    cbn -[AmazonScraper.add_reviews AmazonScraper.add_reviews_until]; auto.
Qed.

Lemma flipkart_iteration_advances (max_reviews : Z) (s : Session)
  (r : FlipkartScraper.Response) :
  advances s (FlipkartScraper.iteration max_reviews s r).
Proof.
  unfold advances, FlipkartScraper.iteration.
  destruct (FlipkartScraper.max_pages <? page s); [left; cbn; auto|].
  right. cbn -[FlipkartScraper.add_reviews].
  destruct r as [|code page_reviews|page_reviews];
    cbn -[FlipkartScraper.add_reviews]; [auto| |].
  - destruct (negb (code =? 200)); cbn -[FlipkartScraper.add_reviews]; [auto|].
    destruct page_reviews; cbn -[FlipkartScraper.add_reviews]; auto.
  - destruct page_reviews; cbn -[FlipkartScraper.add_reviews]; auto.
Qed.

(** X9. On both platforms the requests walk through the pages without a
    gap: the first request is for page 1 and each later request is for
    the same page as the one before it (a retry) or for the next page. *)
Theorem sessions_skip_no_page (max_reviews : Z) :
  (forall fetches,
      gapless (AmazonScraper.run max_reviews start fetches))
  /\ (forall search responses,
      gapless (FlipkartScraper.session search max_reviews responses)).
Proof.
  split.
  - intros fetches. generalize gapless_start. generalize start.
    induction fetches as [|f fetches IH]; intros s Hg; simpl; [assumption|].
    destruct (AmazonScraper.running max_reviews s); [|assumption].
    apply IH. eapply gapless_advances; [exact Hg|].
    apply amazon_iteration_advances.
  - intros search responses.
    assert (H : forall s, gapless s ->
                  gapless (FlipkartScraper.run max_reviews s responses)).
    { induction responses as [|r responses IH]; intros s Hg; simpl;
        [assumption|].
      destruct (FlipkartScraper.running max_reviews s); [|assumption].
      apply IH. eapply gapless_advances; [exact Hg|].
      apply flipkart_iteration_advances. }
    destruct search; simpl; try (apply H, gapless_start).
    unfold gapless. simpl. repeat split; try discriminate.
Qed.

Lemma flipkart_requested_from_1 (max_reviews : Z)
  (responses : list FlipkartScraper.Response) :
  forall s,
    1 <= page s ->
    Forall (fun p => 1 <= p) (requested s) ->
    1 <= page (FlipkartScraper.run max_reviews s responses)
    /\ Forall (fun p => 1 <= p)
              (requested (FlipkartScraper.run max_reviews s responses)).
Proof.
  induction responses as [|r responses IH]; intros s Hp Hall; simpl; [auto|].
  destruct (FlipkartScraper.running max_reviews s); [|auto].
  destruct (flipkart_iteration_advances max_reviews s r)
    as [[Hr Hq] | [Hr Hq]]; apply IH; rewrite ?Hr; try lia; try assumption.
  apply Forall_app. split; [assumption|]. repeat constructor. exact Hp.
Qed.

(** X10. A Flipkart session never asks for a page beyond the ceiling:
    every page index it requests lies between 1 and 25. *)
Theorem flipkart_requests_within_ceiling
  (search : FlipkartScraper.Search) (max_reviews : Z)
  (responses : list FlipkartScraper.Response) :
  Forall (fun p => 1 <= p <= 25)
         (requested (FlipkartScraper.session search max_reviews responses)).
Proof.
  pose proof (FlipkartFacts.session_requested search max_reviews responses) as Hle.
  assert (Hge : Forall (fun p => 1 <= p)
            (requested (FlipkartScraper.session search max_reviews responses))).
  { destruct search; simpl; try constructor;
      apply flipkart_requested_from_1; simpl; try lia; constructor. }
  rewrite Forall_forall in *. intros p Hp. split; auto.
Qed.

(** X11. A Flipkart session comes to an end unless [progress_callback]
    keeps raising: whatever the network answers, the session has returned
    once the answers outnumber 130 by more than four for each iteration
    in which the callback raises; with a callback that does not raise,
    by the time 131 answers have been given. *)
Theorem flipkart_session_ends
  (search : FlipkartScraper.Search) (max_reviews : Z)
  (responses : list FlipkartScraper.Response) :
  (130 + 4 * FlipkartFacts.raised_callbacks responses < length responses)%nat ->
  exists rs, FlipkartScraper.scrape_reviews search max_reviews responses = Some rs.
Proof.
  intros Hlen. unfold FlipkartScraper.scrape_reviews. cbv zeta.
  destruct (FlipkartScraper.running max_reviews
              (FlipkartScraper.session search max_reviews responses)) eqn:Hrun;
    [|eauto].
  exfalso. destruct search; cbn [FlipkartScraper.session] in Hrun;
    try discriminate Hrun.
  all: rewrite FlipkartFacts.run_terminates in Hrun;
    [discriminate Hrun | intros _; unfold FlipkartFacts.budget; cbn; lia
    | cbn; lia].
Qed.

Lemma flipkart_session_ends_witness :
  exists rs,
    FlipkartScraper.scrape_reviews FlipkartScraper.NotSearchUrl 100
      (FlipkartFacts.raising_page :: repeat FlipkartScraper.Raised 134)
    = Some rs.
Proof.
  apply (flipkart_session_ends FlipkartScraper.NotSearchUrl 100
           (FlipkartFacts.raising_page :: repeat FlipkartScraper.Raised 134)).
  vm_compute. lia.
Defined.

End PagingFacts.

(** ** Fake review detection: the table and the report *)

Module FakeReportFacts.
Import Py Models FakeDetection FakeDetectionFacts.

(** The row update of the stage, on any table. *)
Definition rescore (pid : Z) (r : Review) : Review :=
  if decide (product_id r = pid) then score_review r else r.

Lemma rescore_product_id (pid : Z) (r : Review) :
  product_id (rescore pid r) = product_id r.
Proof. unfold rescore. destruct (decide _); reflexivity. Qed.

Lemma rescore_idempotent (pid : Z) (r : Review) :
  rescore pid (rescore pid r) = rescore pid r.
Proof.
  unfold rescore. destruct (decide (product_id r = pid)) as [H|H].
  - simpl. destruct (decide (product_id r = pid)); [reflexivity|contradiction].
  - destruct (decide (product_id r = pid)); [contradiction|reflexivity].
Qed.

Lemma filter_map_rescore (pid : Z) (db : list Review) :
  filter (fun r => product_id r = pid) (map (rescore pid) db)
  = map score_review (filter (fun r => product_id r = pid) db).
Proof.
  induction db as [|r db IH]; [reflexivity|].
  cbn [map]. rewrite !filter_cons, rescore_product_id.
  destruct (decide (product_id r = pid)) as [H|H]; [|exact IH].
  cbn [map]. rewrite IH. f_equal. unfold rescore.
  destruct (decide (product_id r = pid)); [reflexivity|contradiction].
Qed.

Lemma detect_fake_reviews_table (db : list Review) (pid : Z) :
  fst (detect_fake_reviews db pid) = map (rescore pid) db.
Proof.
  unfold detect_fake_reviews.
  destruct (filter (fun r => product_id r = pid) db) as [|r0 rs] eqn:Hf;
    [|reflexivity].
  simpl. symmetry. rewrite <- (map_id db) at 2. apply map_ext_in.
  intros r Hr. unfold rescore.
  destruct (decide (product_id r = pid)) as [H|H]; [|reflexivity].
  exfalso. apply list_elem_of_In in Hr.
  eapply (filter_nil_not_elem_of (fun r => product_id r = pid)); eauto.
Qed.

(** X12. The fake-detection stage is idempotent: run a second time on the
    table it has just written, it writes the same table and returns the
    same report. *)
Theorem detect_fake_reviews_idempotent (db : list Review) (pid : Z) :
  detect_fake_reviews (fst (detect_fake_reviews db pid)) pid
  = detect_fake_reviews db pid.
Proof.
  rewrite detect_fake_reviews_table.
  unfold detect_fake_reviews at 1 2.
  rewrite filter_map_rescore.
  destruct (filter (fun r => product_id r = pid) db) as [|r0 rs] eqn:Hf.
  - simpl. f_equal. rewrite <- (map_id db) at 2. apply map_ext_in.
    intros r Hr. unfold rescore.
    destruct (decide (product_id r = pid)) as [H|H]; [|reflexivity].
    exfalso. apply list_elem_of_In in Hr.
    eapply (filter_nil_not_elem_of (fun r => product_id r = pid)); eauto.
  - cbn [map]. f_equal.
    + rewrite map_map. apply map_ext. intros r.
      change (rescore pid (rescore pid r) = rescore pid r).
      apply rescore_idempotent.
    + assert (Hmm : map score_review (map score_review rs) = map score_review rs)
        by (rewrite map_map; apply map_ext; reflexivity).
      rewrite Hmm. change (score_review (score_review r0)) with (score_review r0).
      cbn [length]. rewrite length_map. reflexivity.
Qed.

(** The columns the stage does not write. *)
Definition untouched_columns (r : Review) :=
  (review_id r, product_id r, review_text r, rating r, verified_purchase r,
   sentiment_label r, sentiment_score r, analyzed_at r).

(** X13. The stage writes nothing but the two suspicion columns of the
    product's rows: the table keeps its rows in place with every other
    column unchanged, and the rows of other products are left exactly as
    they were. *)
Theorem detect_fake_reviews_writes_only_flags (db : list Review) (pid : Z) :
  map untouched_columns (fst (detect_fake_reviews db pid))
  = map untouched_columns db
  /\ filter (fun r => product_id r <> pid) (fst (detect_fake_reviews db pid))
     = filter (fun r => product_id r <> pid) db.
Proof.
  rewrite detect_fake_reviews_table. split.
  - rewrite map_map. apply map_ext. intros r. unfold rescore.
    destruct (decide _); reflexivity.
  - induction db as [|r db IH]; [reflexivity|].
    cbn [map]. rewrite !filter_cons, rescore_product_id.
    destruct (decide (product_id r <> pid)) as [H|H]; [|exact IH].
    rewrite IH. f_equal. unfold rescore.
    destruct (decide (product_id r = pid)); [contradiction|reflexivity].
Qed.

(** The sort of the report: a permutation, in descending order of score. *)
Lemma insert_desc_perm (x : Z * Z) (l : list (Z * Z)) :
  Permutation (insert_desc x l) (x :: l).
Proof.
  induction l as [|y l IH]; simpl; [reflexivity|].
  destruct (snd y <=? snd x); [reflexivity|].
  rewrite IH. apply perm_swap.
Qed.

Lemma sort_desc_perm (l : list (Z * Z)) : Permutation (sort_desc l) l.
Proof.
  induction l as [|x l IH]; simpl; [reflexivity|].
  rewrite insert_desc_perm. constructor. exact IH.
Qed.

Definition descending (l : list (Z * Z)) : Prop :=
  forall i a b, l !! i = Some a -> l !! S i = Some b -> snd b <= snd a.

Lemma descending_cons (x : Z * Z) (l : list (Z * Z)) :
  descending l ->
  (forall y, head l = Some y -> snd y <= snd x) ->
  descending (x :: l).
Proof.
  intros Hl Hh [|i] a b Ha Hb; simpl in *.
  - injection Ha as <-. apply Hh. destruct l; [discriminate|]. exact Hb.
  - eapply Hl; eassumption.
Qed.

Lemma descending_tail (x : Z * Z) (l : list (Z * Z)) :
  descending (x :: l) -> descending l.
Proof. intros H i a b Ha Hb. apply (H (S i) a b); assumption. Qed.

Lemma insert_desc_descending (x : Z * Z) (l : list (Z * Z)) :
  descending l -> descending (insert_desc x l).
Proof.
  induction l as [|y l IH]; intros Hl; simpl.
  - intros [|i] a b Ha Hb; discriminate.
  - destruct (Z.leb_spec (snd y) (snd x)) as [Hle|Hgt].
    + apply descending_cons; [exact Hl|]. intros z [= <-]. exact Hle.
    + apply descending_cons; [apply IH; eapply descending_tail; exact Hl|].
      intros z Hz. destruct l as [|w l]; simpl in Hz.
      * injection Hz as <-. lia.
      * destruct (snd w <=? snd x); injection Hz as <-; [lia|].
        apply (Hl O y w); reflexivity.
Qed.

Lemma sort_desc_descending (l : list (Z * Z)) : descending (sort_desc l).
Proof.
  induction l as [|x l IH]; simpl.
  - intros i a b Ha; destruct i; discriminate.
  - apply insert_desc_descending, IH.
Qed.

Lemma descending_firstn (n : nat) (l : list (Z * Z)) :
  descending l -> descending (firstn n l).
Proof.
  intros H i a b Ha Hb.
  apply (H i a b).
  - rewrite <- Ha. symmetry. apply lookup_take_lt.
    apply lookup_lt_Some in Hb. rewrite length_take in Hb. lia.
  - rewrite <- Hb. symmetry. apply lookup_take_lt.
    apply lookup_lt_Some in Hb. rewrite length_take in Hb. lia.
Qed.

(** X14. The report agrees with the table the stage leaves behind: the
    totals count the product's rows and its flagged rows, and the listed
    reviews are at most ten, in descending order of score, each one a
    flagged row of the product with a score between 50 and 100. *)
Theorem detect_fake_reviews_report (db : list Review) (pid : Z) :
  let db' := fst (detect_fake_reviews db pid) in
  let report := snd (detect_fake_reviews db pid) in
  let rows := filter (fun r => product_id r = pid) db' in
  let flagged := filter (fun r => is_suspicious r = true) rows in
  total_reviews report = Z.of_nat (length rows)
  /\ suspicious_count report = Z.of_nat (length flagged)
  /\ suspicious_count report <= total_reviews report
  /\ (length (suspicious_reviews report) <= 10)%nat
  /\ descending (suspicious_reviews report)
  /\ forall x, x ∈ suspicious_reviews report ->
       50 <= snd x <= 100
       /\ exists r, r ∈ flagged /\ x = (review_id r, suspicious_score r).
Proof.
  cbv zeta. rewrite detect_fake_reviews_table, filter_map_rescore.
  unfold detect_fake_reviews.
  destruct (filter (fun r => product_id r = pid) db) as [|r0 rs] eqn:Hf.
  - simpl. repeat split; try lia.
    + intros i a b Ha; destruct i; discriminate.
    + inversion H.
    + inversion H.
    + inversion H.
  - set (rows := map score_review (r0 :: rs)).
    set (flagged := filter (fun r => is_suspicious r = true) rows).
    cbn [snd total_reviews suspicious_count suspicious_reviews].
    rewrite !length_map.
    assert (Hlen : length rows = length (r0 :: rs)) by apply length_map.
    split; [rewrite Hlen; reflexivity|].
    split; [reflexivity|].
    split; [pose proof (length_filter (fun r => is_suspicious r = true) rows);
            fold flagged in H; lia|].
    split; [rewrite length_take; lia|].
    split; [apply descending_firstn, sort_desc_descending|].
    intros x Hx.
    assert (Hin : x ∈ map (fun r => (review_id r, suspicious_score r)) flagged).
    { apply subseteq_take in Hx. apply list_elem_of_In.
      apply list_elem_of_In in Hx.
      eapply Permutation_in; [apply sort_desc_perm|]. exact Hx. }
    apply list_elem_of_In, in_map_iff in Hin.
    destruct Hin as (r & <- & Hr). apply list_elem_of_In in Hr.
    split; [|exists r; split; [exact Hr | reflexivity]].
    apply list_elem_of_filter in Hr as [Hflag Hr].
    apply list_elem_of_In, in_map_iff in Hr. destruct Hr as (r1 & <- & _).
    simpl in *. apply Z.leb_le in Hflag.
    pose proof (calculate_suspicious_score_range r1). lia.
Qed.

(** A review with the verified flag set to [b]. *)
Definition with_verified (b : bool) (r : Review) : Review :=
  mkReview (review_id r) (product_id r) (review_text r) (rating r) b
    (sentiment_label r) (sentiment_score r) (is_suspicious r)
    (suspicious_score r) (analyzed_at r).

(** X15. Being a verified purchase never raises the suspicion score and
    lowers it by 25 points at most. *)
Theorem verified_purchase_lowers_score (r : Review) :
  calculate_suspicious_score (with_verified true r)
  <= calculate_suspicious_score (with_verified false r)
  <= calculate_suspicious_score (with_verified true r) + 25.
Proof.
  unfold calculate_suspicious_score, with_verified. cbn [review_text rating
    verified_purchase negb].
  repeat match goal with
         | |- context [if ?b then _ else _] => destruct b
         end; lia.
Qed.

(** X16. A verified review of at least five words with a rating of 2, 3 or
    4 scores 45 at most and is never flagged as suspicious. *)
Theorem moderate_verified_review_not_flagged (r : Review) :
  verified_purchase r = true ->
  rating r <> 1 -> rating r <> 5 ->
  (5 <= length (split (lower (review_text r))))%nat ->
  calculate_suspicious_score r <= 45
  /\ is_suspicious (score_review r) = false.
Proof.
  intros Hv H1 H5 Hw.
  assert (Hs : calculate_suspicious_score r <= 45).
  { unfold calculate_suspicious_score. rewrite Hv. unfold extreme_rating.
    destruct (Z.eqb_spec (rating r) 1) as [|_]; [contradiction|].
    destruct (Z.eqb_spec (rating r) 5) as [|_]; [contradiction|].
    rewrite !andb_false_r. cbn [orb negb andb].
    destruct (Z.ltb_spec (Z.of_nat (length (split (lower (review_text r))))) 5);
      [lia|].
    repeat match goal with
           | |- context [if ?b then _ else _] => destruct b
           end; lia. }
  split; [exact Hs|]. unfold score_review. simpl. apply Z.leb_gt. lia.
Qed.

Lemma moderate_verified_review_not_flagged_witness :
  let r := mkReview 4 1 "EXCELLENT!!!! http://x.y amazing value for money" 4
             true None None false 0 None in
  calculate_suspicious_score r <= 45
  /\ is_suspicious (score_review r) = false.
Proof.
  intros r. apply (moderate_verified_review_not_flagged r).
  - reflexivity.
  - discriminate.
  - discriminate.
  - vm_compute. lia.
Defined.

End FakeReportFacts.

(** ** Sentiment stage: labels, batches and the overall score *)

Module SentimentMoreFacts.
Import Py Models Sentiment.

Definition LABELS : list string := ["positive"; "negative"; "neutral"].

Lemma map_label_label (result : Prediction) : fst (map_label result) ∈ LABELS.
Proof.
  unfold map_label, LABELS.
  destruct (_ || _); [left|].
  destruct (_ || _); [right; left | right; right; left].
Qed.

Lemma analyze_batch_labels
  (pipeline : list string -> option (list Prediction))
  (acc : Logged (list (string * Q))) (batch : list string) :
  Forall (fun x => fst x ∈ LABELS) (fst acc) ->
  Forall (fun x => fst x ∈ LABELS) (fst (analyze_batch pipeline acc batch)).
Proof.
  intros H. unfold analyze_batch. destruct (pipeline _) as [rs|]; cbn [fst].
  - apply Forall_app. split; [exact H|].
    apply Forall_forall. intros x Hx. apply list_elem_of_In, in_map_iff in Hx.
    destruct Hx as (r & <- & _). apply map_label_label.
  - apply Forall_app. split; [exact H|].
    apply Forall_forall. intros x Hx%list_elem_of_In%repeat_spec. subst x.
    right; right; left.
Qed.

(** Whatever the pipeline answers, and also when it raises, the
    label of a classification is one of "positive", "negative" and
    "neutral", on the single-text path and on the batched path. *)
Theorem sentiment_labels_closed
  (pipeline : list string -> option (list Prediction)) :
  (forall text, fst (fst (analyze_text pipeline text)) ∈ LABELS)
  /\ (forall texts batch_size,
        Forall (fun x => fst x ∈ LABELS)
               (fst (analyze_texts_batch pipeline texts batch_size))).
Proof.
  split.
  - intros text. unfold analyze_text.
    destruct (_ || _); [right; right; left|].
    destruct (pipeline _) as [[|r rs]|]; cbn [fst];
      try (right; right; left). apply map_label_label.
  - intros texts batch_size. unfold analyze_texts_batch.
    generalize (slices (length texts) batch_size texts).
    assert (H : Forall (fun x : string * Q => fst x ∈ LABELS)
                  (fst (([], []) : Logged (list (string * Q)))))
      by constructor.
    revert H. generalize (([], []) : Logged (list (string * Q))).
    intros acc H l. revert acc H.
    induction l as [|b l IH]; intros acc H; cbn [fold_left]; [exact H|].
    apply IH, analyze_batch_labels, H.
Qed.

(** The slices cover the list, in order, and none is longer than the
    batch size or empty. *)
Lemma slices_concat (batch_size : positive) (fuel : nat) :
  forall texts : list string,
    (length texts <= fuel)%nat ->
    concat (slices fuel batch_size texts) = texts
    /\ Forall (fun b => (1 <= length b <= Pos.to_nat batch_size)%nat)
              (slices fuel batch_size texts).
Proof.
  induction fuel as [|fuel IH]; intros texts Hlen.
  - destruct texts; [simpl; split; [reflexivity|constructor] | simpl in Hlen; lia].
  - destruct texts as [|t texts]; [simpl; split; [reflexivity|constructor]|].
    cbn [slices].
    set (n := Pos.to_nat batch_size).
    assert (Hn : (1 <= n)%nat) by (unfold n; lia).
    destruct (IH (skipn n (t :: texts))) as [Hc Hf].
    { rewrite length_skipn. simpl in *. lia. }
    split.
    + cbn [concat]. rewrite Hc. apply firstn_skipn.
    + constructor; [|exact Hf].
      rewrite length_take. simpl length. lia.
Qed.

Lemma take_length (n : nat) (s : string) : (String.length (take n s) <= n)%nat.
Proof.
  revert s. induction n as [|n IH]; intros s; simpl; [lia|].
  destruct s as [|c s]; simpl; [lia|]. specialize (IH s). lia.
Qed.

(** [t[:512] if t else ""] *)
Definition truncate (t : string) : string :=
  if is_empty t then "" else take 512 t.

Lemma fold_analyze_batch_calls
  (pipeline : list string -> option (list Prediction))
  (batches : list (list string)) :
  forall acc,
    snd (fold_left (analyze_batch pipeline) batches acc)
    = (snd acc ++ map (map truncate) batches)%list.
Proof.
  induction batches as [|b batches IH]; intros acc; cbn [fold_left map].
  - rewrite app_nil_r. reflexivity.
  - rewrite IH. unfold analyze_batch, truncate.
    destruct (pipeline _); cbn [snd]; rewrite <- app_assoc; reflexivity.
Qed.

(** X17. The batched path passes every text to the pipeline exactly once
    and in order, cut to 512 characters at most, in batches that are
    never empty and never larger than the batch size. *)
Theorem analyze_texts_batch_inputs
  (pipeline : list string -> option (list Prediction))
  (texts : list string) (batch_size : positive) :
  let calls := snd (analyze_texts_batch pipeline texts batch_size) in
  concat calls = map truncate texts
  /\ Forall (fun b => (1 <= length b <= Pos.to_nat batch_size)%nat) calls
  /\ Forall (Forall (fun t => (String.length t <= 512)%nat)) calls.
Proof.
  cbv zeta. unfold analyze_texts_batch. rewrite fold_analyze_batch_calls.
  cbn [snd app].
  destruct (slices_concat batch_size (length texts) texts (le_n _)) as [Hc Hf].
  split; [|split].
  - rewrite <- concat_map, Hc. reflexivity.
  - apply Forall_forall. intros b Hb. apply list_elem_of_In, in_map_iff in Hb.
    destruct Hb as (b0 & <- & Hb0). rewrite length_map.
    rewrite Forall_forall in Hf. apply Hf, list_elem_of_In, Hb0.
  - apply Forall_forall. intros b Hb. apply list_elem_of_In, in_map_iff in Hb.
    destruct Hb as (b0 & <- & _).
    apply Forall_forall. intros t Ht. apply list_elem_of_In, in_map_iff in Ht.
    destruct Ht as (t0 & <- & _). unfold truncate.
    destruct (is_empty t0); [simpl; lia | apply take_length].
Qed.

(** A pipeline that answers a batch with one prediction per text, or
    raises. *)
Definition one_per_text (pipeline : list string -> option (list Prediction))
  : Prop :=
  forall batch rs, pipeline batch = Some rs -> length rs = length batch.

Lemma fold_analyze_batch_length
  (pipeline : list string -> option (list Prediction))
  (batches : list (list string)) :
  one_per_text pipeline ->
  forall acc,
    length (fst (fold_left (analyze_batch pipeline) batches acc))
    = (length (fst acc) + length (concat batches))%nat.
Proof.
  intros Hp. induction batches as [|b batches IH]; intros acc;
    cbn [fold_left concat]; [cbn; lia|].
  rewrite IH. unfold analyze_batch.
  destruct (pipeline _) as [rs|] eqn:Hrs; cbn [fst].
  - rewrite !length_app, length_map, (Hp _ _ Hrs), length_map. lia.
  - rewrite !length_app, repeat_length, length_map. lia.
Qed.

(** X18. With a pipeline that answers every batch with one prediction per
    text or raises, the batched path returns exactly one (label, score)
    pair per text. *)
Theorem analyze_texts_batch_one_per_text
  (pipeline : list string -> option (list Prediction))
  (texts : list string) (batch_size : positive) :
  one_per_text pipeline ->
  length (fst (analyze_texts_batch pipeline texts batch_size)) = length texts.
Proof.
  intros Hp. unfold analyze_texts_batch.
  rewrite (fold_analyze_batch_length pipeline _ Hp). cbn [fst length].
  destruct (slices_concat batch_size (length texts) texts (le_n _)) as [Hc _].
  rewrite Hc. reflexivity.
Qed.

(** A pipeline that raises on each batch that holds an empty text. *)
Definition fragile (batch : list string) : option (list Prediction) :=
  if existsb is_empty batch then None
  else Some (map (fun _ => ("NEGATIVE", 7 # 10)) batch).

Lemma analyze_texts_batch_one_per_text_witness :
  length (fst (analyze_texts_batch fragile ["slow"; ""; "fine phone"] 2))
  = length ["slow"; ""; "fine phone"].
Proof.
  apply (analyze_texts_batch_one_per_text fragile ["slow"; ""; "fine phone"] 2).
  intros batch rs. unfold fragile. destruct (existsb is_empty batch);
    [discriminate|].
  intros [= <-]. apply length_map.
Defined.

End SentimentMoreFacts.

(** ** Scores stay within their scale *)

Module ScoreFacts.
Import Py Models.

(** Rounding to the nearest integer stays between integer bounds. *)
Lemma round_half_even_bounds (x : Q) (a b : Z) :
  (inject_Z a <= x)%Q -> (x <= inject_Z b)%Q ->
  a <= round_half_even x <= b.
Proof.
  intros Ha Hb. unfold round_half_even.
  rewrite <- (Qred_correct x) in Ha, Hb.
  destruct (Qred x) as [n d]. unfold Qle in Ha, Hb. simpl in *.
  pose proof (Z.div_mod n (Z.pos d) ltac:(lia)) as Hdm.
  pose proof (Z.mod_pos_bound n (Z.pos d) ltac:(lia)) as Hmod.
  assert (Hlo : a <= n / Z.pos d) by (apply Z.div_le_lower_bound; lia).
  assert (Hhi : n / Z.pos d <= b) by (apply Z.div_le_upper_bound; lia).
  assert (Hup : 0 < n mod Z.pos d -> n / Z.pos d + 1 <= b).
  { intros Hpos. destruct (Z.eq_dec (n / Z.pos d) b) as [E|E]; [|lia].
    rewrite E in Hdm. lia. }
  destruct (Z.ltb_spec (2 * (n mod Z.pos d)) (Z.pos d)); [lia|].
  destruct (Z.ltb_spec (Z.pos d) (2 * (n mod Z.pos d))); [lia|].
  destruct (Z.even (n / Z.pos d)); lia.
Qed.

Lemma round2_bounds (x : Q) :
  (0 <= x <= 100)%Q -> (0 <= round2 x <= 100)%Q.
Proof.
  intros [H0 H100]. unfold round2.
  destruct (round_half_even_bounds (x * 100) 0 10000) as [Hlo Hhi].
  - change (inject_Z 0) with 0%Q. lra.
  - change (inject_Z 10000) with 10000%Q. lra.
  - set (k := round_half_even (x * 100)) in *.
    unfold Qle, Qdiv, Qmult, Qinv, inject_Z. simpl. lia.
Qed.

Lemma round1_bounds (x : Q) :
  (0 <= x <= 100)%Q -> (0 <= round1 x <= 100)%Q.
Proof.
  intros [H0 H100]. unfold round1.
  destruct (round_half_even_bounds (x * 10) 0 1000) as [Hlo Hhi].
  - change (inject_Z 0) with 0%Q. lra.
  - change (inject_Z 1000) with 1000%Q. lra.
  - set (k := round_half_even (x * 10)) in *.
    unfold Qle, Qdiv, Qmult, Qinv, inject_Z. simpl. lia.
Qed.

(** A ratio of integers lies between integer bounds that hold after
    cross-multiplication. *)
Lemma ratio_bounds (a t lo hi : Z) :
  0 < t -> lo * t <= a <= hi * t ->
  (inject_Z lo <= inject_Z a / inject_Z t <= inject_Z hi)%Q.
Proof.
  intros Ht [Hlo Hhi]. destruct t as [|p|p]; try lia.
  unfold Qle, Qdiv, Qmult, Qinv, inject_Z. simpl. lia.
Qed.

Lemma clamp_0_100_bounds (x : Q) : (0 <= Sentiment.clamp_0_100 x <= 100)%Q.
Proof.
  unfold Sentiment.clamp_0_100, max_Q, min_Q, Qltb.
  destruct (Qle_bool 100 x) eqn:H1; simpl.
  - destruct (Qle_bool 100 0) eqn:H2; simpl; lra.
  - assert (Hx : ~ (100 <= x)%Q)
      by (intros H; apply Qle_bool_iff in H; congruence).
    destruct (Qle_bool x 0) eqn:H2; simpl; [lra|].
    assert (Hx0 : ~ (x <= 0)%Q)
      by (intros H; apply Qle_bool_iff in H; congruence).
    lra.
Qed.

Lemma fold_tally_counts (pairs : list (Review * (string * Q))) :
  forall t : Sentiment.Tally,
    let t' := fold_left Sentiment.tally_step pairs t in
    Sentiment.positive_count t' + Sentiment.negative_count t'
      + Sentiment.neutral_count t'
    = Sentiment.positive_count t + Sentiment.negative_count t
      + Sentiment.neutral_count t + Z.of_nat (length pairs)
    /\ (Sentiment.mismatch_count t
        <= Sentiment.positive_count t + Sentiment.negative_count t ->
        Sentiment.mismatch_count t'
        <= Sentiment.positive_count t' + Sentiment.negative_count t')
    /\ (0 <= Sentiment.mismatch_count t -> 0 <= Sentiment.mismatch_count t').
Proof.
  induction pairs as [|[review [label score]] pairs IH]; intros t.
  - cbn. repeat split; auto; lia.
  - cbn [fold_left length]. cbv zeta.
    destruct (IH (Sentiment.tally_step t (review, (label, score))))
      as (H1 & H2 & H3).
    cbv zeta in H1, H2, H3. rewrite H1.
    unfold Sentiment.tally_step in *.
    destruct (String.eqb label "positive") eqn:Hp;
      [|destruct (String.eqb label "negative") eqn:Hn];
      cbn [andb orb] in *;
      repeat match goal with
             | H : context [if ?b then _ else _] |- _ => destruct b
             | |- context [if ?b then _ else _] => destruct b
             end; cbn in *; repeat split; intros; try apply H2; try apply H3;
      lia.
Qed.

Lemma zip_length {A B : Type} (l : list A) (m : list B) :
  (length (Sentiment.zip l m) <= length l)%nat.
Proof.
  revert m. induction l as [|a l IH]; intros [|b m]; cbn; try lia.
  specialize (IH m). lia.
Qed.

(** X19. The sentiment stage reports an overall score between 0 and 100;
    its three label counts add up to the number of reviews that received
    a sentiment, which is never more than the number of reviews; and the
    mismatches are counted among the positive and negative reviews. *)
Theorem analyze_product_sentiment_result
  (pipeline : list string -> option (list Sentiment.Prediction))
  (db : list Review) (pid now : Z) :
  let result := snd (fst (Sentiment.analyze_product_sentiment pipeline db pid now)) in
  let t := Sentiment.distribution result in
  (0 <= Sentiment.overall_score result <= 100)%Q
  /\ Sentiment.positive_count t + Sentiment.negative_count t
       + Sentiment.neutral_count t <= Sentiment.total_reviews result
  /\ 0 <= Sentiment.mismatch_count t
       <= Sentiment.positive_count t + Sentiment.negative_count t
  /\ Sentiment.total_reviews result
     = Z.of_nat (length (filter (fun r => product_id r = pid) db)).
Proof.
  cbv zeta. unfold Sentiment.analyze_product_sentiment.
  destruct (filter (fun r => product_id r = pid) db) as [|r0 rs] eqn:Hf.
  - cbn. repeat split; try lia; lra.
  - destruct (Sentiment.analyze_texts_batch pipeline _ 32)
      as [sentiments calls].
    cbn [fst snd Sentiment.overall_score Sentiment.distribution
         Sentiment.total_reviews].
    destruct (fold_tally_counts (Sentiment.zip (r0 :: rs) sentiments)
                (Sentiment.mkTally 0 0 0 0 0)) as (H1 & H2 & H3).
    cbv zeta in H1, H2, H3.
    cbn [Sentiment.positive_count Sentiment.negative_count
         Sentiment.neutral_count Sentiment.mismatch_count] in H1, H2, H3.
    pose proof (zip_length (r0 :: rs) sentiments) as Hzip.
    split; [apply round2_bounds, clamp_0_100_bounds|].
    split; [rewrite H1; lia|].
    split; [split; [apply H3; lia | apply H2; lia]|].
    reflexivity.
Qed.

Lemma sentiment_dist_le_total (reviews : list Review) (label : string) :
  0 <= Insights.sentiment_dist reviews label <= Insights.total_analyzed reviews.
Proof.
  unfold Insights.sentiment_dist, Insights.total_analyzed.
  split; [lia|]. apply inj_le.
  induction reviews as [|r reviews IH]; [reflexivity|].
  rewrite !filter_cons.
  destruct (decide (Insights.labelled r = true /\ _)) as [[H _]|_];
    destruct (decide (Insights.labelled r = true)) as [|H'];
    simpl; try lia. contradiction.
Qed.

Lemma sentiment_score_of_bounds (reviews : list Review) :
  (0 <= Insights.sentiment_score_of reviews <= 100)%Q.
Proof.
  unfold Insights.sentiment_score_of.
  destruct (Z.ltb_spec 0 (Insights.total_analyzed reviews)) as [Ht|_]; [|lra].
  pose proof (sentiment_dist_le_total reviews "positive") as Hp.
  pose proof (sentiment_dist_le_total reviews "negative") as Hn.
  pose proof (ratio_bounds (Insights.sentiment_dist reviews "positive")
                (Insights.total_analyzed reviews) 0 1 Ht ltac:(lia)) as Bp.
  pose proof (ratio_bounds (Insights.sentiment_dist reviews "negative")
                (Insights.total_analyzed reviews) 0 1 Ht ltac:(lia)) as Bn.
  change (inject_Z 0) with 0%Q in *. change (inject_Z 1) with 1%Q in *.
  set (P := (inject_Z (Insights.sentiment_dist reviews "positive")
             / inject_Z (Insights.total_analyzed reviews))%Q) in *.
  set (N := (inject_Z (Insights.sentiment_dist reviews "negative")
             / inject_Z (Insights.total_analyzed reviews))%Q) in *.
  clearbody P N.
  assert (E : ((P - N + 1) / 2 * 100 == (P - N + 1) * 50)%Q) by field.
  rewrite E. lra.
Qed.

Lemma sum_ratings_bounds (reviews : list Review) :
  Forall (fun r => 1 <= rating r <= 5) reviews ->
  1 * Z.of_nat (length reviews)
  <= fold_right Z.add 0 (map rating reviews)
  <= 5 * Z.of_nat (length reviews).
Proof.
  induction 1 as [|r reviews Hr _ IH]; [simpl; lia|].
  cbn [map fold_right length]. lia.
Qed.

(** X20. When every rating lies between 1 and 5, the overall score of the
    insights stage lies between 0 and 100 (and is at least 8, the least
    the rating component can contribute), before and after it is rounded
    for the result. *)
Theorem insights_overall_score_bounds (reviews : list Review) :
  Forall (fun r => 1 <= rating r <= 5) reviews ->
  (8 <= Insights.overall_score reviews <= 100)%Q
  /\ (0 <= round2 (Insights.overall_score reviews) <= 100)%Q.
Proof.
  intros Hr.
  assert (H : (8 <= Insights.overall_score reviews <= 100)%Q).
  { unfold Insights.overall_score. destruct reviews as [|r0 rs]; [lra|].
    pose proof (sentiment_score_of_bounds (r0 :: rs)) as Hs.
    pose proof (sum_ratings_bounds (r0 :: rs) Hr) as Hsum.
    assert (Hlen : 0 < Z.of_nat (length (r0 :: rs))) by (simpl; lia).
    pose proof (ratio_bounds _ _ 1 5 Hlen Hsum) as Ha.
    fold (Insights.avg_rating (r0 :: rs)) in Ha.
    unfold Insights.rating_score.
    change (inject_Z 1) with 1%Q in Ha. change (inject_Z 5) with 5%Q in Ha.
    set (a := Insights.avg_rating (r0 :: rs)) in *.
    set (x := Insights.sentiment_score_of (r0 :: rs)) in *.
    clearbody a x.
    assert (E : (a / 5 * 100 == a * 20)%Q) by field.
    rewrite E. lra. }
  split; [exact H|]. apply round2_bounds. lra.
Qed.

Lemma insights_overall_score_bounds_witness :
  let reviews :=
    [mkReview 1 1 "Poor" 1 true (Some "negative") (Some (9 # 10)) false 0 None;
     mkReview 2 1 "Fine" 3 true None None false 0 None] in
  (8 <= Insights.overall_score reviews <= 100)%Q
  /\ (0 <= round2 (Insights.overall_score reviews) <= 100)%Q.
Proof.
  intros reviews. apply (insights_overall_score_bounds reviews).
  repeat constructor; simpl; lia.
Defined.

End ScoreFacts.

(** ** The analysis cache: expiry, forced refresh and re-analysis *)

Module CacheFacts.
Import Analysis AnalysisFacts.

Section WithStages.

Variable World : Type.
Variable stage : string -> Z -> World -> World * option (list (string * json)).
Variable run_complete_analysis : Z -> World -> World.

Lemma run_and_cache_stage_runs (type : string) (pid saved_at : Z) (db : DB World) :
  stage_runs (snd (run_and_cache stage type pid saved_at db))
  = (stage_runs db ++ [(type, pid)])%list.
Proof.
  unfold run_and_cache.
  destruct (stage_results stage type pid (world db)) as [w' [res|]]; reflexivity.
Qed.

Lemma snoc_neq {A : Type} (l : list A) (x : A) : (l ++ [x])%list <> l.
Proof.
  intros H. apply (f_equal (@length A)) in H.
  rewrite length_app in H. simpl in H. lia.
Qed.

(** X21. On a database the endpoints can reach, a [GET] for a known
    product with [force_refresh = false] leaves the stage alone exactly
    when the newest row of the key is less than 24 hours old: with no row,
    or with a newest row of 24 hours or more, the stage runs once. *)
Theorem get_analysis_runs_stage_unless_fresh
  (db : DB World) (type : string) (pid now saved_at : Z) :
  reachable stage run_complete_analysis db ->
  pid ∈ products db ->
  let db1 := snd (get_analysis stage type pid false now saved_at db) in
  (stage_runs db1 = stage_runs db
   \/ stage_runs db1 = (stage_runs db ++ [(type, pid)])%list)
  /\ (stage_runs db1 = stage_runs db <->
      exists e,
        newest (rows_for pid type (analysis_cache db)) = Some e
        /\ now - created_at e < day).
Proof.
  intros Hreach Hpid. cbv zeta.
  pose proof (reachable_cache_truthy World stage run_complete_analysis db Hreach)
    as Hinv.
  destruct (newest (rows_for pid type (analysis_cache db))) as [e|] eqn:Hnew.
  - destruct (Z.ltb_spec (now - created_at e) day) as [Hfresh|Hstale].
    + rewrite (get_analysis_hit World stage db type pid now saved_at e
                 Hinv Hpid Hnew Hfresh).
      split; [left; reflexivity|]. split; [eauto | reflexivity].
    + unfold get_analysis, get_cached_analysis.
      rewrite bool_decide_eq_true_2 by assumption. rewrite Hnew.
      destruct (Z.ltb_spec (now - created_at e) day); [lia|].
      rewrite run_and_cache_stage_runs.
      split; [right; reflexivity|]. split.
      * intros Heq. exfalso. exact (snoc_neq _ _ Heq).
      * intros (e' & [= <-] & Hlt). lia.
  - unfold get_analysis, get_cached_analysis.
    rewrite bool_decide_eq_true_2 by assumption. rewrite Hnew.
    rewrite run_and_cache_stage_runs.
    split; [right; reflexivity|]. split.
    + intros Heq. exfalso. exact (snoc_neq _ _ Heq).
    + intros (e' & [=] & _).
Qed.

(** X22. A forced refresh runs the stage whatever the cache holds and,
    when the stage returns, appends its payload as a new row; if that row
    is newer than the other rows of the key, the calls that follow
    without [force_refresh] within 24 hours answer the refreshed
    payload. *)
Theorem forced_refresh_supersedes
  (db db1 : DB World) (type : string) (pid now saved_at : Z) (p : json) :
  reachable stage run_complete_analysis db ->
  Forall (fun c => created_at c < saved_at)
         (rows_for pid type (analysis_cache db)) ->
  get_analysis stage type pid true now saved_at db = (inr p, db1) ->
  analysis_cache db1
  = (analysis_cache db ++ [mkAnalysisCache pid type p saved_at])%list
  /\ stage_runs db1 = (stage_runs db ++ [(type, pid)])%list
  /\ forall now2 saved2,
       now2 - saved_at < day ->
       get_analysis stage type pid false now2 saved2 db1 = (inr p, db1).
Proof.
  intros Hreach Hold Hcall.
  pose proof (reachable_cache_truthy World stage run_complete_analysis db Hreach)
    as Hinv.
  pose proof (get_analysis_cache_truthy World stage type pid true now saved_at db
                Hinv) as Hinv1.
  rewrite Hcall in Hinv1. cbn [snd] in Hinv1.
  unfold get_analysis in Hcall.
  destruct (decide (pid ∈ products db)) as [Hpid|Hn];
    [|rewrite bool_decide_eq_false_2 in Hcall by assumption; discriminate].
  rewrite bool_decide_eq_true_2 in Hcall by assumption.
  unfold run_and_cache in Hcall.
  destruct (stage_results stage type pid (world db)) as [w' [res|]];
    [|discriminate].
  injection Hcall as <- <-. cbn [analysis_cache stage_runs].
  split; [reflexivity|]. split; [reflexivity|].
  intros now2 saved2 Hfresh.
  assert (Hnew : newest (rows_for pid type
                   (save_analysis_cache (analysis_cache db) pid type res saved_at))
                 = Some (mkAnalysisCache pid type res saved_at)).
  { unfold save_analysis_cache. rewrite rows_for_snoc.
    apply newest_snoc. exact Hold. }
  exact (get_analysis_hit World stage _ type pid now2 saved2 _ Hinv1 Hpid Hnew
           Hfresh).
Qed.

Lemma rows_for_filter_other (pid pid' : Z) (type : string)
  (rows : list AnalysisCache) :
  pid' <> pid ->
  rows_for pid' type (filter (fun c => product_id c <> pid) rows)
  = rows_for pid' type rows.
Proof.
  intros Hne. unfold rows_for.
  induction rows as [|c rows IH]; [reflexivity|].
  rewrite !filter_cons.
  destruct (decide (product_id c <> pid)) as [H|H].
  - rewrite filter_cons. destruct (decide _); rewrite IH; reflexivity.
  - destruct (decide (product_id c = pid' /\ analysis_type c = type))
      as [[H' _]|_]; [|exact IH].
    exfalso. apply H. congruence.
Qed.

Lemma rows_for_filter_same (pid : Z) (type : string) (rows : list AnalysisCache) :
  rows_for pid type (filter (fun c => product_id c <> pid) rows) = [].
Proof.
  unfold rows_for. induction rows as [|c rows IH]; [reflexivity|].
  rewrite filter_cons. destruct (decide (product_id c <> pid)) as [H|H];
    [|exact IH].
  rewrite filter_cons. destruct (decide _) as [[H' _]|_]; [contradiction|].
  exact IH.
Qed.

(** X23. Re-analysis of a known product discards every cache row of that
    product, so that no cached answer is left for any of its stages,
    while the cached answers of the other products stay what they were
    and no endpoint stage is counted as run. *)
Theorem reanalyze_product_clears_cache (db : DB World) (pid : Z) :
  pid ∈ products db ->
  let db' := snd (reanalyze_product run_complete_analysis pid db) in
  fst (reanalyze_product run_complete_analysis pid db) = None
  /\ (forall type now,
        get_cached_analysis (analysis_cache db') pid type now = None)
  /\ (forall pid' type now,
        pid' <> pid ->
        get_cached_analysis (analysis_cache db') pid' type now
        = get_cached_analysis (analysis_cache db) pid' type now)
  /\ products db' = products db
  /\ stage_runs db' = stage_runs db.
Proof.
  intros Hpid. cbv zeta. unfold reanalyze_product.
  rewrite bool_decide_eq_true_2 by assumption. cbn [fst snd analysis_cache
    products stage_runs].
  split; [reflexivity|]. split; [|split; [|split; reflexivity]].
  - intros type now. unfold get_cached_analysis.
    rewrite rows_for_filter_same. reflexivity.
  - intros pid' type now Hne. unfold get_cached_analysis.
    rewrite rows_for_filter_other by assumption. reflexivity.
Qed.

End WithStages.

Lemma forced_refresh_supersedes_witness :
  analysis_cache (snd (get_analysis fixed_stage "sentiment" 1 true 5000000
                         5000001 after_first_call))
  = (analysis_cache after_first_call
     ++ [mkAnalysisCache 1 "sentiment" fixed_payload 5000001])%list
  /\ stage_runs (snd (get_analysis fixed_stage "sentiment" 1 true 5000000
                        5000001 after_first_call))
     = (stage_runs after_first_call ++ [("sentiment", 1)])%list
  /\ forall now2 saved2,
       now2 - 5000001 < day ->
       get_analysis fixed_stage "sentiment" 1 false now2 saved2
         (snd (get_analysis fixed_stage "sentiment" 1 true 5000000 5000001
                 after_first_call))
       = (inr fixed_payload,
          snd (get_analysis fixed_stage "sentiment" 1 true 5000000 5000001
                 after_first_call)).
Proof.
  apply (forced_refresh_supersedes unit fixed_stage no_analysis
           after_first_call _ "sentiment" 1 5000000 5000001 fixed_payload).
  - apply (reach_get unit fixed_stage no_analysis one_product "sentiment" 1
             false 1000000 2000000).
    exact one_product_reachable.
  - unfold after_first_call, rows_for. cbn [analysis_cache].
    rewrite filter_cons_True by (split; reflexivity).
    constructor; [reflexivity | constructor].
  - vm_compute. reflexivity.
Defined.

Lemma reanalyze_product_clears_cache_witness :
  let db' := snd (reanalyze_product no_analysis 1 after_first_call) in
  fst (reanalyze_product no_analysis 1 after_first_call) = None
  /\ (forall type now,
        get_cached_analysis (analysis_cache db') 1 type now = None)
  /\ (forall pid' type now,
        pid' <> 1 ->
        get_cached_analysis (analysis_cache db') pid' type now
        = get_cached_analysis (analysis_cache after_first_call) pid' type now)
  /\ products db' = products after_first_call
  /\ stage_runs db' = stage_runs after_first_call.
Proof.
  apply (reanalyze_product_clears_cache unit no_analysis after_first_call 1).
  vm_compute. left.
Defined.

Lemma get_analysis_runs_stage_unless_fresh_witness :
  let db1 := snd (get_analysis fixed_stage "sentiment" 1 false
                    (2000000 + day) (2000001 + day) after_first_call) in
  (stage_runs db1 = stage_runs after_first_call
   \/ stage_runs db1 = (stage_runs after_first_call ++ [("sentiment", 1)])%list)
  /\ (stage_runs db1 = stage_runs after_first_call <->
      exists e,
        newest (rows_for 1 "sentiment" (analysis_cache after_first_call)) = Some e
        /\ 2000000 + day - created_at e < day).
Proof.
  apply (get_analysis_runs_stage_unless_fresh unit fixed_stage no_analysis
           after_first_call "sentiment" 1 (2000000 + day) (2000001 + day)).
  - apply (reach_get unit fixed_stage no_analysis one_product "sentiment" 1
             false 1000000 2000000).
    exact one_product_reachable.
  - vm_compute. left.
Defined.

End CacheFacts.

(** ** Strings: stripping, splitting and joining *)

Module TextFacts.
Import Py.

Lemma is_empty_true (s : string) : is_empty s = true <-> s = "".
Proof. destruct s; simpl; split; congruence. Qed.

Lemma len_nonneg (s : string) : 0 <= len s.
Proof. unfold len. lia. Qed.

Lemma len_cons (c : ascii) (s : string) : len (String c s) = 1 + len s.
Proof. unfold len. simpl String.length. lia. Qed.

Lemma rstrip_idempotent (s : string) : rstrip (rstrip s) = rstrip s.
Proof.
  induction s as [|c s IH]; [reflexivity|].
  cbn [rstrip].
  destruct (isspace c && is_empty (rstrip s)) eqn:E; [reflexivity|].
  cbn [rstrip]. rewrite IH, E. reflexivity.
Qed.

(** A string that does not begin with white space. *)
Definition starts_clean (s : string) : Prop :=
  match s with
  | EmptyString => True
  | String c _ => isspace c = false
  end.

Lemma lstrip_starts_clean (s : string) : starts_clean (lstrip s).
Proof.
  induction s as [|c s IH]; [exact I|].
  cbn [lstrip]. destruct (isspace c) eqn:E; [exact IH | exact E].
Qed.

Lemma lstrip_clean (s : string) : starts_clean s -> lstrip s = s.
Proof.
  destruct s as [|c s]; [reflexivity|]. simpl. intros ->. reflexivity.
Qed.

Lemma rstrip_starts_clean (s : string) : starts_clean s -> starts_clean (rstrip s).
Proof.
  destruct s as [|c s]; [intros _; exact I|].
  simpl. intros E. rewrite E. simpl. exact E.
Qed.

Lemma strip_idempotent (s : string) : strip (strip s) = strip s.
Proof.
  unfold strip.
  rewrite (lstrip_clean (rstrip (lstrip s))).
  - apply rstrip_idempotent.
  - apply rstrip_starts_clean, lstrip_starts_clean.
Qed.

Lemma append_cons (c : ascii) (a b : string) :
  String c a ++ b = String c (a ++ b).
Proof. reflexivity. Qed.

Lemma append_nil_l (s : string) : "" ++ s = s.
Proof. reflexivity. Qed.

Lemma all_chars_app (p : ascii -> bool) (a b : string) :
  all_chars p (a ++ b) = all_chars p a && all_chars p b.
Proof.
  induction a as [|c a IH]; [reflexivity|].
  rewrite append_cons. simpl. rewrite IH. apply andb_assoc.
Qed.

Lemma append_nil_r (s : string) : s ++ "" = s.
Proof.
  induction s as [|c s IH]; [reflexivity|].
  rewrite append_cons, IH. reflexivity.
Qed.

Lemma append_assoc (a b c : string) : (a ++ b) ++ c = a ++ (b ++ c).
Proof.
  induction a as [|x a IH]; [reflexivity|].
  rewrite !append_cons, IH. reflexivity.
Qed.

(** [lstrip] drops a prefix and [rstrip] a suffix. *)
Lemma lstrip_suffix (s : string) : exists a, s = a ++ lstrip s.
Proof.
  induction s as [|c s [a IH]]; [exists ""; reflexivity|].
  cbn [lstrip]. destruct (isspace c).
  - exists (String c a). rewrite append_cons, <- IH. reflexivity.
  - exists "". reflexivity.
Qed.

Lemma rstrip_prefix (s : string) : exists b, s = rstrip s ++ b.
Proof.
  induction s as [|c s [b IH]]; [exists ""; reflexivity|].
  cbn [rstrip]. destruct (isspace c && is_empty (rstrip s)).
  - exists (String c s). reflexivity.
  - exists b. rewrite append_cons, <- IH. reflexivity.
Qed.

Lemma strip_inside (s : string) : exists a b, s = a ++ strip s ++ b.
Proof.
  unfold strip.
  destruct (lstrip_suffix s) as [a Ha].
  destruct (rstrip_prefix (lstrip s)) as [b Hb].
  exists a, b. rewrite <- Hb. exact Ha.
Qed.

Lemma all_chars_strip (p : ascii -> bool) (s : string) :
  all_chars p s = true -> all_chars p (strip s) = true.
Proof.
  intros H. destruct (strip_inside s) as (a & b & E).
  rewrite E in H. rewrite !all_chars_app in H.
  apply andb_true_iff in H as [_ H]. apply andb_true_iff in H as [H _].
  exact H.
Qed.

(** The words of [split]: none is empty, none holds white space, and their
    characters are characters of the text. *)
Lemma split_from_words (p : ascii -> bool) (s cur : string) :
  all_chars p cur = true -> all_chars p s = true ->
  all_chars (fun c => negb (isspace c)) cur = true ->
  Forall (fun w => w <> "" /\ all_chars p w = true
                   /\ all_chars (fun c => negb (isspace c)) w = true)
         (split_from cur s).
Proof.
  revert cur. induction s as [|c s IH]; intros cur Hp Hs Hc.
  - simpl. destruct cur as [|x cur]; simpl; [constructor|].
    constructor; [|constructor]. split; [discriminate|]. split; assumption.
  - cbn [split_from]. cbn [all_chars] in Hs.
    apply andb_true_iff in Hs as [Hpc Hs].
    destruct (isspace c) eqn:E.
    + destruct cur as [|x cur]; cbn [is_empty].
      * apply IH; [reflexivity | assumption | reflexivity].
      * constructor.
        -- split; [discriminate|]. split; assumption.
        -- apply IH; [reflexivity | assumption | reflexivity].
    + apply IH.
      * rewrite all_chars_app, Hp. simpl. rewrite Hpc. reflexivity.
      * assumption.
      * rewrite all_chars_app, Hc. simpl. rewrite E. reflexivity.
Qed.

Lemma split_words_chars (p : ascii -> bool) (s : string) :
  all_chars p s = true ->
  Forall (fun w => w <> "" /\ all_chars p w = true
                   /\ all_chars (fun c => negb (isspace c)) w = true)
         (split s).
Proof.
  intros H. apply split_from_words; [reflexivity | exact H | reflexivity].
Qed.

Lemma all_chars_true (s : string) : all_chars (fun _ => true) s = true.
Proof. induction s as [|c s IH]; [reflexivity|]. exact IH. Qed.

Lemma all_chars_impl (p q : ascii -> bool) (s : string) :
  (forall c, p c = true -> q c = true) ->
  all_chars p s = true -> all_chars q s = true.
Proof.
  intros Hpq. induction s as [|c s IH]; [reflexivity|].
  simpl. intros H. apply andb_true_iff in H as [H1 H2].
  rewrite (Hpq c H1), (IH H2). reflexivity.
Qed.

Lemma all_chars_and (p q : ascii -> bool) (s : string) :
  all_chars p s = true -> all_chars q s = true ->
  all_chars (fun c => p c && q c) s = true.
Proof.
  induction s as [|c s IH]; [reflexivity|].
  simpl. intros H1 H2.
  apply andb_true_iff in H1 as [-> H1]. apply andb_true_iff in H2 as [-> H2].
  rewrite (IH H1 H2). reflexivity.
Qed.

(** Reading a word without white space moves it into the word being
    read. *)
Lemma split_from_word (w cur rest : string) :
  all_chars (fun c => negb (isspace c)) w = true ->
  split_from cur (w ++ rest) = split_from (cur ++ w) rest.
Proof.
  revert cur. induction w as [|c w IH]; intros cur H.
  - simpl. rewrite append_nil_r. reflexivity.
  - simpl in H. apply andb_true_iff in H as [Hc H].
    apply negb_true_iff in Hc.
    rewrite append_cons. cbn [split_from]. rewrite Hc.
    rewrite IH by assumption.
    rewrite append_assoc. reflexivity.
Qed.

Lemma split_join (ws : list string) :
  Forall (fun w => w <> "" /\ all_chars (fun c => negb (isspace c)) w = true) ws ->
  split (join " " ws) = ws.
Proof.
  unfold split. induction 1 as [|w ws [Hne Hw] Hws IH]; [reflexivity|].
  destruct ws as [|w' ws].
  - cbn [join]. rewrite <- (append_nil_r w) at 1.
    rewrite split_from_word by assumption. simpl.
    destruct w; [contradiction|reflexivity].
  - change (join " " (w :: w' :: ws)) with (w ++ " " ++ join " " (w' :: ws)).
    rewrite split_from_word by assumption.
    rewrite append_cons, append_nil_l. cbn [split_from].
    change (isspace " ") with true. cbn iota.
    destruct w as [|c w]; [contradiction|].
    cbn [is_empty]. rewrite ?append_nil_l, IH. reflexivity.
Qed.

Lemma lower_char_fixed (c : ascii) : isupper c = false -> lower_char c = c.
Proof. unfold lower_char. intros ->. reflexivity. Qed.

Lemma lower_fixed (s : string) :
  all_chars (fun c => negb (isupper c)) s = true -> lower s = s.
Proof.
  induction s as [|c s IH]; [reflexivity|].
  simpl. intros H. apply andb_true_iff in H as [Hc H].
  apply negb_true_iff in Hc.
  rewrite (lower_char_fixed c Hc), (IH H). reflexivity.
Qed.

Lemma re_sub_outside_fixed (p : ascii -> bool) (s : string) :
  all_chars p s = true -> re_sub_outside p s = s.
Proof.
  induction s as [|c s IH]; [reflexivity|].
  simpl. intros H. apply andb_true_iff in H as [-> H].
  rewrite (IH H). reflexivity.
Qed.

Lemma re_sub_outside_chars (p : ascii -> bool) (s : string) :
  p " "%char = true -> all_chars p (re_sub_outside p s) = true.
Proof.
  intros Hsp. induction s as [|c s IH]; [reflexivity|].
  simpl. rewrite IH. destruct (p c) eqn:E; rewrite ?E, ?Hsp; reflexivity.
Qed.

Lemma all_chars_join (p : ascii -> bool) (sep : string) (ws : list string) :
  all_chars p sep = true -> Forall (fun w => all_chars p w = true) ws ->
  all_chars p (join sep ws) = true.
Proof.
  intros Hsep. induction 1 as [|w ws Hw Hws IH]; [reflexivity|].
  destruct ws as [|w' ws]; [exact Hw|].
  change (join sep (w :: w' :: ws)) with (w ++ sep ++ join sep (w' :: ws)).
  rewrite !all_chars_app, Hw, Hsep, IH. reflexivity.
Qed.

(** The pieces of [re.split]: none holds a character of the class, and
    each is a part of the text. *)
Lemma re_split_from_pieces (p : ascii -> bool) (s cur : string) (in_run : bool) :
  all_chars (fun c => negb (p c)) cur = true ->
  Forall (fun piece => all_chars (fun c => negb (p c)) piece = true)
         (re_split_from p cur in_run s).
Proof.
  revert cur in_run. induction s as [|c s IH]; intros cur in_run Hc.
  - simpl. constructor; [assumption|constructor].
  - cbn [re_split_from]. destruct (p c) eqn:E.
    + destruct in_run.
      * apply IH. assumption.
      * constructor; [assumption|]. apply IH. reflexivity.
    + apply IH. rewrite all_chars_app, Hc. simpl. rewrite E. reflexivity.
Qed.

Lemma re_split_from_inside (p : ascii -> bool) (s cur pre : string)
  (in_run : bool) :
  (in_run = true -> cur = "") ->
  Forall (fun piece => exists a b, pre ++ cur ++ s = a ++ piece ++ b)
         (re_split_from p cur in_run s).
Proof.
  revert cur pre in_run. induction s as [|c s IH]; intros cur pre in_run Hrun.
  - simpl. constructor; [|constructor]. exists pre, "". reflexivity.
  - cbn [re_split_from]. destruct (p c) eqn:E.
    + destruct in_run.
      * rewrite (Hrun eq_refl). rewrite append_nil_l.
        specialize (IH "" (pre ++ String c "") true (fun _ => eq_refl)).
        rewrite append_nil_l, append_assoc in IH. exact IH.
      * constructor.
        -- exists pre, (String c s). reflexivity.
        -- specialize (IH "" (pre ++ cur ++ String c "") true (fun _ => eq_refl)).
           rewrite append_nil_l, !append_assoc in IH. exact IH.
    + specialize (IH (cur ++ String c "") pre false
                     (fun H => False_ind _ (diff_false_true H))).
      rewrite append_assoc in IH. exact IH.
Qed.

Lemma re_split_pieces (p : ascii -> bool) (s : string) :
  Forall (fun piece => all_chars (fun c => negb (p c)) piece = true
                       /\ exists a b, s = a ++ piece ++ b)
         (re_split p s).
Proof.
  unfold re_split. apply Forall_and. split.
  - apply re_split_from_pieces. reflexivity.
  - apply (re_split_from_inside p s "" "" false). discriminate.
Qed.

End TextFacts.

(** ** Reviews parsed from Flipkart containers *)

Module ParserFacts.
Import Py Scraper FlipkartParser TextFacts.

(** Where a reviewer name comes from: the default, or one of the strings,
    shorter than 40 characters and neither a number nor the READ MORE
    marker. *)
Definition name_source (strings : list string) (name : string) : Prop :=
  name = "Flipkart Customer"
  \/ (In name strings /\ name <> "READ MORE" /\ isdigit_str name = false
      /\ len name < 40).

Section WithClock.

Variable today : Z.
Variable parse_date : string -> option Z.

(** What makes a scraped review usable by the stages. *)
Definition wellformed (r : RawReview) : Prop :=
  1 <= rating r <= 5 /\ 3 <= len (text r) /\ strip (text r) = text r
  /\ date r <= today.

Lemma rating_of_bounds (strings : list string) : 1 <= rating_of strings <= 5.
Proof.
  unfold rating_of. destruct (item strings 0) as [s0|]; [|lia].
  destruct (int s0) as [val|]; [|lia].
  destruct ((1 <=? val) && (val <=? 5)) eqn:E; [|lia].
  apply andb_true_iff in E as [H1 H2].
  apply Z.leb_le in H1. apply Z.leb_le in H2. lia.
Qed.

Lemma full_text_of_stripped (strings : list string) :
  strip (full_text_of strings) = full_text_of strings.
Proof.
  unfold full_text_of.
  destruct (String.eqb _ "READ MORE"); cbv beta iota zeta;
    apply strip_idempotent.
Qed.

Lemma item_in_range {A : Type} (l : list A) (i : nat) :
  (i < length l)%nat -> exists x, item l i = Some x /\ In x l.
Proof.
  intros H. unfold item. destruct (nth_error l i) as [x|] eqn:E.
  - exists x. split; [reflexivity|]. eapply nth_error_In. exact E.
  - apply nth_error_None in E. lia.
Qed.

Lemma item_in {A : Type} (l : list A) (i : nat) (x : A) :
  item l i = Some x -> In x l.
Proof. apply nth_error_In. Qed.

Lemma certified_buyer_step_spec (strings : list string) (i : nat) (s : string)
  (r : RawReview) :
  (i < length strings)%nat ->
  exists r1,
    certified_buyer_step strings i s r = Some r1
    /\ text r1 = text r /\ rating r1 = rating r /\ date r1 = date r
    /\ (reviewer_name r1 = reviewer_name r
        \/ name_source strings (reviewer_name r1))
    /\ verified r1 = verified r || String.eqb s "Certified Buyer".
Proof.
  intros Hi. unfold certified_buyer_step.
  destruct (String.eqb s "Certified Buyer").
  - cbv zeta. destruct (0 <? i)%nat.
    + destruct (item_in_range strings (i - 1)) as (name & -> & Hin); [lia|].
      cbn [mbind option_bind].
      destruct (negb (String.eqb name "READ MORE") && negb (isdigit_str name)
                && (len name <? 40)) eqn:E.
      * eexists. split; [reflexivity|]. cbn.
        rewrite orb_true_r. repeat split; try reflexivity.
        right. right.
        apply andb_true_iff in E as [E E3].
        apply andb_true_iff in E as [E1 E2].
        apply negb_true_iff in E1. apply negb_true_iff in E2.
        apply String.eqb_neq in E1. apply Z.ltb_lt in E3.
        repeat split; assumption.
      * eexists. split; [reflexivity|]. cbn.
        rewrite orb_true_r. repeat split; try reflexivity. left. reflexivity.
    + eexists. split; [reflexivity|]. cbn.
      rewrite orb_true_r. repeat split; try reflexivity. left. reflexivity.
  - exists r. rewrite orb_false_r. repeat split; try reflexivity.
    left. reflexivity.
Qed.

(** One turn of the metadata loop raises nothing, keeps the text and the
    rating, and keeps the invariants of date and name. *)
Lemma metadata_step_spec (strings : list string) (i : nat) (s : string)
  (r : RawReview) :
  (i < length strings)%nat ->
  exists r',
    metadata_step today parse_date strings i s r = Some r'
    /\ text r' = text r /\ rating r' = rating r
    /\ (date r' = date r \/ date r' <= today)
    /\ (reviewer_name r' = reviewer_name r
        \/ name_source strings (reviewer_name r'))
    /\ verified r' = verified r || String.eqb s "Certified Buyer".
Proof.
  intros Hi. unfold metadata_step.
  destruct (certified_buyer_step_spec strings i s r Hi)
    as (r1 & -> & Ht & Hr & Hd & Hn & Hv).
  cbn [mbind option_bind].
  eexists. split; [reflexivity|].
  unfold permalink_step, date_step.
  repeat match goal with
         | |- context [if ?b then _ else _] => destruct b eqn:?
         | |- context [match ?o with Some _ => _ | None => _ end] =>
             destruct o eqn:?
         end;
    cbn; rewrite ?Ht, ?Hr, ?Hd;
    (repeat split; try reflexivity; try assumption;
     try (left; assumption); try (left; reflexivity);
     try (right; apply Z.leb_le; assumption)).
Qed.

Lemma metadata_loop_spec (strings rest : list string) :
  forall (i : nat) (r : RawReview),
    (i + length rest <= length strings)%nat ->
    exists r',
      metadata_loop today parse_date strings i rest r = Some r'
      /\ text r' = text r /\ rating r' = rating r
      /\ (date r' = date r \/ date r' <= today)
      /\ (reviewer_name r' = reviewer_name r
          \/ name_source strings (reviewer_name r'))
      /\ verified r'
         = verified r || existsb (fun s => String.eqb s "Certified Buyer") rest.
Proof.
  induction rest as [|s rest IH]; intros i r Hi.
  - exists r. simpl. rewrite orb_false_r.
    repeat split; try reflexivity; left; reflexivity.
  - cbn [length] in Hi. cbn [metadata_loop].
    destruct (metadata_step_spec strings i s r) as
      (r1 & -> & Ht & Hr & Hd & Hn & Hv); [lia|].
    cbn [mbind option_bind].
    destruct (IH (S i) r1) as (r' & -> & Ht' & Hr' & Hd' & Hn' & Hv'); [lia|].
    exists r'. split; [reflexivity|].
    rewrite Ht', Hr', Hv', Hv, Ht, Hr. cbn [existsb].
    rewrite orb_assoc.
    repeat split; try reflexivity.
    + destruct Hd' as [Hd'|Hd']; [|right; exact Hd'].
      rewrite Hd'. exact Hd.
    + destruct Hn' as [Hn'|Hn']; [|right; exact Hn'].
      rewrite Hn'. exact Hn.
Qed.

Lemma certified_buyer_among (strings : list string) :
  existsb (fun s => String.eqb s "Certified Buyer") strings = true
  <-> In "Certified Buyer" strings.
Proof.
  rewrite existsb_exists. split.
  - intros (s & Hin & E). apply String.eqb_eq in E. subst s. exact Hin.
  - intros Hin. exists "Certified Buyer". split; [exact Hin | reflexivity].
Qed.

(** X24. What [_parse_review_from_strings] returns.  It gives a review
    exactly when there are at least four strings and the cleaned text has
    at least three characters: the metadata loop never raises (the date
    parser raising nothing but what the loop passes over).  The review
    it gives has a rating from 1 to 5, a text without surrounding white
    space, a date that is not in the future, is verified exactly when one
    of the strings is [Certified Buyer], and names the default reviewer or
    one of the strings. *)
Theorem parse_review_from_strings_result (strings : list string) :
  match _parse_review_from_strings today parse_date strings with
  | Some r =>
      (4 <= length strings)%nat
      /\ text r = full_text_of strings
      /\ wellformed r
      /\ (verified r = true <-> In "Certified Buyer" strings)
      /\ name_source strings (reviewer_name r)
  | None => (length strings < 4)%nat \/ len (full_text_of strings) < 3
  end.
Proof.
  unfold _parse_review_from_strings.
  destruct (length strings <? 4)%nat eqn:Hlen.
  { left. apply Nat.ltb_lt. exact Hlen. }
  apply Nat.ltb_ge in Hlen. cbv zeta.
  destruct (is_empty (full_text_of strings) || (len (full_text_of strings) <? 3))
    eqn:Hshort.
  { right. apply orb_true_iff in Hshort as [H|H].
    - apply is_empty_true in H. rewrite H. reflexivity.
    - apply Z.ltb_lt. exact H. }
  apply orb_false_iff in Hshort as [_ Hshort]. apply Z.ltb_ge in Hshort.
  destruct (metadata_loop_spec strings strings 0
              (mkRawReview (full_text_of strings) (rating_of strings) today
                 "Flipkart Customer" false 0))
    as (r & -> & Ht & Hr & Hd & Hn & Hv); [simpl; lia|].
  cbn in Ht, Hr, Hd, Hn, Hv.
  split; [exact Hlen|]. split; [exact Ht|]. split.
  - unfold wellformed. rewrite Ht, Hr.
    split; [apply rating_of_bounds|]. split; [lia|].
    split; [apply full_text_of_stripped|].
    destruct Hd as [->|Hd]; [lia | exact Hd].
  - split.
    + rewrite Hv. apply certified_buyer_among.
    + destruct Hn as [Hn|Hn]; [left; exact Hn | exact Hn].
Qed.







End WithClock.





End ParserFacts.

(** ** Counters, dictionaries in insertion order and descending sorts *)

Module CounterFacts.
Import Py.

(** [d.get(k)] *)
Fixpoint get {V : Type} (k : string) (d : list (string * V)) : option V :=
  match d with
  | [] => None
  | (k', v) :: d' => if String.eqb k' k then Some v else get k d'
  end.

Lemma get_counter_add_same {V : Type} (f : option V -> V) (k : string)
  (d : list (string * V)) :
  get k (counter_add f k d) = Some (f (get k d)).
Proof.
  induction d as [|[k' v] d IH]; simpl.
  - rewrite String.eqb_refl. reflexivity.
  - destruct (String.eqb k' k) eqn:E; simpl; rewrite E; [reflexivity|exact IH].
Qed.

Lemma get_counter_add_other {V : Type} (f : option V -> V) (k k0 : string)
  (d : list (string * V)) :
  k0 <> k -> get k0 (counter_add f k d) = get k0 d.
Proof.
  intros Hne. induction d as [|[k' v] d IH]; simpl.
  - apply String.eqb_neq in Hne. rewrite String.eqb_sym, Hne. reflexivity.
  - destruct (String.eqb k' k) eqn:E; simpl.
    + apply String.eqb_eq in E. subst k'.
      apply String.eqb_neq in Hne. rewrite String.eqb_sym, Hne. reflexivity.
    + destruct (String.eqb k' k0); [reflexivity|exact IH].
Qed.

Lemma counter_add_keys {V : Type} (f : option V -> V) (k k0 : string)
  (d : list (string * V)) :
  In k0 (map fst (counter_add f k d)) <-> k0 = k \/ In k0 (map fst d).
Proof.
  induction d as [|[k' v] d IH]; simpl.
  - intuition.
  - destruct (String.eqb k' k) eqn:E; simpl.
    + apply String.eqb_eq in E. subst k'. intuition.
    + rewrite IH. intuition.
Qed.

Lemma counter_add_NoDup {V : Type} (f : option V -> V) (k : string)
  (d : list (string * V)) :
  NoDup (map fst d) -> NoDup (map fst (counter_add f k d)).
Proof.
  induction d as [|[k' v] d IH]; simpl; intros Hd.
  - constructor; [|constructor]. intros H. inversion H.
  - apply NoDup_cons in Hd as [Hk' Hd].
    destruct (String.eqb k' k) eqn:E; simpl.
    + apply NoDup_cons. split; assumption.
    + apply NoDup_cons. split; [|apply IH; exact Hd].
      intros Hin. apply list_elem_of_In, counter_add_keys in Hin.
      destruct Hin as [->|Hin].
      * rewrite String.eqb_refl in E. discriminate.
      * apply Hk', list_elem_of_In. exact Hin.
Qed.

Lemma get_In {V : Type} (k : string) (v : V) (d : list (string * V)) :
  NoDup (map fst d) -> In (k, v) d -> get k d = Some v.
Proof.
  induction d as [|[k' v'] d IH]; simpl; intros Hd Hin; [contradiction|].
  apply NoDup_cons in Hd as [Hk' Hd].
  destruct Hin as [[= -> ->]|Hin].
  - rewrite String.eqb_refl. reflexivity.
  - destruct (String.eqb k' k) eqn:E; [|apply IH; assumption].
    apply String.eqb_eq in E. subst k'.
    exfalso. apply Hk', list_elem_of_In, in_map_iff.
    exists (k, v). split; [reflexivity|exact Hin].
Qed.

Lemma In_get {V : Type} (k : string) (v : V) (d : list (string * V)) :
  get k d = Some v -> In (k, v) d.
Proof.
  induction d as [|[k' v'] d IH]; simpl; [discriminate|].
  destruct (String.eqb k' k) eqn:E.
  - apply String.eqb_eq in E. subst k'. intros [= ->]. left. reflexivity.
  - intros H. right. apply IH. exact H.
Qed.

(** [sorted(..., reverse=True)] permutes its argument and leaves it in
    descending order of the key. *)
Lemma insert_by_desc_perm {A : Type} (key : A -> Z) (x : A) (l : list A) :
  Permutation (insert_by_desc key x l) (x :: l).
Proof.
  induction l as [|y l IH]; simpl; [reflexivity|].
  destruct (key y <=? key x); [reflexivity|].
  rewrite IH. apply perm_swap.
Qed.

Lemma sorted_desc_perm {A : Type} (key : A -> Z) (l : list A) :
  Permutation (sorted_desc key l) l.
Proof.
  induction l as [|x l IH]; simpl; [reflexivity|].
  rewrite insert_by_desc_perm. constructor. exact IH.
Qed.

Definition descending_by {A : Type} (key : A -> Z) (l : list A) : Prop :=
  forall i a b, l !! i = Some a -> l !! S i = Some b -> key b <= key a.

Lemma descending_by_cons {A : Type} (key : A -> Z) (x : A) (l : list A) :
  descending_by key l ->
  (forall y, head l = Some y -> key y <= key x) ->
  descending_by key (x :: l).
Proof.
  intros Hl Hh [|i] a b Ha Hb; simpl in *.
  - injection Ha as <-. apply Hh. destruct l; [discriminate|]. exact Hb.
  - eapply Hl; eassumption.
Qed.

Lemma descending_by_tail {A : Type} (key : A -> Z) (x : A) (l : list A) :
  descending_by key (x :: l) -> descending_by key l.
Proof. intros H i a b Ha Hb. apply (H (S i) a b); assumption. Qed.

Lemma insert_by_desc_descending {A : Type} (key : A -> Z) (x : A) (l : list A) :
  descending_by key l -> descending_by key (insert_by_desc key x l).
Proof.
  induction l as [|y l IH]; intros Hl; simpl.
  - intros [|i] a b Ha Hb; discriminate.
  - destruct (Z.leb_spec (key y) (key x)) as [Hle|Hgt].
    + apply descending_by_cons; [exact Hl|]. intros z [= <-]. exact Hle.
    + apply descending_by_cons;
        [apply IH; eapply descending_by_tail; exact Hl|].
      intros z Hz. destruct l as [|w l]; simpl in Hz.
      * injection Hz as <-. lia.
      * destruct (key w <=? key x); injection Hz as <-; [lia|].
        apply (Hl O y w); reflexivity.
Qed.

Lemma sorted_desc_descending {A : Type} (key : A -> Z) (l : list A) :
  descending_by key (sorted_desc key l).
Proof.
  induction l as [|x l IH]; simpl.
  - intros i a b Ha; destruct i; discriminate.
  - apply insert_by_desc_descending, IH.
Qed.

Lemma descending_by_firstn {A : Type} (key : A -> Z) (n : nat) (l : list A) :
  descending_by key l -> descending_by key (firstn n l).
Proof.
  intros H i a b Ha Hb.
  apply (H i a b).
  - rewrite <- Ha. symmetry. apply lookup_take_lt.
    apply lookup_lt_Some in Hb. rewrite length_take in Hb. lia.
  - rewrite <- Hb. symmetry. apply lookup_take_lt.
    apply lookup_lt_Some in Hb. rewrite length_take in Hb. lia.
Qed.

Lemma descending_by_map {A B : Type} (f : A -> B) (key : B -> Z) (l : list A) :
  descending_by (fun a => key (f a)) l -> descending_by key (map f l).
Proof.
  intros H i a b Ha Hb.
  change (map f l) with (f <$> l) in Ha, Hb.
  rewrite list_lookup_fmap in Ha, Hb.
  destruct (l !! i) as [a0|] eqn:Ea; [|discriminate].
  destruct (l !! S i) as [b0|] eqn:Eb; [|discriminate].
  injection Ha as <-. injection Hb as <-.
  apply (H i a0 b0); assumption.
Qed.

Lemma firstn_In {A : Type} (n : nat) (l : list A) (x : A) :
  In x (firstn n l) -> In x l.
Proof.
  intros H. apply list_elem_of_In. apply list_elem_of_In in H.
  eapply subseteq_take. exact H.
Qed.

Lemma firstn_NoDup {A : Type} (n : nat) (l : list A) :
  NoDup l -> NoDup (firstn n l).
Proof.
  revert n. induction l as [|x l IH]; intros [|n] H; simpl;
    try constructor.
  - apply NoDup_cons in H as [Hx H].
    intros Hin. apply Hx. eapply subseteq_take. exact Hin.
  - apply NoDup_cons in H as [Hx H]. apply IH. exact H.
Qed.

End CounterFacts.

(** ** Duplicate groups *)

Module DuplicateFacts.
Import Py Models Reasons CounterFacts.

(** What a group lists for a review. *)
Definition entry (r : Review) : Z * string :=
  (review_id r, take 100 (review_text r)).

(** The review has at least five words and falls under the pattern [k]. *)
Definition under_pattern (k : string) (r : Review) : Prop :=
  (5 <= length (split (lower (review_text r))))%nat
  /\ pattern_of (split (lower (review_text r))) = k.

#[local] Instance under_pattern_dec (k : string) (r : Review) : Decision (under_pattern k r).
Proof. unfold under_pattern. apply _. Defined.

Definition members (k : string) (reviews : list Review) : list Review :=
  filter (under_pattern k) reviews.

Lemma members_snoc (k : string) (l : list Review) (r : Review) :
  members k (l ++ [r])
  = (members k l ++ (if decide (under_pattern k r) then [r] else []))%list.
Proof.
  unfold members. rewrite filter_app, filter_cons.
  destruct (decide (under_pattern k r)); reflexivity.
Qed.

(** [text_groups] after the reviews [processed]: one item for each pattern
    met, holding the entries of the reviews under that pattern, in
    order. *)
Definition groups_inv (processed : list Review)
  (d : list (string * list (Z * string))) : Prop :=
  NoDup (map fst d)
  /\ forall k,
       match get k d with
       | Some g => g = map entry (members k processed) /\ g <> []
       | None => members k processed = []
       end.

Lemma group_step_inv (processed : list Review)
  (d : list (string * list (Z * string))) (r : Review) :
  groups_inv processed d -> groups_inv (processed ++ [r]) (group_step d r).
Proof.
  intros [Hnd Hget]. unfold group_step. cbv zeta.
  destruct (5 <=? length (split (lower (review_text r))))%nat eqn:E5.
  - apply Nat.leb_le in E5. split; [apply counter_add_NoDup; exact Hnd|].
    intros k. rewrite members_snoc.
    destruct (decide (pattern_of (split (lower (review_text r))) = k))
      as [Hk|Hk].
    + subst k. rewrite get_counter_add_same.
      destruct (decide (under_pattern _ r)) as [_|Hn];
        [|exfalso; apply Hn; split; [exact E5|reflexivity]].
      specialize (Hget (pattern_of (split (lower (review_text r))))).
      destruct (get _ d) as [g|].
      * destruct Hget as [-> _]. rewrite map_app. split; [reflexivity|].
        intros H. apply app_eq_nil in H as [_ H]. discriminate.
      * rewrite Hget. split; [reflexivity|discriminate].
    + rewrite get_counter_add_other by congruence.
      destruct (decide (under_pattern k r)) as [[_ Hk']|_]; [contradiction|].
      rewrite app_nil_r. apply Hget.
  - apply Nat.leb_gt in E5. split; [exact Hnd|].
    intros k. rewrite members_snoc.
    destruct (decide (under_pattern k r)) as [[H5 _]|_]; [lia|].
    rewrite app_nil_r. apply Hget.
Qed.

Lemma fold_group_step_inv (l processed : list Review)
  (d : list (string * list (Z * string))) :
  groups_inv processed d ->
  groups_inv (processed ++ l) (fold_left group_step l d).
Proof.
  revert processed d. induction l as [|r l IH]; intros processed d H.
  - rewrite app_nil_r. exact H.
  - cbn [fold_left].
    replace (processed ++ r :: l)%list with ((processed ++ [r]) ++ l)%list
      by (rewrite <- app_assoc; reflexivity).
    apply IH, group_step_inv, H.
Qed.

Lemma text_groups_inv (reviews : list Review) :
  groups_inv reviews (fold_left group_step reviews []).
Proof.
  apply (fold_group_step_inv reviews [] []).
  split; [constructor|]. intros k. reflexivity.
Qed.

(** The list [duplicates] built from [text_groups]. *)
Definition duplicate_of (kg : string * list (Z * string)) : option Group :=
  if (2 <=? length (snd kg))%nat
  then Some (mkGroup (fst kg) (Z.of_nat (length (snd kg))) (firstn 5 (snd kg)))
  else None.

Lemma duplicate_of_pattern (kg : string * list (Z * string)) (g : Group) :
  duplicate_of kg = Some g -> pattern g = fst kg.
Proof.
  unfold duplicate_of. destruct (2 <=? _)%nat; [|discriminate].
  intros [= <-]. reflexivity.
Qed.

Lemma duplicates_patterns (d : list (string * list (Z * string))) (k : string) :
  In k (map pattern (omap duplicate_of d)) -> In k (map fst d).
Proof.
  induction d as [|kg d IH]; simpl; [tauto|].
  destruct (duplicate_of kg) as [g|] eqn:E; simpl.
  - intros [<-|H]; [left; symmetry; exact (duplicate_of_pattern _ _ E)|].
    right. apply IH, H.
  - intros H. right. apply IH, H.
Qed.

Lemma duplicates_NoDup (d : list (string * list (Z * string))) :
  NoDup (map fst d) -> NoDup (map pattern (omap duplicate_of d)).
Proof.
  induction d as [|kg d IH]; simpl; intros H; [constructor|].
  apply NoDup_cons in H as [Hk H].
  destruct (duplicate_of kg) as [g|] eqn:E; simpl; [|apply IH, H].
  apply NoDup_cons. split; [|apply IH, H].
  rewrite (duplicate_of_pattern _ _ E).
  intros Hin. apply Hk, list_elem_of_In, duplicates_patterns, list_elem_of_In.
  exact Hin.
Qed.

Lemma check_duplicate_reviews_unfold (db : list Review) (pid : Z) :
  check_duplicate_reviews db pid
  = let reviews := filter (fun r => product_id r = pid) db in
    if (length reviews <? 10)%nat then []
    else firstn 5 (sorted_desc count
                     (omap duplicate_of (fold_left group_step reviews []))).
Proof. reflexivity. Qed.

(** X26. The duplicate groups [check_duplicate_reviews] reports: none for
    a product with fewer than ten reviews; otherwise at most five, with
    pairwise different patterns, in descending order of size, each of
    them counting at least two reviews.  The size of a group is the number
    of the product's reviews of five words or more that fall under its
    pattern, and the group lists the first five of them in the order of
    the table.  A pattern with two such reviews or more is left out only
    when five groups are reported. *)
Theorem check_duplicate_reviews_groups (db : list Review) (pid : Z) :
  let reviews := filter (fun r => product_id r = pid) db in
  let groups := check_duplicate_reviews db pid in
  ((length reviews < 10)%nat -> groups = [])
  /\ (length groups <= 5)%nat
  /\ NoDup (map pattern groups)
  /\ descending_by count groups
  /\ Forall (fun g =>
               2 <= count g
               /\ count g = Z.of_nat (length (members (pattern g) reviews))
               /\ Reasons.reviews g
                  = firstn 5 (map entry (members (pattern g) reviews)))
            groups
  /\ forall k,
       (10 <= length reviews)%nat ->
       (2 <= length (members k reviews))%nat ->
       In k (map pattern groups) \/ length groups = 5%nat.
Proof.
  cbv zeta. rewrite check_duplicate_reviews_unfold. cbv zeta.
  set (reviews := filter (fun r => product_id r = pid) db).
  destruct (text_groups_inv reviews) as [Hnd Hget].
  set (d := fold_left group_step reviews []) in *.
  destruct (length reviews <? 10)%nat eqn:E10.
  { split; [reflexivity|]. split; [simpl; lia|]. split; [constructor|].
    split; [intros i a b Ha; destruct i; discriminate|].
    split; [constructor|].
    intros k H. apply Nat.ltb_lt in E10. lia. }
  apply Nat.ltb_ge in E10.
  split; [intros H; lia|].
  split; [rewrite length_take; lia|].
  split.
  { change (map pattern ?l) with (pattern <$> l). rewrite fmap_take.
    apply firstn_NoDup.
    rewrite sorted_desc_perm.
    apply duplicates_NoDup. exact Hnd. }
  split; [apply descending_by_firstn, sorted_desc_descending|].
  split.
  { apply Forall_forall. intros g Hg.
    apply list_elem_of_In, firstn_In in Hg.
    eapply Permutation_in in Hg; [|apply sorted_desc_perm].
    apply list_elem_of_In, list_elem_of_omap in Hg as ([k grp] & Hin & Hdup).
    apply list_elem_of_In in Hin. apply (get_In _ _ _ Hnd) in Hin.
    specialize (Hget k). rewrite Hin in Hget. destruct Hget as [Hgrp _].
    unfold duplicate_of in Hdup. cbn [fst snd] in Hdup.
    destruct (2 <=? length grp)%nat eqn:E2; [|discriminate].
    apply Nat.leb_le in E2. injection Hdup as <-. cbn [pattern count Reasons.reviews].
    subst grp. rewrite length_map in *.
    split; [lia|]. split; reflexivity. }
  intros k _ Hk.
  specialize (Hget k).
  destruct (get k d) as [grp|] eqn:Eg;
    [|rewrite Hget in Hk; simpl in Hk; lia].
  destruct Hget as [Hgrp _].
  apply In_get in Eg.
  assert (Hdup : In (mkGroup k (Z.of_nat (length grp)) (firstn 5 grp))
                    (sorted_desc count (omap duplicate_of d))).
  { eapply Permutation_in; [symmetry; apply sorted_desc_perm|].
    apply list_elem_of_In, list_elem_of_omap. exists (k, grp).
    split; [apply list_elem_of_In; exact Eg|].
    unfold duplicate_of. cbn [fst snd].
    subst grp. rewrite length_map.
    destruct (Nat.leb_spec 2 (length (members k reviews))); [reflexivity|lia]. }
  set (sorted := sorted_desc count (omap duplicate_of d)) in *.
  destruct (Nat.le_gt_cases (length sorted) 5) as [Hle|Hgt].
  - left. rewrite firstn_all2 by exact Hle.
    apply in_map_iff. eexists. split; [|exact Hdup]. reflexivity.
  - right. rewrite length_take. lia.
Qed.

End DuplicateFacts.

(** ** Reasons given for a suspicious review *)

Module ReasonFacts.
Import Py Models FakeDetection Reasons.

(** The points of the score that stand behind a reason. *)
Definition points (reason : string) : Z :=
  if String.eqb reason "Not a verified purchase" then 25
  else if String.eqb reason "Very short review with extreme rating" then 30
  else if String.eqb reason "Contains generic/common phrases" then 10
  else if String.eqb reason "Extremely short review" then 10
  else if String.eqb reason "Contains URLs" then 10
  else 0.

Definition sum_points (reasons : list string) : Z :=
  fold_right (fun reason acc => points reason + acc) 0 reasons.

Lemma url_is_spam (text : string) :
  re_search url_pattern text = true ->
  existsb (fun pattern => re_search pattern text) spam_patterns = true.
Proof.
  intros H. unfold spam_patterns. cbn [existsb].
  change (RSeq (RLit "http") (RSeq (ROpt (RChar "s")) (RLit "://")))
    with url_pattern.
  rewrite H. reflexivity.
Qed.

Lemma ite_add (b : bool) (x n : Z) :
  (if b then x + n else x) = x + (if b then n else 0).
Proof. destruct b; lia. Qed.

Lemma sum_points_ite (b : bool) (l : list string) (x : string) :
  sum_points (if b then (l ++ [x])%list else l)
  = sum_points l + (if b then points x else 0).
Proof.
  destruct b; [|lia]. unfold sum_points.
  induction l as [|y l IH]; simpl; [lia|]. simpl in IH. lia.
Qed.

Lemma sum_points_fallback (l : list string) :
  sum_points match l with
             | [] => ["Multiple minor suspicious indicators"]
             | _ => l
             end
  = sum_points l.
Proof. destruct l; reflexivity. Qed.

(** X27. The reasons listed for a review are backed by its score: there is
    always at least one reason, and the score is at least the points of
    the listed reasons taken together (25 for an unverified purchase, 30
    for a very short review with an extreme rating, 10 each for generic
    phrases, an extremely short review and a URL), up to the cap of
    100. *)
Theorem reasons_backed_by_score (review : Review) (score : Z) :
  get_suspicion_reasons review score <> []
  /\ Z.min 100 (sum_points (get_suspicion_reasons review score))
     <= calculate_suspicious_score review.
Proof.
  split.
  { unfold get_suspicion_reasons. cbv zeta.
    match goal with
    | |- match ?l with [] => _ | _ :: _ => _ end <> [] =>
        destruct l; discriminate
    end. }
  unfold get_suspicion_reasons, calculate_suspicious_score. cbv zeta.
  set (text := lower (review_text review)).
  set (word_count := Z.of_nat (length (split text))).
  rewrite sum_points_fallback, !sum_points_ite, !ite_add.
  change (sum_points []) with 0.
  change (points "Not a verified purchase") with 25.
  change (points "Very short review with extreme rating") with 30.
  change (points "Contains generic/common phrases") with 10.
  change (points "Extremely short review") with 10.
  change (points "Contains URLs") with 10.
  assert (Hgen : 0 <= generic_count text) by (unfold generic_count; lia).
  pose proof (url_is_spam text) as Hurl.
  destruct (re_search url_pattern text);
    [rewrite (Hurl eq_refl) | clear Hurl;
     destruct (existsb (fun pattern => re_search pattern text) spam_patterns)].
  all: destruct (verified_purchase review); cbn [negb].
  all: destruct (extreme_rating (rating review));
    rewrite ?andb_true_r, ?andb_false_r.
  all: destruct (Z.ltb_spec word_count 5);
    destruct (Z.ltb_spec word_count 10); try lia;
    destruct (Z.ltb_spec word_count 20); try lia.
  all: destruct (Z.leb_spec 2 (generic_count text)).
  all: repeat match goal with
         | |- context [if ?b then ?n else 0] =>
             let H := fresh "H" in
             assert (H : 0 <= (if b then n else 0)) by (destruct b; lia);
             generalize dependent (if b then n else 0); intros
         end.
  all: lia.
Qed.

End ReasonFacts.

(** ** Sentences and tokens *)

Module AspectFacts.
Import Py Aspects TextFacts.

Lemma extract_sentences_spec (text s : string) :
  In s (extract_sentences text) ->
  10 < len s /\ strip s = s
  /\ all_chars (fun c => negb (sentence_end c)) s = true
  /\ exists a b, text = a ++ s ++ b.
Proof.
  unfold extract_sentences. cbv zeta. intros H.
  apply in_map_iff in H as (piece & <- & Hin).
  apply list_elem_of_In, list_elem_of_filter in Hin as [Hcond Hin].
  apply andb_true_iff in Hcond as [_ Hlen]. apply Z.ltb_lt in Hlen.
  pose proof (re_split_pieces sentence_end text) as HF.
  rewrite Forall_forall in HF.
  destruct (HF piece Hin) as [Hchars (a & b & E)].
  split; [exact Hlen|]. split; [apply strip_idempotent|].
  split; [apply all_chars_strip; exact Hchars|].
  destruct (strip_inside piece) as (a' & b' & E').
  exists (a ++ a'), (b' ++ b).
  rewrite E, E' at 1. rewrite !append_assoc. reflexivity.
Qed.

(** X28. A sentence [find_aspect_in_text] returns is one of the sentences
    of the text that holds one of the keywords, case apart.  It has more
    than ten characters, no white space around it and none of the
    characters that end a sentence, and it is a part of the text. *)
Theorem find_aspect_in_text_sentences
  (text aspect : string) (keywords : list string) (s : string) :
  In s (find_aspect_in_text text aspect keywords) ->
  In s (extract_sentences text)
  /\ (exists keyword,
        In keyword keywords /\ contains keyword (lower s) = true)
  /\ 10 < len s /\ strip s = s
  /\ all_chars (fun c => negb (sentence_end c)) s = true
  /\ exists a b, text = a ++ s ++ b.
Proof.
  unfold find_aspect_in_text. cbv zeta. intros H.
  apply list_elem_of_In, list_elem_of_filter in H as [Hkw Hin].
  apply list_elem_of_In in Hin.
  split; [exact Hin|]. split.
  - apply existsb_exists in Hkw as (keyword & Hk & Hc).
    exists keyword. split; assumption.
  - apply extract_sentences_spec. exact Hin.
Qed.

Lemma find_aspect_in_text_sentences_witness :
  In "The battery lasts two days" (extract_sentences
       "The battery lasts two days!! Camera is ok. Charging is fast?")
  /\ (exists keyword,
        In keyword ["battery"; "charge"]
        /\ contains keyword (lower "The battery lasts two days") = true)
  /\ 10 < len "The battery lasts two days"
  /\ strip "The battery lasts two days" = "The battery lasts two days"
  /\ all_chars (fun c => negb (sentence_end c)) "The battery lasts two days"
     = true
  /\ exists a b,
       "The battery lasts two days!! Camera is ok. Charging is fast?"
       = a ++ "The battery lasts two days" ++ b.
Proof.
  apply (find_aspect_in_text_sentences
           "The battery lasts two days!! Camera is ok. Charging is fast?"
           "battery" ["battery"; "charge"] "The battery lasts two days").
  vm_compute. left. reflexivity.
Defined.

End AspectFacts.

Module TopicFacts.
Import Py Topics TextFacts.

Lemma letter_or_space_not_upper (c : ascii) :
  letter_or_space c = true -> negb (isupper c) = true.
Proof.
  unfold letter_or_space, islower, isspace, isupper.
  generalize (nat_of_ascii c). intros n H.
  apply negb_true_iff. apply andb_false_iff.
  destruct (Nat.leb_spec 65 n) as [Ha|Ha]; [|left; reflexivity].
  destruct (Nat.leb_spec n 90) as [Hb|Hb]; [|right; reflexivity].
  exfalso.
  apply orb_true_iff in H as [H|H].
  - apply andb_true_iff in H as [H1 H2]. apply Nat.leb_le in H1. lia.
  - apply orb_true_iff in H as [H|H];
      apply andb_true_iff in H as [H1 H2];
      apply Nat.leb_le in H1; apply Nat.leb_le in H2; lia.
Qed.

Lemma letter_not_space (c : ascii) :
  letter_or_space c && negb (isspace c) = true -> islower c = true.
Proof.
  unfold letter_or_space. destruct (islower c); [reflexivity|].
  destruct (isspace c); discriminate.
Qed.

Lemma filter_fixed {A : Type} (P : A -> Prop) `{forall x, Decision (P x)}
  (l : list A) :
  Forall P l -> filter P l = l.
Proof.
  induction 1 as [|x l Hx Hl IH]; [reflexivity|].
  rewrite filter_cons_True by exact Hx. rewrite IH. reflexivity.
Qed.

(** The words [preprocess_text] keeps. *)
Definition kept (w : string) : Prop :=
  negb (member w STOPWORDS) && (2 <? len w) = true.

Lemma preprocess_text_words (text : string) :
  Forall (fun w => w <> "" /\ all_chars letter_or_space w = true
                   /\ all_chars (fun c => negb (isspace c)) w = true
                   /\ kept w)
         (preprocess_text text).
Proof.
  unfold preprocess_text. cbv zeta.
  pose proof (split_words_chars letter_or_space
                (re_sub_outside letter_or_space (lower text))
                (re_sub_outside_chars letter_or_space _ eq_refl)) as HF.
  rewrite Forall_forall in HF. apply Forall_forall. intros w Hw.
  apply list_elem_of_filter in Hw as [Hk Hw].
  destruct (HF w Hw) as (H1 & H2 & H3).
  repeat split; assumption.
Qed.

(** X29. The tokens of [preprocess_text] are words of lower-case letters,
    longer than two characters, none of them a stop word; and the tokens
    are stable: joined by spaces and tokenised again they come out
    unchanged. *)
Theorem preprocess_text_tokens (text : string) :
  Forall (fun w => all_chars islower w = true /\ 2 < len w
                   /\ member w STOPWORDS = false)
         (preprocess_text text)
  /\ preprocess_text (join " " (preprocess_text text)) = preprocess_text text.
Proof.
  pose proof (preprocess_text_words text) as HF.
  split.
  - eapply Forall_impl; [exact HF|].
    intros w (Hne & HL & Hsp & Hk). cbv beta.
    unfold kept in Hk. apply andb_true_iff in Hk as [Hs Hlen].
    apply negb_true_iff in Hs. apply Z.ltb_lt in Hlen.
    split; [|split; assumption].
    eapply all_chars_impl; [exact letter_not_space|].
    apply all_chars_and; assumption.
  - set (ws := preprocess_text text) in *.
    assert (HJ : all_chars letter_or_space (join " " ws) = true).
    { apply all_chars_join; [reflexivity|].
      eapply Forall_impl; [exact HF|]. intros w H. apply H. }
    unfold preprocess_text at 1. cbv zeta.
    rewrite lower_fixed
      by (eapply all_chars_impl; [exact letter_or_space_not_upper|exact HJ]).
    rewrite re_sub_outside_fixed by exact HJ.
    rewrite split_join
      by (eapply Forall_impl; [exact HF|]; intros w H; split; apply H).
    apply filter_fixed.
    eapply Forall_impl; [exact HF|]. intros w H. apply H.
Qed.

End TopicFacts.

(** ** Common keywords *)

Module KeywordFacts.
Import Py Models Keywords TextFacts CounterFacts.

(** What one occurrence of a word adds to its count, and the count of a
    word after the words [ws]. *)
Definition weight (target_terms : list string) (w : string) : Z :=
  if Topics.member w target_terms then 3 else 1.

Definition occurrences (w : string) (ws : list string) : Z :=
  Z.of_nat (length (filter (fun x => x = w) ws)).

Definition boosted_count (target_terms : list string) (ws : list string)
  (w : string) : Z :=
  weight target_terms w * occurrences w ws.

Lemma occurrences_snoc (w x : string) (ws : list string) :
  occurrences w (ws ++ [x])
  = occurrences w ws + (if decide (x = w) then 1 else 0).
Proof.
  unfold occurrences. rewrite filter_app, length_app, filter_cons.
  destruct (decide (x = w)); simpl; lia.
Qed.

Lemma occurrences_absent (w : string) (ws : list string) :
  ~ In w ws -> occurrences w ws = 0.
Proof.
  unfold occurrences. induction ws as [|x ws IH]; intros H; [reflexivity|].
  rewrite filter_cons. destruct (decide (x = w)) as [->|_].
  - exfalso. apply H. left. reflexivity.
  - apply IH. intros Hin. apply H. right. exact Hin.
Qed.

Lemma count_word_incr (target_terms : list string) (d : list (string * Z))
  (w : string) :
  count_word target_terms d w = counter_incr (weight target_terms w) w d.
Proof.
  unfold count_word, weight. destruct (Topics.member w target_terms); reflexivity.
Qed.

(** [word_counts] after the words [ws]. *)
Definition counts_inv (target_terms : list string) (ws : list string)
  (d : list (string * Z)) : Prop :=
  NoDup (map fst d)
  /\ forall k,
       match get k d with
       | Some v => In k ws /\ v = boosted_count target_terms ws k
       | None => ~ In k ws
       end.

Lemma count_word_inv (target_terms ws : list string) (d : list (string * Z))
  (w : string) :
  counts_inv target_terms ws d ->
  counts_inv target_terms (ws ++ [w]) (count_word target_terms d w).
Proof.
  intros [Hnd Hget]. rewrite count_word_incr. unfold counter_incr.
  split; [apply counter_add_NoDup; exact Hnd|].
  intros k. unfold boosted_count. rewrite occurrences_snoc.
  destruct (decide (w = k)) as [->|Hne].
  - rewrite get_counter_add_same. split; [apply in_or_app; right; left; reflexivity|].
    specialize (Hget k). destruct (get k d) as [v|].
    + destruct Hget as [_ ->]. unfold boosted_count. lia.
    + rewrite (occurrences_absent k ws Hget). lia.
  - rewrite get_counter_add_other by congruence.
    specialize (Hget k). destruct (get k d) as [v|].
    + destruct Hget as [Hin ->]. split; [apply in_or_app; left; exact Hin|].
      unfold boosted_count. lia.
    + intros Hin. apply in_app_or in Hin as [Hin|[Hin|[]]]; [|congruence].
      exact (Hget Hin).
Qed.

Lemma fold_count_word_inv (target_terms l ws : list string)
  (d : list (string * Z)) :
  counts_inv target_terms ws d ->
  counts_inv target_terms (ws ++ l) (fold_left (count_word target_terms) l d).
Proof.
  revert ws d. induction l as [|w l IH]; intros ws d H.
  - rewrite app_nil_r. exact H.
  - cbn [fold_left].
    replace (ws ++ w :: l)%list with ((ws ++ [w]) ++ l)%list
      by (rewrite <- app_assoc; reflexivity).
    apply IH, count_word_inv, H.
Qed.

Lemma fold_reviews_inv (target_terms : list string) (reviews : list Review)
  (ws : list string) (d : list (string * Z)) :
  counts_inv target_terms ws d ->
  counts_inv target_terms (ws ++ concat (map counted_words reviews))
    (fold_left (fun word_counts review =>
                  fold_left (count_word target_terms) (counted_words review)
                            word_counts)
               reviews d).
Proof.
  revert ws d. induction reviews as [|r reviews IH]; intros ws d H.
  - simpl. rewrite app_nil_r. exact H.
  - cbn [fold_left map concat]. rewrite app_assoc.
    apply IH, fold_count_word_inv, H.
Qed.

(** In a list in descending order an element is at most those before
    it. *)
Lemma descending_by_le {A : Type} (key : A -> Z) (l : list A) :
  descending_by key l ->
  forall n i a b,
    l !! i = Some a -> l !! (i + n)%nat = Some b -> key b <= key a.
Proof.
  intros H. induction n as [|n IH]; intros i a b Ha Hb.
  - rewrite Nat.add_0_r in Hb. rewrite Ha in Hb. injection Hb as <-. lia.
  - destruct (l !! (i + n)%nat) as [c|] eqn:Ec.
    + specialize (IH i a c Ha Ec).
      replace (i + S n)%nat with (S (i + n)) in Hb by lia.
      pose proof (H (i + n)%nat c b Ec Hb). lia.
    + apply lookup_ge_None in Ec. apply lookup_lt_Some in Hb. lia.
Qed.

Lemma counted_words_spec (review : Review) (w : string) :
  In w (counted_words review) ->
  2 < len w /\ Topics.member w stopwords = false
  /\ exists w0, In w0 (split (lower (review_text review)))
                /\ w = strip_chars punctuation w0.
Proof.
  unfold counted_words. cbv zeta. intros H.
  apply list_elem_of_In, list_elem_of_filter in H as [Hk Hin].
  apply andb_true_iff in Hk as [Hlen Hs].
  apply Z.ltb_lt in Hlen. apply negb_true_iff in Hs.
  split; [exact Hlen|]. split; [exact Hs|].
  apply list_elem_of_In, in_map_iff in Hin as (w0 & <- & Hin).
  exists w0. split; [exact Hin | reflexivity].
Qed.

(** X30. The keywords [extract_common_keywords] returns.  A word counts
    for a review when it is one of its lower-cased words stripped of
    punctuation, is longer than two characters and is no stop word; its
    boosted count is the number of times it counts, three-fold for a
    target term.  The keywords are at most [top_n] such words, pairwise
    different, in descending order of boosted count, and a counted word is
    left out only when [top_n] keywords are returned, none of them with a
    smaller boosted count. *)
Theorem extract_common_keywords_ranked
  (reviews : list Review) (positive : bool) (top_n : nat) :
  let words := concat (map counted_words reviews) in
  let target_terms := if positive then positive_terms else negative_terms in
  let keywords := extract_common_keywords reviews positive top_n in
  (length keywords <= top_n)%nat
  /\ NoDup keywords
  /\ Forall (fun k =>
               2 < len k /\ Topics.member k stopwords = false
               /\ exists review w0,
                    In review reviews
                    /\ In w0 (split (lower (review_text review)))
                    /\ k = strip_chars punctuation w0)
            keywords
  /\ descending_by (boosted_count target_terms words) keywords
  /\ forall w,
       In w words ->
       In w keywords
       \/ (length keywords = top_n
           /\ Forall (fun k => boosted_count target_terms words w
                               <= boosted_count target_terms words k)
                     keywords).
Proof.
  cbv zeta. unfold extract_common_keywords. cbv zeta.
  set (target_terms := if positive then positive_terms else negative_terms).
  set (words := concat (map counted_words reviews)).
  destruct (fold_reviews_inv target_terms reviews [] [])
    as [Hnd Hget]; [split; [constructor|]; intros k H; exact H|].
  rewrite app_nil_l in Hget. fold words in Hget.
  set (d := fold_left _ reviews []) in *.
  unfold most_common.
  set (sorted := sorted_desc snd d).
  assert (Hperm : Permutation sorted d) by apply sorted_desc_perm.
  assert (Hval : forall k v, In (k, v) sorted ->
                   In k words /\ v = boosted_count target_terms words k).
  { intros k v Hin. eapply Permutation_in in Hin; [|exact Hperm].
    apply (get_In _ _ _ Hnd) in Hin. specialize (Hget k).
    rewrite Hin in Hget. exact Hget. }
  assert (Hdesc : descending_by snd sorted) by apply sorted_desc_descending.
  split; [rewrite length_map, length_take; lia|].
  split.
  { change (map fst ?l) with (fst <$> l). rewrite fmap_take.
    apply firstn_NoDup. unfold sorted. rewrite sorted_desc_perm. exact Hnd. }
  split.
  { apply Forall_forall. intros k Hk.
    apply list_elem_of_In, in_map_iff in Hk as ([k' v] & <- & Hin).
    apply firstn_In, Hval in Hin as [Hin _]. cbn [fst].
    unfold words in Hin. apply in_concat in Hin as (ws & Hws & Hin).
    apply in_map_iff in Hws as (review & <- & Hrev).
    destruct (counted_words_spec review k' Hin) as (H1 & H2 & w0 & H3 & H4).
    split; [exact H1|]. split; [exact H2|].
    exists review, w0. repeat split; assumption. }
  split.
  { apply descending_by_map.
    intros i a b Ha Hb.
    pose proof (descending_by_firstn snd top_n sorted Hdesc i a b Ha Hb) as Hle.
    apply list_elem_of_lookup_2, list_elem_of_In, firstn_In in Ha.
    apply list_elem_of_lookup_2, list_elem_of_In, firstn_In in Hb.
    destruct a as [ka va], b as [kb vb]. cbn [fst snd] in *.
    apply Hval in Ha as [_ ->]. apply Hval in Hb as [_ ->]. exact Hle. }
  intros w Hw.
  specialize (Hget w). destruct (get w d) as [v|] eqn:Eg; [|contradiction].
  destruct Hget as [_ Hv]. apply In_get in Eg.
  eapply Permutation_in in Eg; [|symmetry; exact Hperm].
  apply list_elem_of_In, list_elem_of_lookup_1 in Eg as [j Hj].
  destruct (Nat.lt_ge_cases j top_n) as [Hlt|Hge].
  - left. apply in_map_iff. exists (w, v). split; [reflexivity|].
    apply list_elem_of_In. apply (list_elem_of_lookup_2 _ j).
    rewrite lookup_take_lt by exact Hlt. exact Hj.
  - right. pose proof (lookup_lt_Some _ _ _ Hj) as Hlen.
    split; [rewrite length_map, length_take; lia|].
    apply Forall_forall. intros k Hk.
    apply list_elem_of_In, in_map_iff in Hk as ([k' v'] & <- & Hin).
    cbn [fst].
    apply list_elem_of_In, list_elem_of_lookup_1 in Hin as [i Hi].
    pose proof (lookup_lt_Some _ _ _ Hi) as Hi'. rewrite length_take in Hi'.
    rewrite lookup_take_lt in Hi by lia.
    pose proof (descending_by_le snd sorted Hdesc (j - i) i (k', v') (w, v) Hi)
      as Hle.
    replace (i + (j - i))%nat with j in Hle by lia.
    specialize (Hle Hj). cbn [snd] in Hle.
    apply list_elem_of_lookup_2, list_elem_of_In, Hval in Hi as [_ ->].
    rewrite <- Hv. exact Hle.
Qed.

End KeywordFacts.
